(** * llm-tuning-lab: the session data processor

    A shallow embedding of [lab/data_processor.py], [lab/loader.py],
    [lab/constants.py], [lab/check_data.py] and, of [lab/train_lora.py],
    [prepare_datasets], together with the part of the Python runtime they
    rest on: [str] as a sequence of code points, the values [json.loads]
    builds, [json.dumps] (compact and indented), the default (C accelerated)
    [json] scanner, subscripting, [dict.get], truthiness, f-string
    formatting, slices, [Path] ordering, exceptions, and the binary64
    arithmetic of the statistics and of the split.

    Outside the model: the floats of a JSON document and the Unicode
    character database (taken as parameters, see [PyRuntime]), the
    interpreter's recursion limit and its limit on the digits of an integer
    literal, patterns that [Path.glob] itself rejects, files whose decoding
    fails part-way, the parsing of the command line and of the environment
    ([main] starts from the parsed namespace and the loaded configuration),
    and the libraries [prepare_datasets] hands its columns to.

    Layout: the Python runtime first, then the repository's functions in the
    order of the source, the inputs the theorems are evaluated on, and then
    the theorems. *)

From Stdlib Require Import List NArith ZArith Lia Bool.
From Stdlib Require Import Decimal DecimalPos DecimalN DecimalZ.
From Stdlib Require Import Sorting.Sorted Sorting.Permutation.
From Stdlib Require Strings.String Strings.Ascii.
From Stdlib Require Floats.SpecFloat.
Import ListNotations.
Import String.StringSyntax.
Delimit Scope string_scope with string.

Local Open Scope N_scope.
Local Open Scope list_scope.

(** ** Python [str] *)

(** A [str] is a sequence of Unicode code points ([ord] of each character). *)
Definition pystr := list N.

(** ASCII literals.  [txt] reads a literal as it stands. *)
Definition txt (s : String.string) : pystr :=
  map Ascii.N_of_ascii (String.list_ascii_of_string s).
Arguments txt s%_string.

(** [qtxt] reads a literal in which a backquote stands for the double quote
    character (code point 34); the texts it is used for hold no backquote. *)
Definition qtxt (s : String.string) : pystr :=
  map (fun c => if c =? 96 then 34 else c) (txt s).
Arguments qtxt s%_string.

(** The newline character. *)
Definition nl : pystr := [10].

Definition pystr_eqb (a b : pystr) : bool :=
  if list_eq_dec N.eq_dec a b then true else false.

(** [sep.join(parts)] *)
Fixpoint join (sep : pystr) (parts : list pystr) : pystr :=
  match parts with
  | [] => []
  | [p] => p
  | p :: rest => p ++ sep ++ join sep rest
  end.

(** [s.startswith(prefix)] *)
Fixpoint startswith (prefix s : pystr) : bool :=
  match prefix, s with
  | [], _ => true
  | p :: prefix', c :: s' => (p =? c) && startswith prefix' s'
  | _ :: _, [] => false
  end.

(** [sub in s] *)
Fixpoint contains (sub s : pystr) : bool :=
  startswith sub s || match s with [] => false | _ :: s' => contains sub s' end.

(** [str.isspace] on one character: the characters CPython's
    [_PyUnicode_IsWhitespace] lists. *)
Definition isspace (c : N) : bool :=
  ((9 <=? c) && (c <=? 13)) || ((28 <=? c) && (c <=? 32))
  || (c =? 133) || (c =? 160) || (c =? 5760)
  || ((8192 <=? c) && (c <=? 8202))
  || (c =? 8232) || (c =? 8233) || (c =? 8239) || (c =? 8287) || (c =? 12288).

(** [not line.strip()]: stripping whitespace from both ends leaves nothing
    exactly when every character is whitespace. *)
Definition is_blank (line : pystr) : bool := forallb isspace line.

(** ** Exceptions and results *)

Inductive exn : Type :=
| KeyError (key : pystr)
| TypeError
| AttributeError
| JSONDecodeError
| FileNotFoundError
| ValueError
| OSError.

Inductive result (A : Type) : Type :=
| Ok (a : A)
| Raise (e : exn).
Arguments Ok {A} a.
Arguments Raise {A} e.

Definition bind {A B} (r : result A) (k : A -> result B) : result B :=
  match r with
  | Ok a => k a
  | Raise e => Raise e
  end.

Notation "x <- r ;; k" := (bind r (fun x => k))
  (at level 61, r at next level, right associativity).

(** A loop body run over a sequence, stopping at the first exception. *)
Fixpoint for_each {A B} (f : A -> result B) (l : list A) : result (list B) :=
  match l with
  | [] => Ok []
  | a :: l' => b <- f a ;; bs <- for_each f l' ;; Ok (b :: bs)
  end.

(** ** The parts of the runtime taken as parameters

    Floating point and the Unicode character database are outside this
    development.  What the code needs of them is collected here: the type of
    [float] objects, [float(text)] on a JSON number literal, the three JSON
    constants, what [json.dumps] writes for a float ([floatstr]),
    [float.__repr__], truthiness of a float, and [repr] of a [str] (which
    quotes and escapes by [str.isprintable]). *)
Class PyRuntime : Type := {
  pyfloat : Type;
  float_of_literal : pystr -> pyfloat;
  float_nan : pyfloat;
  float_inf : pyfloat;
  float_neg_inf : pyfloat;
  floatstr : pyfloat -> pystr;
  float_repr : pyfloat -> pystr;
  float_truthy : pyfloat -> bool;
  str_repr : pystr -> pystr
}.

(** A runtime for evaluating the model on inputs that hold no float and
    whose strings, where a container is formatted, need no escaping: a float
    is kept as its literal and [repr] of a string only adds the quotes. *)
Definition literal_runtime : PyRuntime := {|
  pyfloat := pystr;
  float_of_literal := fun s => s;
  float_nan := txt "NaN";
  float_inf := txt "Infinity";
  float_neg_inf := txt "-Infinity";
  floatstr := fun s => s;
  float_repr := fun s => s;
  float_truthy := fun _ => true;
  str_repr := fun s => [39] ++ s ++ [39]
|}.

(** ** Integers in decimal: [int.__repr__] and [int(text)] *)

Fixpoint uint_chars (d : uint) : pystr :=
  match d with
  | Nil => []
  | D0 d => 48 :: uint_chars d
  | D1 d => 49 :: uint_chars d
  | D2 d => 50 :: uint_chars d
  | D3 d => 51 :: uint_chars d
  | D4 d => 52 :: uint_chars d
  | D5 d => 53 :: uint_chars d
  | D6 d => 54 :: uint_chars d
  | D7 d => 55 :: uint_chars d
  | D8 d => 56 :: uint_chars d
  | D9 d => 57 :: uint_chars d
  end.

Definition int_repr (z : Z) : pystr :=
  match Z.to_int z with
  | Pos d => uint_chars d
  | Neg d => 45 :: uint_chars d
  end.

Definition is_digit (c : N) : bool := (48 <=? c) && (c <=? 57).

Definition digit_cons (c : N) : uint -> uint :=
  if c =? 48 then D0 else if c =? 49 then D1 else if c =? 50 then D2
  else if c =? 51 then D3 else if c =? 52 then D4 else if c =? 53 then D5
  else if c =? 54 then D6 else if c =? 55 then D7 else if c =? 56 then D8
  else D9.

Fixpoint uint_of_digits (ds : pystr) : uint :=
  match ds with
  | [] => Nil
  | c :: ds' => digit_cons c (uint_of_digits ds')
  end.

(** [int(text)] on the integer part of a JSON number: an optional minus
    sign followed by decimal digits. *)
Definition int_of_text (s : pystr) : Z :=
  match s with
  | c :: ds => if c =? 45 then Z.of_int (Neg (uint_of_digits ds))
               else Z.of_int (Pos (uint_of_digits s))
  | [] => 0%Z
  end.

(** A character of the visible ASCII range, space included. *)
Definition printable (c : N) : bool := (32 <=? c) && (c <=? 126).

(** ** [json]: strings *)

Definition hex_digit (d : N) : N := if d <? 10 then 48 + d else 87 + d.

(** ['{0:04x}'.format(n)] for [n < 0x10000]. *)
Definition hex4 (n : N) : pystr :=
  [hex_digit (n / 4096 mod 16); hex_digit (n / 256 mod 16);
   hex_digit (n / 16 mod 16); hex_digit (n mod 16)].

(** [ESCAPE_ASCII] matches a backslash, a double quote and every character
    outside the range from space to tilde. *)
Definition needs_escape (c : N) : bool :=
  (c =? 92) || (c =? 34) || negb ((32 <=? c) && (c <=? 126)).

(** The replacement of one matched character: [ESCAPE_DCT], else a [\u]
    escape, else a surrogate pair. *)
Definition escape_char (c : N) : pystr :=
  if c =? 92 then [92; 92]
  else if c =? 34 then [92; 34]
  else if c =? 8 then [92; 98]
  else if c =? 12 then [92; 102]
  else if c =? 10 then [92; 110]
  else if c =? 13 then [92; 114]
  else if c =? 9 then [92; 116]
  else if c <? 65536 then [92; 117] ++ hex4 c
  else
    let n := c - 65536 in
    let s1 := N.lor 55296 (N.land (N.shiftr n 10) 1023) in
    let s2 := N.lor 56320 (N.land n 1023) in
    [92; 117] ++ hex4 s1 ++ [92; 117] ++ hex4 s2.

Definition encode_char (c : N) : pystr :=
  if needs_escape c then escape_char c else [c].

Definition encode_body (s : pystr) : pystr := flat_map encode_char s.

(** [encode_basestring_ascii] *)
Definition encode_basestring_ascii (s : pystr) : pystr :=
  [34] ++ encode_body s ++ [34].

Definition hex_value (c : N) : option N :=
  if (48 <=? c) && (c <=? 57) then Some (c - 48)
  else if (97 <=? c) && (c <=? 102) then Some (c - 87)
  else if (65 <=? c) && (c <=? 70) then Some (c - 55)
  else None.

(** Four hexadecimal digits, most significant first. *)
Definition hex4_value (a b c d : N) : option N :=
  match hex_value a, hex_value b, hex_value c, hex_value d with
  | Some x, Some y, Some z, Some w => Some (((x * 16 + y) * 16 + z) * 16 + w)
  | _, _, _, _ => None
  end.

(** The [BACKSLASH] table of the decoder. *)
Definition backslash (e : N) : option N :=
  if e =? 34 then Some 34
  else if e =? 92 then Some 92
  else if e =? 47 then Some 47
  else if e =? 98 then Some 8
  else if e =? 102 then Some 12
  else if e =? 110 then Some 10
  else if e =? 114 then Some 13
  else if e =? 116 then Some 9
  else None.

Definition is_high_surrogate (c : N) : bool := (55296 <=? c) && (c <=? 56319).
Definition is_low_surrogate (c : N) : bool := (56320 <=? c) && (c <=? 57343).

Definition join_surrogates (hi lo : N) : N :=
  65536 + N.lor (N.shiftl (hi - 55296) 10) (lo - 56320).

Definition push (c : N) (r : option (pystr * pystr)) : option (pystr * pystr) :=
  match r with
  | Some (str, rest) => Some (c :: str, rest)
  | None => None
  end.

(** [scanstring] in strict mode, from the character after the opening
    quote: the decoded string and what follows the closing quote, or [None]
    where the scanner raises [JSONDecodeError]. *)
Fixpoint scanstring (s : pystr) : option (pystr * pystr) :=
  match s with
  | [] => None
  | c :: r =>
    if c =? 34 then Some ([], r)
    else if c =? 92 then
      match r with
      | [] => None
      | e :: r1 =>
        if e =? 117 then
          match r1 with
          | h1 :: h2 :: h3 :: h4 :: r2 =>
            match hex4_value h1 h2 h3 h4 with
            | None => None
            | Some uni =>
              if is_high_surrogate uni then
                match r2 with
                | b :: u :: r3 =>
                  if (b =? 92) && (u =? 117) then
                    match r3 with
                    | g1 :: g2 :: g3 :: g4 :: r4 =>
                      match hex4_value g1 g2 g3 g4 with
                      | None => None
                      | Some uni2 =>
                        if is_low_surrogate uni2
                        then push (join_surrogates uni uni2) (scanstring r4)
                        else push uni (scanstring r2)
                      end
                    | _ => None
                    end
                  else push uni (scanstring r2)
                | _ => push uni (scanstring r2)
                end
              else push uni (scanstring r2)
            end
          | _ => None
          end
        else
          match backslash e with
          | Some ch => push ch (scanstring r1)
          | None => None
          end
      end
    else if c <? 32 then None
    else push c (scanstring r)
  end.

(** [_decode_uXXXX]: the four hexadecimal digits after [\u]. *)
Definition decode_uXXXX (s : pystr) : option (N * pystr) :=
  match s with
  | h1 :: h2 :: h3 :: h4 :: r =>
    match hex4_value h1 h2 h3 h4 with
    | Some uni => Some (uni, r)
    | None => None
    end
  | _ => None
  end.

(** The text [tail] starts with a [\u] escape that is a low surrogate, or
    that cannot be decoded. *)
Definition low_escape_next (tail : pystr) : bool :=
  startswith [92; 117] tail
  && match decode_uXXXX (skipn 2 tail) with
     | Some (uni2, _) => is_low_surrogate uni2
     | None => true
     end.

Definition starts_with_low (s : pystr) : bool :=
  match s with
  | c :: _ => is_low_surrogate c
  | [] => false
  end.

(** A string [scanstring] gives back as it was: code points in range, and
    no high surrogate directly before a low surrogate (the decoder would
    read the two escapes as one character). *)
Fixpoint str_ok (s : pystr) : bool :=
  match s with
  | [] => true
  | c :: r =>
    (c <? 1114112) && negb (is_high_surrogate c && starts_with_low r) && str_ok r
  end.

Definition is_surrogate (c : N) : bool := (55296 <=? c) && (c <=? 57343).

(** A text as decoding a file gives it: code points in range, none of them
    a surrogate. *)
Definition text_ok (s : pystr) : bool :=
  forallb (fun c => (c <? 1114112) && negb (is_surrogate c)) s.

(** [rest] is what is left of [s] after a non-empty prefix. *)
Definition shorter (rest s : pystr) : Prop :=
  exists pre, pre <> [] /\ s = pre ++ rest.


(** ** [json]: whitespace and numbers *)

Definition is_ws (c : N) : bool := (c =? 32) || (c =? 9) || (c =? 10) || (c =? 13).

(** [WHITESPACE.match(s, end).end()] *)
Fixpoint skip_ws (s : pystr) : pystr :=
  match s with
  | c :: r => if is_ws c then skip_ws r else s
  | [] => []
  end.

(** The longest run of decimal digits at the head of [s], and the rest. *)
Fixpoint span_digits (s : pystr) : pystr * pystr :=
  match s with
  | c :: r => if is_digit c then let (ds, rest) := span_digits r in (c :: ds, rest)
              else ([], s)
  | [] => ([], [])
  end.

(** The optional fraction: a dot followed by at least one digit. *)
Definition match_frac (s : pystr) : pystr * pystr :=
  match s with
  | c :: r =>
    if c =? 46 then
      match span_digits r with
      | ([], _) => ([], s)
      | (ds, rest) => (c :: ds, rest)
      end
    else ([], s)
  | [] => ([], [])
  end.

(** The optional exponent: e or E, an optional sign, at least one digit. *)
Definition match_exp (s : pystr) : pystr * pystr :=
  match s with
  | c :: r =>
    if (c =? 101) || (c =? 69) then
      let (sign, r') :=
        match r with
        | g :: t => if (g =? 45) || (g =? 43) then ([g], t) else ([], r)
        | [] => ([], r)
        end in
      match span_digits r' with
      | ([], _) => ([], s)
      | (ds, rest) => (c :: sign ++ ds, rest)
      end
    else ([], s)
  | [] => ([], [])
  end.

(** The integer part: an optional minus sign, then either a single zero or
    a non-zero digit followed by any number of digits. *)
Definition match_integer (s : pystr) : option (pystr * pystr) :=
  let (sign, s1) :=
    match s with
    | c :: r => if c =? 45 then ([c], r) else ([], s)
    | [] => ([], s)
    end in
  match s1 with
  | c :: r =>
    if c =? 48 then Some (sign ++ [c], r)
    else if is_digit c then let (ds, rest) := span_digits r in Some (sign ++ c :: ds, rest)
    else None
  | [] => None
  end.

(** The scanner's number match: integer part, fraction, exponent, rest. *)
Definition match_number (s : pystr) : option (pystr * pystr * pystr * pystr) :=
  match match_integer s with
  | Some (integer, r) =>
    let (frac, r1) := match_frac r in
    let (exp, r2) := match_exp r1 in
    Some (integer, frac, exp, r2)
  | None => None
  end.

Definition starts_with_digit (s : pystr) : bool :=
  match s with
  | c :: _ => is_digit c
  | [] => false
  end.


(** A text stops a number: it is empty or starts with no digit, dot or
    exponent letter. *)
Definition ends_number (rest : pystr) : bool :=
  match rest with
  | c :: _ => negb (is_digit c || (c =? 46) || (c =? 101) || (c =? 69))
  | [] => true
  end.

(** ** The file system the loaders read

    [catalogue_file] is the text of [data/tool_catalogue.json] next to the
    package, [None] when the file is missing.  A [Path] is its sequence of
    components.  [glob] is [Path(data_dir).glob(pattern)] in the order the
    operating system lists the entries; [read_lines] gives the lines of a
    file as iterating over it yields them, [None] when [open] fails. *)
Definition path := list pystr.

Record World : Type := {
  catalogue_file : option pystr;
  dir_exists : pystr -> bool;
  glob : pystr -> pystr -> list path;
  read_lines : path -> option (list pystr)
}.

(** ** [Path] ordering and [sorted] *)

(** Sequence comparison as Python does it for [str] and [list]: the first
    position that differs decides, a proper prefix is smaller. *)
Fixpoint seq_compare {A} (cmp : A -> A -> comparison) (a b : list A) : comparison :=
  match a, b with
  | [], [] => Eq
  | [], _ :: _ => Lt
  | _ :: _, [] => Gt
  | x :: a', y :: b' =>
    match cmp x y with
    | Eq => seq_compare cmp a' b'
    | c => c
    end
  end.

Definition str_compare : pystr -> pystr -> comparison := seq_compare N.compare.

(** [Path.__lt__] compares the component sequences. *)
Definition path_compare : path -> path -> comparison := seq_compare str_compare.

Definition path_lt (a b : path) : bool :=
  match path_compare a b with Lt => true | _ => false end.

(** [a <= b] in the order [sorted] establishes: not [b < a]. *)
Definition path_le (a b : path) : Prop := path_lt b a = false.

Fixpoint insert_sorted (x : path) (l : list path) : list path :=
  match l with
  | [] => [x]
  | y :: l' => if path_lt y x then y :: insert_sorted x l' else x :: l
  end.

(** [sorted(files)]: a stable sort that only asks [<]. *)
Definition sorted (l : list path) : list path := fold_right insert_sorted [] l.

(** The outcome of a scanner: a value and the text after it, a
    [JSONDecodeError], or the recursion budget of the model used up. *)
Inductive scan (A : Type) : Type :=
| Scanned (a : A) (rest : pystr)
| Invalid
| Exhausted.
Arguments Scanned {A} a rest.
Arguments Invalid {A}.
Arguments Exhausted {A}.

Section Embedding.

Context {RT : PyRuntime}.

(** ** The values [json.loads] builds

    A [dict] keeps its items in insertion order. *)
Unset Elimination Schemes.
Inductive value : Type :=
| JNull
| JBool (b : bool)
| JInt (z : Z)
| JFloat (f : pyfloat)
| JStr (s : pystr)
| JList (l : list value)
| JDict (d : list (pystr * value)).
Set Elimination Schemes.

(** ** [json.dumps] *)

Definition newline_indent (n level : nat) : pystr := nl ++ repeat 32 (n * level)%nat.

(** [_iterencode] with [ensure_ascii] on.  [indent = None] is the compact
    form with separators [", "] and [": "]; [indent = Some n] starts each
    item on its own line, items separated by [","]. *)
Fixpoint iterencode (indent : option nat) (level : nat) (v : value) : pystr :=
  match v with
  | JStr s => encode_basestring_ascii s
  | JNull => txt "null"
  | JBool true => txt "true"
  | JBool false => txt "false"
  | JInt z => int_repr z
  | JFloat f => floatstr f
  | JList l =>
    match l with
    | [] => txt "[]"
    | _ :: _ =>
      match indent with
      | None =>
        [91] ++ join (txt ", ") (map (iterencode indent level) l) ++ [93]
      | Some n =>
        [91] ++ newline_indent n (S level)
        ++ join ([44] ++ newline_indent n (S level))
                (map (iterencode indent (S level)) l)
        ++ newline_indent n level ++ [93]
      end
    end
  | JDict d =>
    match d with
    | [] => txt "{}"
    | _ :: _ =>
      match indent with
      | None =>
        [123] ++ join (txt ", ")
                   (map (fun kv => encode_basestring_ascii (fst kv) ++ txt ": "
                                   ++ iterencode indent level (snd kv)) d)
        ++ [125]
      | Some n =>
        [123] ++ newline_indent n (S level)
        ++ join ([44] ++ newline_indent n (S level))
                (map (fun kv => encode_basestring_ascii (fst kv) ++ txt ": "
                                ++ iterencode indent (S level) (snd kv)) d)
        ++ newline_indent n level ++ [125]
      end
    end
  end.

(** [json.dumps(v)] *)
Definition dumps (v : value) : pystr := iterencode None 0 v.

(** [json.dumps(v, indent=n)] *)
Definition dumps_indent (n : nat) (v : value) : pystr := iterencode (Some n) 0 v.

(** ** [json.loads] *)

(** [d[k] = v] on a [dict]: an existing key keeps its place. *)
Fixpoint dict_set (d : list (pystr * value)) (k : pystr) (v : value) : list (pystr * value) :=
  match d with
  | [] => [(k, v)]
  | (k', v') :: d' =>
    if pystr_eqb k' k then (k', v) :: d' else (k', v') :: dict_set d' k v
  end.

(** [dict(pairs)] *)
Definition dict_of_pairs (pairs : list (pystr * value)) : list (pystr * value) :=
  fold_left (fun d kv => dict_set d (fst kv) (snd kv)) pairs [].

(** [scan_once], with [JSONArray] and [JSONObject] from the first item on.
    [array_loop] starts at an item; [object_loop] starts after the opening
    quote of a key. *)
Fixpoint scan_once (fuel : nat) (s : pystr) {struct fuel} : scan value :=
  match fuel with
  | O => Exhausted
  | S fuel' =>
    match s with
    | [] => Invalid
    | c :: r =>
      if c =? 34 then
        match scanstring r with
        | Some (str, rest) => Scanned (JStr str) rest
        | None => Invalid
        end
      else if c =? 123 then
        match skip_ws r with
        | c1 :: r1 =>
          if c1 =? 125 then Scanned (JDict []) r1
          else if c1 =? 34 then
            match object_loop fuel' r1 with
            | Scanned pairs rest => Scanned (JDict (dict_of_pairs pairs)) rest
            | Invalid => Invalid
            | Exhausted => Exhausted
            end
          else Invalid
        | [] => Invalid
        end
      else if c =? 91 then
        match skip_ws r with
        | c1 :: r1 =>
          if c1 =? 93 then Scanned (JList []) r1
          else
            match array_loop fuel' (c1 :: r1) with
            | Scanned values rest => Scanned (JList values) rest
            | Invalid => Invalid
            | Exhausted => Exhausted
            end
        | [] => Invalid
        end
      else if startswith (txt "null") s then Scanned JNull (skipn 4 s)
      else if startswith (txt "true") s then Scanned (JBool true) (skipn 4 s)
      else if startswith (txt "false") s then Scanned (JBool false) (skipn 5 s)
      else
        match match_number s with
        | Some (integer, frac, exp, rest) =>
          match frac, exp with
          | [], [] => Scanned (JInt (int_of_text integer)) rest
          | _, _ => Scanned (JFloat (float_of_literal (integer ++ frac ++ exp))) rest
          end
        | None =>
          if startswith (txt "NaN") s then Scanned (JFloat float_nan) (skipn 3 s)
          else if startswith (txt "Infinity") s then Scanned (JFloat float_inf) (skipn 8 s)
          else if startswith (txt "-Infinity") s then Scanned (JFloat float_neg_inf) (skipn 9 s)
          else Invalid
        end
    end
  end

with array_loop (fuel : nat) (s : pystr) {struct fuel} : scan (list value) :=
  match fuel with
  | O => Exhausted
  | S fuel' =>
    match scan_once fuel' s with
    | Scanned v r =>
      match skip_ws r with
      | c :: r1 =>
        if c =? 93 then Scanned [v] r1
        else if c =? 44 then
          match array_loop fuel' (skip_ws r1) with
          | Scanned vs rest => Scanned (v :: vs) rest
          | Invalid => Invalid
          | Exhausted => Exhausted
          end
        else Invalid
      | [] => Invalid
      end
    | Invalid => Invalid
    | Exhausted => Exhausted
    end
  end

with object_loop (fuel : nat) (s : pystr) {struct fuel} : scan (list (pystr * value)) :=
  match fuel with
  | O => Exhausted
  | S fuel' =>
    match scanstring s with
    | Some (key, r) =>
      match skip_ws r with
      | c :: r1 =>
        if c =? 58 then
          match scan_once fuel' (skip_ws r1) with
          | Scanned v r2 =>
            match skip_ws r2 with
            | c2 :: r3 =>
              if c2 =? 125 then Scanned [(key, v)] r3
              else if c2 =? 44 then
                match skip_ws r3 with
                | c3 :: r4 =>
                  if c3 =? 34 then
                    match object_loop fuel' r4 with
                    | Scanned pairs rest => Scanned ((key, v) :: pairs) rest
                    | Invalid => Invalid
                    | Exhausted => Exhausted
                    end
                  else Invalid
                | [] => Invalid
                end
              else Invalid
            | [] => Invalid
            end
          | Invalid => Invalid
          | Exhausted => Exhausted
          end
        else Invalid
      | [] => Invalid
      end
    | None => Invalid
    end
  end.

(** The recursion budget [loads] gives the scanner: never used up, see
    [scan_once_fuel]. *)
Definition loads_fuel (s : pystr) : nat := (2 * length s + 2)%nat.

(** [json.loads(s)] on a [str]: no byte order mark, one document between
    optional whitespace, nothing after it. *)
Definition loads (s : pystr) : result value :=
  if startswith [65279] s then Raise JSONDecodeError
  else
    match scan_once (loads_fuel s) (skip_ws s) with
    | Scanned v rest =>
      match skip_ws rest with
      | [] => Ok v
      | _ :: _ => Raise JSONDecodeError
      end
    | Invalid => Raise JSONDecodeError
    | Exhausted => Raise JSONDecodeError
    end.

(** ** Operations of the runtime on these values *)

Fixpoint dict_lookup (d : list (pystr * value)) (k : pystr) : option value :=
  match d with
  | [] => None
  | (k', v) :: d' => if pystr_eqb k' k then Some v else dict_lookup d' k
  end.

(** [v[k]] with a [str] key: only a [dict] can be subscripted this way. *)
Definition py_getitem (v : value) (k : pystr) : result value :=
  match v with
  | JDict d =>
    match dict_lookup d k with
    | Some x => Ok x
    | None => Raise (KeyError k)
    end
  | _ => Raise TypeError
  end.

(** [v.get(k, default)]: of these values only a [dict] has the method. *)
Definition py_get (v : value) (k : pystr) (default : value) : result value :=
  match v with
  | JDict d =>
    match dict_lookup d k with
    | Some x => Ok x
    | None => Ok default
    end
  | _ => Raise AttributeError
  end.

(** [v is None] *)
Definition is_none (v : value) : bool :=
  match v with JNull => true | _ => false end.

(** [isinstance(v, list)] *)
Definition is_list (v : value) : bool :=
  match v with JList _ => true | _ => false end.

(** [bool(v)], the test [if v:] makes. *)
Definition py_truthy (v : value) : bool :=
  match v with
  | JNull => false
  | JBool b => b
  | JInt z => negb (z =? 0)%Z
  | JFloat f => float_truthy f
  | JStr s => match s with [] => false | _ :: _ => true end
  | JList l => match l with [] => false | _ :: _ => true end
  | JDict d => match d with [] => false | _ :: _ => true end
  end.

(** [repr(v)] *)
Fixpoint py_repr (v : value) : pystr :=
  match v with
  | JNull => txt "None"
  | JBool true => txt "True"
  | JBool false => txt "False"
  | JInt z => int_repr z
  | JFloat f => float_repr f
  | JStr s => str_repr s
  | JList l => [91] ++ join (txt ", ") (map py_repr l) ++ [93]
  | JDict d =>
    [123] ++ join (txt ", ")
               (map (fun kv => str_repr (fst kv) ++ txt ": " ++ py_repr (snd kv)) d)
    ++ [125]
  end.

(** What a replacement field of an f-string writes for [v]: [str(v)]. *)
Definition py_format (v : value) : pystr :=
  match v with
  | JStr s => s
  | _ => py_repr v
  end.

(** The items [for x in v] visits: the elements of a [list], the keys of a
    [dict], the characters of a [str]. *)
Definition py_iter (v : value) : result (list value) :=
  match v with
  | JList l => Ok l
  | JDict d => Ok (map (fun kv => JStr (fst kv)) d)
  | JStr s => Ok (map (fun c => JStr [c]) s)
  | _ => Raise TypeError
  end.

(** [len(v)] *)
Definition py_len (v : value) : result Z :=
  match v with
  | JList l => Ok (Z.of_nat (length l))
  | JDict d => Ok (Z.of_nat (length d))
  | JStr s => Ok (Z.of_nat (length s))
  | _ => Raise TypeError
  end.

(** ** [lab/constants.py] *)

Definition TOOL_PREAMBLE : pystr := qtxt "
<TOOL_PREAMBLE>
You can optionally call tools. Available tools are provided in the tools section.

FORMAT
- To call a tool, output exactly one JSON object per tool call:
  {`type`:`tool_use`,`id`:`toolu_<unique_id>`,`name`:`<tool_name>`,`input`:{<parameters>}}
- The `id` field must be unique for each tool call (e.g., `toolu_01AbCdEfGhIjKlMnOp`)
- The `input` field contains the tool parameters as a JSON object
- If no tool is needed, write a normal assistant reply (no JSON).
- You can make multiple tool calls in one response by outputting an array of tool_use objects
- After a tool_result is shown in the conversation, ground your reply in that result. If another call is needed, emit new tool_use objects.

RULES
- Use only tools available in the provided tools catalog.
- Parameters in `input` must be valid JSON and match the tool's input_schema exactly (no extra keys).
- Required parameters must always be provided; optional parameters can be omitted.
- Parameters account_id, user_id, and session_id are auto-injected by the system - do not include them in your tool calls.
- If the needed tool is missing, say so and propose a manual workaround.
- Never fabricate tool results; only reason over provided tool_result blocks.
- Prefer making all needed tool calls at once when possible; if multi-step reasoning is required, do it turn-by-turn.

VALIDATION
- If you receive a validator error (type=tool_error, name=_validator), correct the call and emit a new tool_use object.

OUTPUT
- Do not wrap the JSON in code fences or add commentary on the same line.
- Choose a tool only when it adds essential info or executes an action.
</TOOL_PREAMBLE>
".

(** ** [lab/loader.py] *)

(** [load_tool_catalogue]: [open] raises [FileNotFoundError] on a missing
    file, [json.load] raises [JSONDecodeError] on text that is no document. *)
Definition load_tool_catalogue (w : World) : result value :=
  match catalogue_file w with
  | None => Raise FileNotFoundError
  | Some text => loads text
  end.

(** ** [lab/data_processor.py] *)

Record Metadata : Type := {
  has_tools : bool;
  num_messages : Z;
  response_type : pystr
}.

(** [output] is annotated [str]; the code stores whatever the response
    content is when that is no list. *)
Record TrainingExample : Type := {
  input : pystr;
  output : value;
  metadata : Metadata
}.

(** [load_session_files] *)
Definition load_session_files (w : World) (data_dir pattern : pystr) : result (list path) :=
  if negb (dir_exists w data_dir) then Raise FileNotFoundError
  else
    let files := glob w data_dir pattern in
    match files with
    | [] => Raise ValueError
    | _ :: _ => Ok (sorted files)
    end.

(** [inject_system_additions]; [str.join] raises [TypeError] on an item
    that is no [str]. *)
Definition inject_system_additions (system_prompt : value) (inject_preamble : bool)
  : result value :=
  if negb inject_preamble then Ok system_prompt
  else
    match system_prompt with
    | JStr s => Ok (JStr (join (nl ++ nl) [TOOL_PREAMBLE; s]))
    | _ => Raise TypeError
    end.

(** Lines 63 to 66 of [process_session_turn]: the tools value the rest of
    the function works with. *)
Definition effective_tools (w : World) (request : value) (inject_catalog : bool)
  : result value :=
  tools <- py_get request (txt "tools") JNull ;;
  if inject_catalog && is_none tools then load_tool_catalogue w else Ok tools.

Definition system_block (enhanced_system : value) : pystr :=
  txt "<|system|>" ++ nl ++ py_format enhanced_system ++ nl ++ txt "<|end|>".

Definition tools_block (tools : value) : pystr :=
  txt "<|tools|>" ++ nl ++ dumps_indent 2 tools ++ nl ++ txt "<|end|>".

Definition message_block (role content : value) : pystr :=
  txt "<|" ++ py_format role ++ txt "|>" ++ nl ++ py_format content ++ nl ++ txt "<|end|>".

(** The body of the loop over the messages. *)
Definition message_part (msg : value) : result pystr :=
  role <- py_getitem msg (txt "role") ;;
  content <- py_getitem msg (txt "content") ;;
  Ok (message_block role content).

(** [process_session_turn], statement by statement. *)
Definition process_session_turn (w : World) (turn_data : value)
    (inject_preamble inject_catalog : bool) : result TrainingExample :=
  request <- py_getitem turn_data (txt "request") ;;
  response <- py_getitem turn_data (txt "response") ;;
  original_system <- py_get request (txt "system") (JStr []) ;;
  enhanced_system <- inject_system_additions original_system inject_preamble ;;
  tools <- effective_tools w request inject_catalog ;;
  messages <- py_get request (txt "messages") (JList []) ;;
  let input_parts := [system_block enhanced_system] in
  let input_parts :=
    if py_truthy tools then input_parts ++ [tools_block tools] else input_parts in
  msgs <- py_iter messages ;;
  parts <- for_each message_part msgs ;;
  let input_parts := input_parts ++ parts in
  let input_text := join (nl ++ nl) input_parts in
  output_content <- py_get response (txt "content") (JStr []) ;;
  let output_text :=
    if is_list output_content then JStr (dumps output_content) else output_content in
  n <- py_len messages ;;
  Ok {| input := input_text;
        output := output_text;
        metadata := {| has_tools := negb (is_none tools);
                       num_messages := n;
                       response_type := if is_list output_content
                                        then txt "tool_calls" else txt "text" |} |}.

(** What the generator [load_training_data] does, in order: an example
    yielded or a warning printed.  A warning names the file and the line
    number and ends with the text of the exception. *)
Inductive warning_kind : Type := InvalidJSON | MissingKey.

Inductive event : Type :=
| Yielded (example : TrainingExample)
| Warned (kind : warning_kind) (file : path) (line_num : nat) (e : exn).

(** A run of the generator: its events and the exception that ended it,
    [None] when it ran to its end. *)
Definition run : Type := list event * option exn.

(** One run after another; an exception ends both. *)
Definition then_run (a b : run) : run :=
  match snd a with
  | Some e => a
  | None => (fst a ++ fst b, snd b)
  end.

(** The loop over the lines of one file, [line_num] the number of the
    first line of [lines]. *)
Fixpoint read_records (w : World) (inject_preamble inject_catalog : bool)
    (file_path : path) (line_num : nat) (lines : list pystr) : run :=
  match lines with
  | [] => ([], None)
  | line :: rest =>
    let continue := read_records w inject_preamble inject_catalog file_path (S line_num) rest in
    if is_blank line then continue
    else
      match turn_data <- loads line ;;
            process_session_turn w turn_data inject_preamble inject_catalog with
      | Ok example => then_run ([Yielded example], None) continue
      | Raise JSONDecodeError =>
        then_run ([Warned InvalidJSON file_path line_num JSONDecodeError], None) continue
      | Raise (KeyError k) =>
        then_run ([Warned MissingKey file_path line_num (KeyError k)], None) continue
      | Raise e => ([], Some e)
      end
  end.

(** The loop over the files of one pattern. *)
Fixpoint read_files (w : World) (inject_preamble inject_catalog : bool)
    (files : list path) : run :=
  match files with
  | [] => ([], None)
  | file_path :: rest =>
    match read_lines w file_path with
    | None => ([], Some OSError)
    | Some lines =>
      then_run (read_records w inject_preamble inject_catalog file_path 1 lines)
               (read_files w inject_preamble inject_catalog rest)
    end
  end.

(** [load_training_data] *)
Fixpoint load_training_data (w : World) (data_dir : pystr) (file_patterns : list pystr)
    (inject_preamble inject_catalog : bool) : run :=
  match file_patterns with
  | [] => ([], None)
  | pattern :: rest =>
    match load_session_files w data_dir pattern with
    | Raise e => ([], Some e)
    | Ok files =>
      then_run (read_files w inject_preamble inject_catalog files)
               (load_training_data w data_dir rest inject_preamble inject_catalog)
    end
  end.

(** The examples a consumer of the generator receives. *)
Definition examples_of (r : run) : list TrainingExample :=
  flat_map (fun ev => match ev with Yielded ex => [ex] | Warned _ _ _ _ => [] end) (fst r).

(** The warnings printed. *)
Definition warnings_of (r : run) : list event :=
  filter (fun ev => match ev with Yielded _ => false | Warned _ _ _ _ => true end) (fst r).

End Embedding.

(** ** Reading a session turn

    Accessors used to state the properties; each follows the corresponding
    lookup of [process_session_turn]. *)
Section Accessors.

Context {RT : PyRuntime}.

(** [v.get(k, default)] where [v] is known to be a [dict]. *)
Definition field (v : value) (k : pystr) (default : value) : value :=
  match py_get v k default with
  | Ok x => x
  | Raise _ => default
  end.

Definition request_of (turn_data : value) : value :=
  match py_getitem turn_data (txt "request") with
  | Ok r => r
  | Raise _ => JNull
  end.

Definition response_of (turn_data : value) : value :=
  match py_getitem turn_data (txt "response") with
  | Ok r => r
  | Raise _ => JNull
  end.

(** [request.get("messages", [])] *)
Definition messages_of (turn_data : value) : value :=
  field (request_of turn_data) (txt "messages") (JList []).

(** [response.get("content", "")] *)
Definition content_of (turn_data : value) : value :=
  field (response_of turn_data) (txt "content") (JStr []).

(** [request.get("system", "")] *)
Definition system_of (turn_data : value) : value :=
  field (request_of turn_data) (txt "system") (JStr []).

Definition is_dict (v : value) : bool :=
  match v with JDict _ => true | _ => false end.

Definition is_str (v : value) : bool :=
  match v with JStr _ => true | _ => false end.

Definition has_key (v : value) (k : pystr) : bool :=
  match py_getitem v k with
  | Ok _ => true
  | Raise _ => false
  end.

(** A message of the data model: an object with a role and a content. *)
Definition well_formed_message (msg : value) : bool :=
  has_key msg (txt "role") && has_key msg (txt "content").

(** A session turn of the data model: an object whose request and response
    are objects, the system prompt a string, the messages a sequence of
    well-formed messages. *)
Definition well_formed_turn (turn_data : value) : bool :=
  is_dict (request_of turn_data) && is_dict (response_of turn_data)
  && is_str (system_of turn_data)
  && match messages_of turn_data with
     | JList msgs => forallb well_formed_message msgs
     | _ => false
     end.

(** The elements of a value that is a list. *)
Definition elements (v : value) : list value :=
  match v with
  | JList l => l
  | _ => []
  end.

(** The input text built from the system prompt, the tools and the message
    blocks. *)
Definition input_text_of (enhanced_system tools : value) (parts : list pystr) : pystr :=
  join (nl ++ nl)
       (([system_block enhanced_system]
         ++ if py_truthy tools then [tools_block tools] else [])
        ++ parts).

(** The example built once every lookup has succeeded. *)
Definition example_of (enhanced_system tools content : value) (parts : list pystr) (n : Z)
  : TrainingExample :=
  {| input := input_text_of enhanced_system tools parts;
     output := if is_list content then JStr (dumps content) else content;
     metadata := {| has_tools := negb (is_none tools);
                    num_messages := n;
                    response_type := if is_list content
                                     then txt "tool_calls" else txt "text" |} |}.

(** What one non-blank line comes to: parsed, then transformed. *)
Definition record_result (w : World) (ip ic : bool) (line : pystr) : result TrainingExample :=
  turn_data <- loads line ;; process_session_turn w turn_data ip ic.

(** A line the loader is built to get past: blank, or not a document, or a
    document the transformer accepts or rejects for a missing key. *)
Definition tolerated (w : World) (ip ic : bool) (line : pystr) : bool :=
  is_blank line
  || match loads line with
     | Raise _ => true
     | Ok turn_data =>
       match process_session_turn w turn_data ip ic with
       | Ok _ => true
       | Raise (KeyError _) => true
       | Raise _ => false
       end
     end.

(** The example of a valid line, none for any other line. *)
Definition line_example (w : World) (ip ic : bool) (line : pystr) : list TrainingExample :=
  if is_blank line then []
  else
    match record_result w ip ic line with
    | Ok ex => [ex]
    | Raise _ => []
    end.

(** The warning for a line that is no document or lacks a key, none for
    any other line. *)
Definition line_warning (w : World) (ip ic : bool) (file : path)
    (numbered_line : nat * pystr) : list event :=
  let (line_num, line) := numbered_line in
  if is_blank line then []
  else
    match loads line with
    | Raise e => [Warned InvalidJSON file line_num e]
    | Ok turn_data =>
      match process_session_turn w turn_data ip ic with
      | Raise (KeyError k) => [Warned MissingKey file line_num (KeyError k)]
      | _ => []
      end
    end.

(** The lines of a file with their numbers, counted from [first]. *)
Definition numbered (first : nat) (lines : list pystr) : list (nat * pystr) :=
  combine (seq first (length lines)) lines.

(** The keys of a [dict] are pairwise different. *)
Fixpoint distinct (keys : list pystr) : bool :=
  match keys with
  | [] => true
  | k :: ks => negb (existsb (pystr_eqb k) ks) && distinct ks
  end.

(** The documents the round trip is stated for: no float anywhere, every
    string and key satisfying [str_ok], the keys of every object pairwise
    different (as in any [dict]). *)
Fixpoint json_ok (v : value) : bool :=
  match v with
  | JNull => true
  | JBool _ => true
  | JInt _ => true
  | JFloat _ => false
  | JStr s => str_ok s
  | JList l => forallb json_ok l
  | JDict d =>
    forallb (fun kv => str_ok (fst kv) && json_ok (snd kv)) d && distinct (map fst d)
  end.

(** The strings and keys of a document satisfy [str_ok] and the keys of
    every object are pairwise different. *)
Fixpoint data_ok (v : value) : bool :=
  match v with
  | JStr s => str_ok s
  | JList l => forallb data_ok l
  | JDict d =>
    forallb (fun kv => str_ok (fst kv) && data_ok (snd kv)) d && distinct (map fst d)
  | _ => true
  end.

(** An item of an object: its key and its value are as [data_ok] asks. *)
Definition item_ok (kv : pystr * value) : bool := str_ok (fst kv) && data_ok (snd kv).

(** No float anywhere in a document. *)
Fixpoint float_free (v : value) : bool :=
  match v with
  | JFloat _ => false
  | JList l => forallb float_free l
  | JDict d => forallb (fun kv => float_free (snd kv)) d
  | _ => true
  end.


(** The characters a serialized value can start with. *)
Definition value_start (c : N) : bool :=
  (c =? 34) || (c =? 123) || (c =? 91) || (c =? 110) || (c =? 116) || (c =? 102)
  || (c =? 45) || is_digit c.

(** One item of a serialized object in the compact form. *)
Definition dumps_item (kv : pystr * value) : pystr :=
  encode_basestring_ascii (fst kv) ++ txt ": " ++ dumps (snd kv).


End Accessors.

(** * Previews, statistics and datasets

    [preview_examples] of [lab/data_processor.py], [lab/check_data.py] and
    [prepare_datasets] of [lab/train_lora.py]. *)

(** ** Slices *)

(** The position a slice bound [k] stands for in a sequence of length [n]:
    a negative bound counts from the end, and the position is clipped to
    the sequence. *)
Definition slice_bound (n : nat) (k : Z) : nat :=
  if (k <? 0)%Z then Z.to_nat (Z.of_nat n + k) else Nat.min (Z.to_nat k) n.

(** [l[:k]] *)
Definition slice_to {A} (k : Z) (l : list A) : list A :=
  firstn (slice_bound (length l) k) l.

(** [l[k:]] *)
Definition slice_from {A} (k : Z) (l : list A) : list A :=
  skipn (slice_bound (length l) k) l.

(** ** Binary64 arithmetic

    A Python [float] is an IEEE 754 binary64 number; its operations round
    to nearest, ties to even. *)
Definition float : Type := SpecFloat.spec_float.

(** [float(z)], exact below two to the 53. *)
Definition float_of_int (z : Z) : float := SpecFloat.binary_normalize 53 1024 z 0 false.

(** [x * y] and [x / y] on floats. *)
Definition float_mul : float -> float -> float := SpecFloat.SFmul 53 1024.
Definition float_div : float -> float -> float := SpecFloat.SFdiv 53 1024.

(** The literal [0.9]: the binary64 number nearest to nine tenths. *)
Definition nine_tenths : float := SpecFloat.S754_finite false 8106479329266893 (-53).

(** Exceptions of the reports' arithmetic beside those of [exn]. *)
Inductive failure : Type :=
| Raised (e : exn)
| ZeroDivisionError
| OverflowError.

Inductive outcome (A : Type) : Type :=
| Returned (a : A)
| Failed (f : failure).
Arguments Returned {A} a.
Arguments Failed {A} f.

(** [int(x)]: the integer part, towards zero. *)
Definition int_of_float (x : float) : outcome Z :=
  match x with
  | SpecFloat.S754_zero _ => Returned 0%Z
  | SpecFloat.S754_finite s m e =>
    let magnitude := Z.shiftl (Zpos m) e in
    Returned (if s then (- magnitude)%Z else magnitude)
  | SpecFloat.S754_infinity _ => Failed OverflowError
  | SpecFloat.S754_nan => Failed (Raised ValueError)
  end.

(** [a / b] on two [int]s, [b] not zero: the float nearest to the
    quotient (both below two to the 53, as lengths and counts are). *)
Definition true_divide (a b : Z) : float := float_div (float_of_int a) (float_of_int b).

(** The integer nearest to [num / den], ties to the even one. *)
Definition round_half_even (num den : Z) : Z :=
  let q := (num / den)%Z in
  let r := (num mod den)%Z in
  match (2 * r ?= den)%Z with
  | Lt => q
  | Gt => (q + 1)%Z
  | Eq => if Z.even q then q else (q + 1)%Z
  end.

(** [format(x, ".<d>f")]: the decimal with [d] digits after the point that
    is nearest to the exact value of [x], ties to even. *)
Definition format_fixed (d : nat) (x : float) : pystr :=
  let sign (s : bool) : pystr := if s then txt "-" else [] in
  let unit := (10 ^ Z.of_nat d)%Z in
  let decimal (scaled : Z) : pystr :=
    int_repr (scaled / unit)
    ++ match d with
       | O => []
       | S _ =>
         let digits := int_repr (scaled mod unit) in
         txt "." ++ repeat 48 (d - length digits) ++ digits
       end in
  match x with
  | SpecFloat.S754_nan => txt "nan"
  | SpecFloat.S754_infinity s => sign s ++ txt "inf"
  | SpecFloat.S754_zero s => sign s ++ decimal 0%Z
  | SpecFloat.S754_finite s m e =>
    sign s
    ++ decimal (if (0 <=? e)%Z then (Zpos m * 2 ^ e * unit)%Z
                else round_half_even (Zpos m * unit) (2 ^ (- e)))
  end.

(** ** What a report prints and how it ends *)

(** One after the other; an exception ends both. *)
Definition and_then {A E} (a b : list A * option E) : list A * option E :=
  match snd a with
  | Some e => a
  | None => (fst a ++ fst b, snd b)
  end.

(** A line of [main]'s output: a text printed, or a warning of the
    generator (whose text ends with the message of the exception). *)
Inductive printed : Type :=
| Text (line : pystr)
| Warning (kind : warning_kind) (file : path) (line_num : nat) (e : exn).

(** ** Configuration and command line *)

(** [DataConfig] of [lab/config.py]. *)
Record DataConfig : Type := {
  data_dir : pystr;
  train_files : list pystr;
  eval_files : list pystr;
  max_length : Z;
  inject_tool_preamble : bool;
  inject_tool_catalog : bool
}.

(** The [Config()] of a run with no setting in the environment. *)
Definition default_config : DataConfig := {|
  data_dir := txt "data";
  train_files := [];
  eval_files := [];
  max_length := 4096;
  inject_tool_preamble := true;
  inject_tool_catalog := true
|}.

(** The namespace [parse_args] returns in [check_data.main]. *)
Record Args : Type := {
  arg_data_dir : pystr;
  arg_pattern : pystr;
  arg_num_examples : Z;
  arg_no_preamble : bool;
  arg_no_catalog : bool;
  arg_stats : bool
}.

(** The namespace of a command line with no option. *)
Definition default_args : Args := {|
  arg_data_dir := txt "data";
  arg_pattern := txt "*.jsonl";
  arg_num_examples := 3;
  arg_no_preamble := false;
  arg_no_catalog := false;
  arg_stats := false
|}.

Section Reports.

Context {RT : PyRuntime}.

(** A report: the texts printed, one per call of [print] (without the
    newline [print] adds), and the exception that ended it. *)
Definition report : Type := list pystr * option failure.

Definition bool_str (b : bool) : pystr := if b then txt "True" else txt "False".

(** [str(example.metadata)] *)
Definition metadata_str (m : Metadata) : pystr :=
  txt "{'has_tools': " ++ bool_str (has_tools m)
  ++ txt ", 'num_messages': " ++ int_repr (num_messages m)
  ++ txt ", 'response_type': " ++ str_repr (response_type m) ++ txt "}".

(** [text[:500] + ("..." if len(text) > 500 else "")] *)
Definition clipped (text : pystr) : pystr :=
  slice_to 500 text ++ if (500 <? Z.of_nat (length text))%Z then txt "..." else [].

(** Lines 164 to 166 of [preview_examples].  [len] raises [TypeError] on
    null, a number or a boolean; of the sized values only a [str] can be
    sliced and joined to a [str] (a [dict] cannot be subscripted by a slice
    in Python 3.11, a [list] cannot be added to a [str]). *)
Definition preview_output (v : value) : report :=
  match py_len v with
  | Raise e => ([], Some (Raised e))
  | Ok n =>
    let lines := [nl ++ txt "[OUTPUT] (" ++ int_repr n ++ txt " chars)"; repeat 45 40] in
    match v with
    | JStr s => (lines ++ [clipped s], None)
    | _ => (lines, Some (Raised TypeError))
    end
  end.

(** The body of the loop of [preview_examples]. *)
Definition preview_example (i : Z) (example : TrainingExample) : report :=
  and_then
    ([nl ++ repeat 45 80;
      txt "EXAMPLE " ++ int_repr i;
      repeat 45 80;
      nl ++ txt "METADATA: " ++ metadata_str (metadata example);
      nl ++ txt "[INPUT] (" ++ int_repr (Z.of_nat (length (input example))) ++ txt " chars)";
      repeat 45 40;
      clipped (input example)], None)
    (preview_output (output example)).

(** The loop over [enumerate(examples, i)]. *)
Fixpoint preview_loop (i : Z) (examples : list TrainingExample) : report :=
  match examples with
  | [] => ([], None)
  | example :: rest => and_then (preview_example i example) (preview_loop (i + 1) rest)
  end.

(** [preview_examples] *)
Definition preview_examples (examples : list TrainingExample) (num_examples : Z) : report :=
  and_then
    ([nl ++ repeat 61 80;
      txt "PREVIEW OF "
      ++ int_repr (Z.min num_examples (Z.of_nat (length examples)))
      ++ txt " TRAINING EXAMPLES";
      repeat 61 80 ++ nl], None)
    (and_then (preview_loop 1 (slice_to num_examples examples))
              ([nl ++ repeat 61 80 ++ nl], None)).

(** ** [lab/check_data.py] *)

(** The counts [show_statistics] takes. *)
Definition count (p : TrainingExample -> bool) (examples : list TrainingExample) : Z :=
  Z.of_nat (length (filter p examples)).

Definition has_tools_count : list TrainingExample -> Z :=
  count (fun ex => has_tools (metadata ex)).

Definition text_responses : list TrainingExample -> Z :=
  count (fun ex => pystr_eqb (response_type (metadata ex)) (txt "text")).

Definition tool_responses : list TrainingExample -> Z :=
  count (fun ex => pystr_eqb (response_type (metadata ex)) (txt "tool_calls")).

(** [sum(...)] over integers. *)
Definition sum (l : list Z) : Z := fold_right Z.add 0%Z l.

(** [f"{count} ({count/total_examples*100:.1f}%)"], [total_examples] not
    zero. *)
Definition share (count total_examples : Z) : pystr :=
  int_repr count ++ txt " ("
  ++ format_fixed 1 (float_mul (true_divide count total_examples) (float_of_int 100))
  ++ txt "%)".

(** [show_statistics].  The averages are guarded against an empty list,
    the three percentages are not. *)
Definition show_statistics (examples : list TrainingExample) : report :=
  let heading := [nl ++ repeat 61 80; txt "DATASET STATISTICS"; repeat 61 80 ++ nl] in
  let total_examples := Z.of_nat (length examples) in
  let total_input_chars := sum (map (fun ex => Z.of_nat (length (input ex))) examples) in
  match for_each (fun ex => py_len (output ex)) examples with
  | Raise e => (heading, Some (Raised e))
  | Ok lengths =>
    let total_output_chars := sum lengths in
    let avg_input_chars :=
      if (0 <? total_examples)%Z then true_divide total_input_chars total_examples
      else float_of_int 0 in
    let avg_output_chars :=
      if (0 <? total_examples)%Z then true_divide total_output_chars total_examples
      else float_of_int 0 in
    let totals :=
      [txt "Total examples: " ++ int_repr total_examples;
       txt "Average input length: " ++ format_fixed 0 avg_input_chars ++ txt " chars";
       txt "Average output length: " ++ format_fixed 0 avg_output_chars ++ txt " chars";
       nl ++ txt "Response types:"] in
    if (total_examples =? 0)%Z then (heading ++ totals, Some ZeroDivisionError)
    else
      (heading ++ totals
       ++ [txt "  - Text responses: " ++ share (text_responses examples) total_examples;
           txt "  - Tool call responses: " ++ share (tool_responses examples) total_examples;
           txt "  - Examples with tools available: "
           ++ share (has_tools_count examples) total_examples;
           []], None)
  end.

(** What the generator prints while [list(...)] drains it. *)
Definition warnings_printed (r : run) : list printed :=
  flat_map (fun ev => match ev with
                      | Yielded _ => []
                      | Warned kind file line_num e => [Warning kind file line_num e]
                      end) (fst r).

Definition texts (r : report) : list printed * option failure :=
  (map Text (fst r), snd r).

(** The flags [main] passes on: an option of the command line can switch
    an injection off, the configuration decides otherwise. *)
Definition main_inject_preamble (args : Args) (config : DataConfig) : bool :=
  negb (arg_no_preamble args) && inject_tool_preamble config.

Definition main_inject_catalog (args : Args) (config : DataConfig) : bool :=
  negb (arg_no_catalog args) && inject_tool_catalog config.

(** [args.data_dir or config.data.data_dir] *)
Definition main_data_dir (args : Args) (config : DataConfig) : pystr :=
  match arg_data_dir args with
  | [] => data_dir config
  | _ :: _ => arg_data_dir args
  end.

(** The four lines [main] prints before it loads. *)
Definition main_heading (data_dir pattern : pystr) (inject_preamble inject_catalog : bool)
  : list printed :=
  [Text (nl ++ txt "Loading data from: " ++ data_dir);
   Text (txt "Pattern: " ++ pattern);
   Text (txt "Inject preamble: " ++ bool_str inject_preamble);
   Text (txt "Inject catalog: " ++ bool_str inject_catalog ++ nl)].

(** [f"Loaded {len(examples)} training examples"] *)
Definition loaded_line (examples : list TrainingExample) : printed :=
  Text (txt "Loaded " ++ int_repr (Z.of_nat (length examples)) ++ txt " training examples").

(** The run of the generator [main] drains. *)
Definition main_load (w : World) (args : Args) (config : DataConfig) : run :=
  load_training_data w (main_data_dir args config) [arg_pattern args]
    (main_inject_preamble args config) (main_inject_catalog args config).

(** [main] of [check_data.py], from the parsed command line and the loaded
    configuration on. *)
Definition main (w : World) (args : Args) (config : DataConfig)
  : list printed * option failure :=
  let data_dir := main_data_dir args config in
  let inject_preamble := main_inject_preamble args config in
  let inject_catalog := main_inject_catalog args config in
  let r := load_training_data w data_dir [arg_pattern args] inject_preamble inject_catalog in
  let examples := examples_of r in
  and_then
    (main_heading data_dir (arg_pattern args) inject_preamble inject_catalog, None)
    (and_then
       (warnings_printed r, option_map Raised (snd r))
       (and_then
          ([loaded_line examples], None)
          (and_then
             (if arg_stats args then texts (show_statistics examples) else ([], None))
             (texts (preview_examples examples (arg_num_examples args)))))).

(** ** [prepare_datasets] of [lab/train_lora.py] *)

(** The columns handed to [Dataset.from_dict]. *)
Record Dataset : Type := {
  input_column : list pystr;
  output_column : list value
}.

Definition dataset_of (examples : list TrainingExample) : Dataset :=
  {| input_column := map input examples; output_column := map output examples |}.

(** [int(len(train_examples) * 0.9)] *)
Definition split_index (len : Z) : outcome Z :=
  int_of_float (float_mul (float_of_int len) nine_tenths).

(** [config.data.train_files or ["*session*.jsonl"]] *)
Definition train_patterns (config : DataConfig) : list pystr :=
  match train_files config with
  | [] => [txt "*session*.jsonl"]
  | _ :: _ => train_files config
  end.

(** The run of the generator that gives [train_examples]. *)
Definition training_load (w : World) (config : DataConfig) : run :=
  load_training_data w (data_dir config) (train_patterns config)
    (inject_tool_preamble config) (inject_tool_catalog config).

(** [prepare_datasets]: the warnings printed on the way, and the two
    datasets or the exception. *)
Definition prepare_datasets (w : World) (config : DataConfig)
  : list printed * outcome (Dataset * Dataset) :=
  let loaded :=
    load_training_data w (data_dir config) (train_patterns config)
      (inject_tool_preamble config) (inject_tool_catalog config) in
  match snd loaded with
  | Some e => (warnings_printed loaded, Failed (Raised e))
  | None =>
    let train_examples := examples_of loaded in
    match eval_files config with
    | [] =>
      match split_index (Z.of_nat (length train_examples)) with
      | Failed f => (warnings_printed loaded, Failed f)
      | Returned split_idx =>
        (warnings_printed loaded,
         Returned (dataset_of (slice_to split_idx train_examples),
                   dataset_of (slice_from split_idx train_examples)))
      end
    | _ :: _ =>
      let held_out :=
        load_training_data w (data_dir config) (eval_files config)
          (inject_tool_preamble config) (inject_tool_catalog config) in
      match snd held_out with
      | Some e => (warnings_printed loaded ++ warnings_printed held_out, Failed (Raised e))
      | None =>
        (warnings_printed loaded ++ warnings_printed held_out,
         Returned (dataset_of train_examples, dataset_of (examples_of held_out)))
      end
    end
  end.

(** [f] holds of the [count] integers from [z] on. *)
Fixpoint all_from (f : Z -> bool) (count : nat) (z : Z) : bool :=
  match count with
  | O => true
  | S count' => f z && all_from f count' (z + 1)
  end.

(** The split index of a list of [len] examples is nine tenths of [len],
    rounded down. *)
Definition splits_at_nine_tenths (len : Z) : bool :=
  match split_index len with
  | Returned k => (k =? 9 * len / 10)%Z
  | Failed _ => false
  end.

End Reports.

(** ** Reading a corpus

    Notions used to state what the loader yields from a data directory. *)
Section Corpus.

Context {RT : PyRuntime}.

(** The block [process_session_turn] writes for a message. *)
Definition block_of (msg : value) : pystr :=
  message_block (field msg (txt "role") JNull) (field msg (txt "content") JNull).

(** The blocks of an input text after the system block: the tools block
    when the tools are truthy, then one block for each message. *)
Definition blocks_after_system (tools : value) (msgs : list value) : list pystr :=
  (if py_truthy tools then [tools_block tools] else []) ++ map block_of msgs.

(** [len(v)] is defined. *)
Definition is_sized (v : value) : bool :=
  match py_len v with
  | Ok _ => true
  | Raise _ => false
  end.

(** The warning the loader prints for an exception it catches. *)
Definition warning_for (e : exn) : warning_kind :=
  match e with
  | KeyError _ => MissingKey
  | _ => InvalidJSON
  end.

(** An event with its line number left out. *)
Definition unnumbered (ev : event) : event :=
  match ev with
  | Yielded ex => Yielded ex
  | Warned kind file _ e => Warned kind file 0 e
  end.

(** A line the loop of [load_training_data] gets past: a blank line, a
    line that yields an example, or one that raises an exception the loop
    catches. *)
Definition passes (w : World) (ip ic : bool) (line : pystr) : bool :=
  is_blank line
  || match record_result w ip ic line with
     | Ok _ => true
     | Raise JSONDecodeError => true
     | Raise (KeyError _) => true
     | Raise _ => false
     end.

(** The warning the loop prints for a numbered line, none when the line
    is blank, yields an example or raises what the loop does not catch. *)
Definition caught_warning (w : World) (ip ic : bool) (file : path)
    (numbered_line : nat * pystr) : list event :=
  let (line_num, line) := numbered_line in
  if is_blank line then []
  else
    match record_result w ip ic line with
    | Raise JSONDecodeError => [Warned InvalidJSON file line_num JSONDecodeError]
    | Raise (KeyError k) => [Warned MissingKey file line_num (KeyError k)]
    | _ => []
    end.

(** The lines of a file up to the first one the loop does not get past. *)
Fixpoint passed_prefix (w : World) (ip ic : bool) (lines : list pystr) : list pystr :=
  match lines with
  | [] => []
  | line :: rest =>
    if passes w ip ic line then line :: passed_prefix w ip ic rest else []
  end.

(** The exception raised by the first line the loop does not get past. *)
Fixpoint first_fatal (w : World) (ip ic : bool) (lines : list pystr) : option exn :=
  match lines with
  | [] => None
  | line :: rest =>
    if passes w ip ic line then first_fatal w ip ic rest
    else
      match record_result w ip ic line with
      | Raise e => Some e
      | Ok _ => None
      end
  end.

(** The lines of a file, none when it cannot be opened. *)
Definition file_lines (w : World) (file : path) : list pystr :=
  match read_lines w file with
  | Some lines => lines
  | None => []
  end.

(** The files the loader visits, in its order: pattern after pattern, the
    files of a pattern in ascending order. *)
Definition corpus_files (w : World) (data_dir : pystr) (file_patterns : list pystr)
  : list path :=
  flat_map (fun pattern => sorted (glob w data_dir pattern)) file_patterns.

(** A corpus the loader gets through: the directory exists, every pattern
    matches a file, every file can be read and the loop gets past every
    line. *)
Definition corpus_ok (w : World) (data_dir : pystr) (file_patterns : list pystr)
    (ip ic : bool) : bool :=
  dir_exists w data_dir
  && forallb (fun pattern => match glob w data_dir pattern with
                             | [] => false
                             | _ :: _ => true
                             end) file_patterns
  && forallb (fun file => match read_lines w file with
                          | Some lines => forallb (passes w ip ic) lines
                          | None => false
                          end) (corpus_files w data_dir file_patterns).

(** Where an event of the loader comes from: a line, not blank, of a file
    that one of the patterns matches.  An example is what the line comes
    to; a warning names the file and the number of the line, counted from
    one with the blank lines, and carries the exception the line raised. *)
Definition event_source (w : World) (data_dir : pystr) (file_patterns : list pystr)
    (ip ic : bool) (ev : event) : Prop :=
  exists pattern file lines n line,
    In pattern file_patterns
    /\ In file (glob w data_dir pattern)
    /\ read_lines w file = Some lines
    /\ nth_error lines n = Some line
    /\ is_blank line = false
    /\ match ev with
       | Yielded ex => record_result w ip ic line = Ok ex
       | Warned kind file' line_num e =>
         file' = file /\ line_num = S n
         /\ record_result w ip ic line = Raise e
         /\ kind = warning_for e
       end.

End Corpus.

(** ** The indented form read back

    Notions used to state that the scanner reads the indented form of
    [json.dumps] back. *)
Section Indented.

Context {RT : PyRuntime}.

(** What may follow a value inside an indented document: nothing, a comma,
    or the newline before a closing bracket or brace. *)
Definition delimited_line (rest : pystr) : bool :=
  match rest with
  | [] => true
  | c :: _ => (c =? 44) || (c =? 10)
  end.

(** What separates two items written with an indent. *)
Definition item_sep (n level : nat) : pystr := [44] ++ newline_indent n (S level).

(** One item of a serialized object in the indented form. *)
Definition indent_item (n level : nat) (kv : pystr * value) : pystr :=
  encode_basestring_ascii (fst kv) ++ txt ": " ++ iterencode (Some n) level (snd kv).

(** The statement proved by induction on the value: at any level, before a
    comma or a line break, the scanner reads an indented value back. *)
Definition scans_back_indented (n : nat) (v : value) : Prop :=
  json_ok v = true ->
  forall (level fuel : nat) (rest : pystr),
    delimited_line rest = true ->
    (2 * length (iterencode (Some n) level v ++ rest) <= fuel)%nat ->
    scan_once fuel (iterencode (Some n) level v ++ rest) = Scanned v rest.

End Indented.

(** * Concrete inputs

    Session lines, a catalogue and a data directory on which the theorems
    are later evaluated, under [literal_runtime]. *)

(** The document a line holds, null when it holds none. *)
Definition parse (line : pystr) : @value literal_runtime :=
  match @loads literal_runtime line with
  | Ok v => v
  | Raise _ => JNull
  end.

(** A session line with a text response and no tools of its own. *)
Definition text_line : pystr :=
  qtxt "{`request`: {`system`: `You are a test assistant.`, `tools`: null, `messages`: [{`role`: `user`, `content`: `Hello!`}]}, `response`: {`role`: `assistant`, `content`: `Hi there!`}}".

(** A session line whose response is one tool call. *)
Definition tool_call_line : pystr :=
  qtxt "{`request`: {`system`: `You are a test assistant.`, `tools`: null, `messages`: [{`role`: `user`, `content`: `Search for something`}]}, `response`: {`role`: `assistant`, `content`: [{`type`: `tool_use`, `id`: `call_123`, `name`: `search`, `input`: {`query`: `test`}}]}}".

(** A session line whose response object has no content. *)
Definition no_content_line : pystr :=
  qtxt "{`request`: {`system`: `S`, `messages`: []}, `response`: {`role`: `assistant`}}".

(** A session line that brings its own, empty, tools value. *)
Definition empty_tools_line : pystr :=
  qtxt "{`request`: {`system`: `S`, `tools`: [], `messages`: []}, `response`: {`content`: `ok`}}".

(** A session line that brings its own tools. *)
Definition own_tools_line : pystr :=
  qtxt "{`request`: {`system`: `S`, `tools`: {`some`: `tools`}, `messages`: []}, `response`: {`content`: `ok`}}".

(** A line that is a document but no object, and a line one of whose
    messages is a string. *)
Definition number_line : pystr := txt "5".
Definition string_message_line : pystr :=
  qtxt "{`request`: {`messages`: [`hi`]}, `response`: {`content`: `x`}}".

Definition session_file : path := [txt "data"; txt "a.jsonl"].

(** A data directory with two session files and a catalogue of one tool. *)
Definition demo_world (lines : list pystr) (catalogue : option pystr) : World :=
  {| catalogue_file := catalogue;
     dir_exists := fun d => pystr_eqb d (txt "data");
     glob := fun d p =>
       if pystr_eqb p (txt "*.jsonl")
       then [[txt "data"; txt "b.jsonl"]; session_file]
       else [];
     read_lines := fun f =>
       if list_eq_dec (list_eq_dec N.eq_dec) f session_file then Some lines
       else Some [] |}.

Definition demo_catalogue : pystr :=
  qtxt "[{`name`: `github_find_repositories`, `description`: `Find repositories`, `input_schema`: {`type`: `object`}}]".

Definition plain_world : World := demo_world [text_line] (Some demo_catalogue).

(** A session line whose response content is null. *)
Definition null_content_line : pystr :=
  qtxt "{`request`: {`system`: `S`, `messages`: []}, `response`: {`role`: `assistant`, `content`: null}}".

(** A session line whose system prompt is a list of blocks. *)
Definition system_blocks_line : pystr :=
  qtxt "{`request`: {`system`: [{`type`: `text`, `text`: `S`}], `messages`: []}, `response`: {`content`: `ok`}}".

(** A session line without a response. *)
Definition no_response_line : pystr := qtxt "{`request`: {}}".

(** The data directory, listed in the other order. *)
Definition relisted_world : World :=
  {| catalogue_file := catalogue_file plain_world;
     dir_exists := dir_exists plain_world;
     glob := fun d p => List.rev (glob plain_world d p);
     read_lines := read_lines plain_world |}.

(** A configuration whose training pattern matches the session files of
    the data directory, and a command line that asks for the statistics. *)
Definition demo_config : DataConfig :=
  {| data_dir := txt "data";
     train_files := [txt "*.jsonl"];
     eval_files := [];
     max_length := 4096;
     inject_tool_preamble := false;
     inject_tool_catalog := false |}.

Definition stats_args : Args :=
  {| arg_data_dir := txt "data";
     arg_pattern := txt "*.jsonl";
     arg_num_examples := 3;
     arg_no_preamble := false;
     arg_no_catalog := false;
     arg_stats := true |}.

(** The examples of the data directory. *)
Definition demo_examples : list (@TrainingExample literal_runtime) :=
  @examples_of literal_runtime
    (@load_training_data literal_runtime plain_world (txt "data") [txt "*.jsonl"] false false).

(** The same configuration with the training pattern given again for the
    evaluation. *)
Definition held_out_config : DataConfig :=
  {| data_dir := txt "data";
     train_files := [txt "*.jsonl"];
     eval_files := [txt "*.jsonl"];
     max_length := 4096;
     inject_tool_preamble := false;
     inject_tool_catalog := false |}.

(** * Properties *)

Section Properties.

Context {RT : PyRuntime}.

(** ** The result monad and [join] *)

Lemma bind_ok {A B} (r : result A) (k : A -> result B) (b : B) :
  bind r k = Ok b -> exists a, r = Ok a /\ k a = Ok b.
Proof.
  destruct r as [a|e]; simpl; intros H; [exists a; auto | discriminate].
Qed.

Ltac bind_inv H :=
  let a := fresh "x" in
  let Ha := fresh "E" in
  apply bind_ok in H; destruct H as (a & Ha & H).

Lemma join_cons (sep p : pystr) (parts : list pystr) :
  parts <> [] -> join sep (p :: parts) = p ++ sep ++ join sep parts.
Proof.
  destruct parts; [congruence | reflexivity].
Qed.

Lemma for_each_length {A B} (f : A -> result B) (l : list A) (bs : list B) :
  for_each f l = Ok bs -> length bs = length l.
Proof.
  revert bs; induction l as [|a l IH]; simpl; intros bs H.
  - now inversion H.
  - bind_inv H. bind_inv H. inversion H; subst; simpl. f_equal; auto.
Qed.

Lemma for_each_total {A B} (f : A -> result B) (l : list A) :
  (forall a, In a l -> exists b, f a = Ok b) -> exists bs, for_each f l = Ok bs.
Proof.
  induction l as [|a l IH]; simpl; intros H.
  - now exists [].
  - destruct (H a (or_introl eq_refl)) as (b & Hb).
    destruct IH as (bs & Hbs); [intros; apply H; now right|].
    exists (b :: bs). now rewrite Hb, Hbs.
Qed.

(** ** [inject_system_additions] *)

(** C7.  With the flag off [inject_system_additions] returns the system
    prompt unchanged; with the flag on it returns the fixed preamble, a
    blank-line separator (two newline characters) and then the original
    prompt, in that order. *)
Theorem inject_system_additions_spec (system_prompt : pystr) :
  inject_system_additions (JStr system_prompt) false = Ok (JStr system_prompt)
  /\ inject_system_additions (JStr system_prompt) true
     = Ok (JStr (TOOL_PREAMBLE ++ [10; 10] ++ system_prompt)).
Proof.
  split; reflexivity.
Qed.

(** With the flag off the function is the identity on every value. *)
Lemma inject_system_additions_off (v : value) :
  inject_system_additions v false = Ok v.
Proof. reflexivity. Qed.

(** ** Catalog attachment *)

(** C4.  Where the request's own tools value is [tools] (null when the key
    is absent): with injection on and [tools] null, the effective tools are
    what loading the catalogue gives; a non-null [tools] is kept whatever
    the flag; with injection off a null [tools] stays null. *)
Theorem effective_tools_spec (w : World) (request tools : value) (inject_catalog : bool)
  (Hget : py_get request (txt "tools") JNull = Ok tools) :
  (inject_catalog = true -> tools = JNull ->
     effective_tools w request inject_catalog = load_tool_catalogue w)
  /\ (tools <> JNull -> effective_tools w request inject_catalog = Ok tools)
  /\ (inject_catalog = false -> tools = JNull ->
        effective_tools w request inject_catalog = Ok JNull).
Proof.
  unfold effective_tools; rewrite Hget; simpl.
  repeat split.
  - intros -> ->; reflexivity.
  - intros Hn. destruct tools; try congruence; now rewrite andb_false_r.
  - intros -> ->; reflexivity.
Qed.

(** ** [process_session_turn] *)

(** Every example [process_session_turn] returns has this shape. *)
Lemma process_session_turn_inv (w : World) (t : value) (ip ic : bool) (ex : TrainingExample) :
  process_session_turn w t ip ic = Ok ex ->
  exists esys tools msgs parts n,
    is_dict (request_of t) = true
    /\ is_dict (response_of t) = true
    /\ inject_system_additions (system_of t) ip = Ok esys
    /\ effective_tools w (request_of t) ic = Ok tools
    /\ py_iter (messages_of t) = Ok msgs
    /\ for_each message_part msgs = Ok parts
    /\ py_len (messages_of t) = Ok n
    /\ ex = example_of esys tools (content_of t) parts n.
Proof.
  unfold process_session_turn; intros H.
  bind_inv H. bind_inv H. bind_inv H. bind_inv H. bind_inv H. bind_inv H.
  bind_inv H. bind_inv H. bind_inv H. bind_inv H.
  unfold system_of, messages_of, content_of, field, request_of, response_of.
  rewrite E, E0.
  assert (Hd : is_dict x = true) by (destruct x; simpl in E1; now try discriminate).
  assert (Hd0 : is_dict x0 = true) by (destruct x0; simpl in E7; now try discriminate).
  rewrite E1, E4, E7.
  exists x2, x3, x5, x6, x8. repeat split; auto.
  inversion H; subst. unfold example_of, input_text_of.
  destruct (py_truthy x3); reflexivity.
Qed.

Lemma well_formed_message_part (msg : value) :
  well_formed_message msg = true -> exists part, message_part msg = Ok part.
Proof.
  unfold well_formed_message, has_key, message_part; intros H.
  apply andb_prop in H; destruct H as [Hr Hc].
  destruct (py_getitem msg (txt "role")) as [role|]; [|discriminate].
  destruct (py_getitem msg (txt "content")) as [content|]; [|discriminate].
  simpl; eauto.
Qed.

Lemma py_get_field (v : value) (k : pystr) (default : value) :
  is_dict v = true -> py_get v k default = Ok (field v k default).
Proof.
  destruct v; try discriminate; intros _.
  unfold field; simpl. now destruct (dict_lookup d k).
Qed.

(** On a well-formed turn whose tools resolve, [process_session_turn]
    returns an example. *)
Lemma process_session_turn_ok (w : World) (t : value) (ip ic : bool) (tools : value) :
  well_formed_turn t = true ->
  effective_tools w (request_of t) ic = Ok tools ->
  exists esys parts,
    inject_system_additions (system_of t) ip = Ok esys
    /\ for_each message_part (elements (messages_of t)) = Ok parts
    /\ process_session_turn w t ip ic
       = Ok (example_of esys tools (content_of t) parts
                        (Z.of_nat (length (elements (messages_of t))))).
Proof.
  unfold well_formed_turn; intros Hwf Htools.
  apply andb_prop in Hwf; destruct Hwf as [Hwf Hmsgs].
  apply andb_prop in Hwf; destruct Hwf as [Hwf Hsys].
  apply andb_prop in Hwf; destruct Hwf as [Hreq Hresp].
  destruct (messages_of t) as [| | | | |msgs|] eqn:Emsgs; try discriminate.
  destruct (for_each_total message_part msgs) as (parts & Hparts).
  { intros m Hm. apply well_formed_message_part.
    rewrite forallb_forall in Hmsgs; auto. }
  destruct (system_of t) as [| | | |sys| |] eqn:Esys; try discriminate.
  assert (Hinj : exists esys, inject_system_additions (JStr sys) ip = Ok esys)
    by (destruct ip; eexists; reflexivity).
  destruct Hinj as (esys & Hinj).
  exists esys, parts; repeat split; auto.
  unfold process_session_turn.
  unfold system_of, messages_of, content_of, request_of, response_of in *.
  destruct (py_getitem t (txt "request")) as [request|]; [|discriminate].
  destruct (py_getitem t (txt "response")) as [response|]; [|discriminate].
  simpl bind.
  rewrite !(py_get_field request) by assumption.
  rewrite (py_get_field response) by assumption.
  simpl bind. rewrite Esys, Hinj. simpl bind.
  rewrite Htools. simpl bind. rewrite Emsgs. simpl.
  rewrite Hparts. simpl.
  unfold example_of, input_text_of.
  destruct (py_truthy tools); reflexivity.
Qed.

Lemma py_getitem_field (v x : value) (k : pystr) (default : value) :
  py_getitem v k = Ok x -> field v k default = x.
Proof.
  destruct v; try discriminate. unfold field; simpl.
  destruct (dict_lookup d k); [now inversion 1 | discriminate].
Qed.

Lemma missing_key_field (v : value) (k : pystr) (default : value) :
  has_key v k = false -> field v k default = default.
Proof.
  unfold has_key, field. destruct v; try reflexivity; simpl.
  destruct (dict_lookup d k); [discriminate | reflexivity].
Qed.

Lemma join_blocks (sep p : pystr) (parts : list pystr) :
  join sep (p :: parts) = p ++ concat (map (fun q => sep ++ q) parts).
Proof.
  revert p; induction parts as [|q parts IH]; intros p.
  - simpl. now rewrite app_nil_r.
  - rewrite join_cons by discriminate. rewrite IH. simpl.
    now rewrite <- !app_assoc.
Qed.

(** C2.  On a turn whose response content is the string [s],
    [process_session_turn] returns an example whose output is exactly [s]
    and whose response type is "text". *)
Theorem text_response_is_verbatim (w : World) (t : value) (ip ic : bool)
    (tools : value) (s : pystr)
  (Hwf : well_formed_turn t = true)
  (Htools : effective_tools w (request_of t) ic = Ok tools)
  (Hcontent : py_getitem (response_of t) (txt "content") = Ok (JStr s)) :
  exists ex,
    process_session_turn w t ip ic = Ok ex
    /\ output ex = JStr s
    /\ response_type (metadata ex) = txt "text".
Proof.
  destruct (process_session_turn_ok w t ip ic tools Hwf Htools)
    as (esys & parts & _ & _ & Hex).
  eexists; split; [exact Hex|].
  unfold content_of. rewrite (py_getitem_field _ _ _ _ Hcontent).
  split; reflexivity.
Qed.

(** C10.  On a turn whose response object has no content field,
    [process_session_turn] still returns an example: the output is the
    empty string and the response type is "text". *)
Theorem missing_content_defaults_to_empty_text (w : World) (t : value) (ip ic : bool)
    (tools : value)
  (Hwf : well_formed_turn t = true)
  (Htools : effective_tools w (request_of t) ic = Ok tools)
  (Hmissing : has_key (response_of t) (txt "content") = false) :
  exists ex,
    process_session_turn w t ip ic = Ok ex
    /\ output ex = JStr []
    /\ response_type (metadata ex) = txt "text".
Proof.
  destruct (process_session_turn_ok w t ip ic tools Hwf Htools)
    as (esys & parts & _ & _ & Hex).
  eexists; split; [exact Hex|].
  unfold content_of. rewrite (missing_key_field _ _ _ Hmissing).
  split; reflexivity.
Qed.

(** C8.  On a well-formed turn the example's [num_messages] is the number
    of entries of the request's messages; and whatever the two injection
    flags are, two examples made from one turn carry the same
    [num_messages], the length of the messages value. *)
Theorem num_messages_counts_the_messages (w : World) (t : value) (ip ic : bool)
    (tools : value)
  (Hwf : well_formed_turn t = true)
  (Htools : effective_tools w (request_of t) ic = Ok tools) :
  (exists ex,
      process_session_turn w t ip ic = Ok ex
      /\ num_messages (metadata ex) = Z.of_nat (length (elements (messages_of t))))
  /\ (forall w' ip' ic' ex',
        process_session_turn w' t ip' ic' = Ok ex' ->
        py_len (messages_of t) = Ok (num_messages (metadata ex'))
        /\ num_messages (metadata ex') = Z.of_nat (length (elements (messages_of t)))).
Proof.
  split.
  - destruct (process_session_turn_ok w t ip ic tools Hwf Htools)
      as (esys & parts & _ & _ & Hex).
    eexists; split; [exact Hex | reflexivity].
  - intros w' ip' ic' ex' Hex'.
    apply process_session_turn_inv in Hex'.
    destruct Hex' as (esys & tools' & msgs & parts & n & _ & _ & _ & _ & _ & _ & Hn & ->).
    split; [exact Hn|]. simpl.
    unfold well_formed_turn in Hwf.
    destruct (messages_of t); try (rewrite andb_false_r in Hwf; discriminate).
    simpl in Hn. now inversion Hn.
Qed.

(** C5, as the code has it.  The tools block is written exactly when the
    effective tools value is truthy (not null, not an empty sequence,
    mapping or string, not zero, not false).  Then the input text is the
    system block, a blank line, the tools block (open tag, the tools
    serialized with a 2-space indent, close tag), then every message block
    after a blank line.  When the effective tools value is null, or falsy,
    the message blocks follow the system block directly. *)
Theorem tools_block_when_truthy (w : World) (t : value) (ip ic : bool) (tools : value)
  (Hwf : well_formed_turn t = true)
  (Htools : effective_tools w (request_of t) ic = Ok tools) :
  exists ex esys parts,
    process_session_turn w t ip ic = Ok ex
    /\ inject_system_additions (system_of t) ip = Ok esys
    /\ for_each message_part (elements (messages_of t)) = Ok parts
    /\ (py_truthy tools = true ->
        input ex
        = system_block esys ++ [10; 10]
          ++ (txt "<|tools|>" ++ [10] ++ dumps_indent 2 tools ++ [10] ++ txt "<|end|>")
          ++ concat (map (fun part => [10; 10] ++ part) parts))
    /\ (py_truthy tools = false ->
        input ex = system_block esys ++ concat (map (fun part => [10; 10] ++ part) parts))
    /\ (tools = JNull ->
        input ex = system_block esys ++ concat (map (fun part => [10; 10] ++ part) parts)).
Proof.
  destruct (process_session_turn_ok w t ip ic tools Hwf Htools)
    as (esys & parts & Hsys & Hparts & Hex).
  eexists; exists esys, parts; split; [exact Hex|].
  change (input (example_of esys tools (content_of t) parts
                   (Z.of_nat (length (elements (messages_of t))))))
    with (input_text_of esys tools parts).
  unfold input_text_of. change (nl ++ nl) with [10; 10].
  repeat split; auto.
  - intros ->.
    change (([system_block esys] ++ [tools_block tools]) ++ parts)
      with (system_block esys :: tools_block tools :: parts).
    rewrite join_blocks. simpl concat.
    unfold tools_block, nl. now rewrite <- !app_assoc.
  - intros ->.
    change (([system_block esys] ++ []) ++ parts) with (system_block esys :: parts).
    now rewrite join_blocks.
  - intros ->.
    change (([system_block esys] ++ if py_truthy JNull then [tools_block JNull] else [])
            ++ parts) with (system_block esys :: parts).
    now rewrite join_blocks.
Qed.

(** ** [sorted] and [load_session_files] *)

Lemma seq_compare_antisym {A} (cmp : A -> A -> comparison) :
  (forall x y, cmp y x = CompOpp (cmp x y)) ->
  forall a b, seq_compare cmp b a = CompOpp (seq_compare cmp a b).
Proof.
  intros Hcmp; induction a as [|x a IH]; destruct b as [|y b]; simpl; auto.
  rewrite (Hcmp x y). destruct (cmp x y); simpl; auto.
Qed.

Lemma path_compare_antisym (a b : path) :
  path_compare b a = CompOpp (path_compare a b).
Proof.
  apply seq_compare_antisym. intros x y.
  apply seq_compare_antisym. intros c d. apply N.compare_antisym.
Qed.

Lemma path_lt_le (a b : path) : path_lt a b = true -> path_le a b.
Proof.
  unfold path_le, path_lt. rewrite (path_compare_antisym a b).
  destruct (path_compare a b); simpl; congruence.
Qed.

Lemma insert_sorted_perm (x : path) (l : list path) :
  Permutation (x :: l) (insert_sorted x l).
Proof.
  induction l as [|y l IH]; simpl; auto.
  destruct (path_lt y x); auto.
  eapply perm_trans; [apply perm_swap|]. now constructor.
Qed.

Lemma sorted_perm (l : list path) : Permutation l (sorted l).
Proof.
  induction l as [|x l IH]; simpl; auto.
  eapply perm_trans; [|apply insert_sorted_perm]. now constructor.
Qed.

Lemma insert_sorted_hd (x y : path) (l : list path) :
  path_le y x -> HdRel path_le y l -> HdRel path_le y (insert_sorted x l).
Proof.
  intros Hyx Hl. destruct l as [|z l]; simpl.
  - now constructor.
  - destruct (path_lt z x); constructor; auto. now inversion Hl.
Qed.

Lemma insert_sorted_sorted (x : path) (l : list path) :
  Sorted path_le l -> Sorted path_le (insert_sorted x l).
Proof.
  induction 1 as [|y l Hs IH Hhd]; simpl.
  - repeat constructor.
  - destruct (path_lt y x) eqn:E.
    + constructor; auto. apply insert_sorted_hd; auto. now apply path_lt_le.
    + constructor; [now constructor|]. constructor. exact E.
Qed.

Lemma sorted_sorted (l : list path) : Sorted path_le (sorted l).
Proof.
  induction l as [|x l IH]; simpl; [constructor | now apply insert_sorted_sorted].
Qed.

(** ** The order [sorted] establishes is a total order *)

Section SeqCompare.

Variable A : Type.
Variable cmp : A -> A -> comparison.
Hypothesis cmp_eq : forall x y, cmp x y = Eq -> x = y.
Hypothesis cmp_trans : forall x y z, cmp x y = Lt -> cmp y z = Lt -> cmp x z = Lt.

Lemma seq_compare_eq (a b : list A) : seq_compare cmp a b = Eq -> a = b.
Proof.
  revert b; induction a as [|x a IH]; destruct b as [|y b]; cbn; try discriminate; auto.
  destruct (cmp x y) eqn:E; try discriminate.
  intros H. apply cmp_eq in E. subst. f_equal. auto.
Qed.

Lemma seq_compare_trans (a b c : list A) :
  seq_compare cmp a b = Lt -> seq_compare cmp b c = Lt -> seq_compare cmp a c = Lt.
Proof.
  revert b c; induction a as [|x a IH]; intros [|y b] [|z c]; cbn; try discriminate; auto.
  destruct (cmp x y) eqn:Exy; try discriminate.
  - apply cmp_eq in Exy; subst y.
    destruct (cmp x z); try discriminate; auto. apply IH.
  - intros _. destruct (cmp y z) eqn:Eyz; try discriminate.
    + apply cmp_eq in Eyz; subst z. now rewrite Exy.
    + now rewrite (cmp_trans x y z Exy Eyz).
Qed.

End SeqCompare.

Lemma str_compare_eq (a b : pystr) : str_compare a b = Eq -> a = b.
Proof. apply seq_compare_eq. intros x y. apply N.compare_eq. Qed.

Lemma str_compare_trans (a b c : pystr) :
  str_compare a b = Lt -> str_compare b c = Lt -> str_compare a c = Lt.
Proof.
  apply seq_compare_trans.
  - intros x y. apply N.compare_eq.
  - intros x y z. rewrite !N.compare_lt_iff. apply N.lt_trans.
Qed.

Lemma path_compare_trans (a b c : path) :
  path_compare a b = Lt -> path_compare b c = Lt -> path_compare a c = Lt.
Proof.
  apply seq_compare_trans; [apply str_compare_eq | apply str_compare_trans].
Qed.

Lemma path_le_trans (a b c : path) : path_le a b -> path_le b c -> path_le a c.
Proof.
  unfold path_le, path_lt. rewrite (path_compare_antisym a b), (path_compare_antisym b c),
    (path_compare_antisym a c).
  destruct (path_compare a b) eqn:Eab; cbn; try discriminate; intros _.
  - apply seq_compare_eq in Eab; [subst b; auto | apply str_compare_eq].
  - destruct (path_compare b c) eqn:Ebc; cbn; try discriminate; intros _.
    + apply seq_compare_eq in Ebc; [subst c | apply str_compare_eq]. now rewrite Eab.
    + now rewrite (path_compare_trans a b c Eab Ebc).
Qed.

(** In the list [sorted] returns, every path is at most every later one. *)
Lemma sorted_strongly (l : list path) : StronglySorted path_le (sorted l).
Proof.
  apply Sorted_StronglySorted; [|apply sorted_sorted].
  intros a b c. apply path_le_trans.
Qed.


(** ** The corpus loader *)

(** [json.loads] raises nothing but [JSONDecodeError]. *)
Lemma loads_raises (s : pystr) (e : exn) : loads s = Raise e -> e = JSONDecodeError.
Proof.
  unfold loads. destruct (startswith [65279] s); [now inversion 1|].
  destruct (scan_once (loads_fuel s) (skip_ws s)) as [v rest| |];
    try (now inversion 1).
  destruct (skip_ws rest); now inversion 1.
Qed.

(** C3, as the code has it.  In a file whose every line is blank, or fails
    to parse, or parses to a turn the transformer accepts or rejects with a
    missing key, reading the records never raises: the examples yielded are
    exactly those of the valid lines, in order, and the warnings are one per
    unparseable or key-lacking line, each naming the file and the number of
    that line in the file. *)
Theorem read_records_skips_bad_lines (w : World) (ip ic : bool) (file : path)
    (first : nat) (lines : list pystr)
  (Hlines : forallb (tolerated w ip ic) lines = true) :
  let r := read_records w ip ic file first lines in
  snd r = None
  /\ examples_of r = flat_map (line_example w ip ic) lines
  /\ warnings_of r = flat_map (line_warning w ip ic file) (numbered first lines).
Proof.
  revert first Hlines; induction lines as [|line lines IH]; intros first Hlines.
  - repeat split.
  - simpl in Hlines. apply andb_prop in Hlines; destruct Hlines as [Hline Hrest].
    specialize (IH (S first) Hrest). cbv zeta in IH. destruct IH as (Hend & Hex & Hwarn).
    cbv zeta.
    change (numbered first (line :: lines)) with ((first, line) :: numbered (S first) lines).
    cbn [flat_map read_records].
    unfold tolerated in Hline. unfold line_example, line_warning, record_result.
    destruct (is_blank line); [now repeat split|].
    simpl in Hline.
    destruct (read_records w ip ic file (S first) lines) as [evs err] eqn:Er.
    simpl in Hend; subst err.
    destruct (loads line) as [turn|e] eqn:El; cbn [bind].
    + destruct (process_session_turn w turn ip ic) as [ex|e].
      * unfold examples_of, warnings_of in *; simpl in *.
        repeat split; [now f_equal | assumption].
      * destruct e; try discriminate.
        unfold examples_of, warnings_of in *; simpl in *.
        repeat split; [assumption | now f_equal].
    + rewrite (loads_raises _ _ El).
      unfold examples_of, warnings_of in *; simpl in *.
      repeat split; [assumption | now f_equal].
Qed.

(** ** The catalogue that cannot be loaded *)

(** When loading the catalogue raises, a well-formed turn without tools of
    its own raises the same exception under catalog injection. *)
Lemma process_session_turn_catalogue_error (w : World) (t : value) (ip : bool) (e : exn) :
  well_formed_turn t = true ->
  field (request_of t) (txt "tools") JNull = JNull ->
  load_tool_catalogue w = Raise e ->
  process_session_turn w t ip true = Raise e.
Proof.
  unfold well_formed_turn; intros Hwf Hnull Hload.
  apply andb_prop in Hwf; destruct Hwf as [Hwf _].
  apply andb_prop in Hwf; destruct Hwf as [Hwf Hsys].
  apply andb_prop in Hwf; destruct Hwf as [Hreq Hresp].
  destruct (system_of t) as [| | | |sys| |] eqn:Esys; try discriminate.
  unfold process_session_turn, effective_tools.
  unfold system_of, request_of, response_of in *.
  destruct (py_getitem t (txt "request")) as [request|]; [|discriminate].
  destruct (py_getitem t (txt "response")) as [response|]; [|discriminate].
  cbn [bind].
  rewrite !(py_get_field request) by assumption.
  cbn [bind]. rewrite Esys, Hnull.
  destruct ip; cbn; now rewrite Hload.
Qed.

(** A missing catalogue file ends the load: the first record that needs the
    catalogue raises [FileNotFoundError] out of the generator. *)
Lemma missing_catalogue_is_fatal (w : World) (ip : bool) (file : path) (first : nat)
    (line : pystr) (rest : list pystr) (t : value) :
  catalogue_file w = None ->
  is_blank line = false ->
  loads line = Ok t ->
  well_formed_turn t = true ->
  field (request_of t) (txt "tools") JNull = JNull ->
  read_records w ip true file first (line :: rest) = ([], Some FileNotFoundError).
Proof.
  intros Hcat Hblank Hline Hwf Hnull.
  cbn [read_records]. rewrite Hblank, Hline. cbn [bind].
  rewrite (process_session_turn_catalogue_error w t ip FileNotFoundError); auto.
  unfold load_tool_catalogue. now rewrite Hcat.
Qed.

(** A catalogue file that is no document does not end the load: the record
    is skipped with the warning for an unparseable line, and the next
    record is read. *)
Lemma unparseable_catalogue_is_skipped (w : World) (ip : bool) (file : path) (first : nat)
    (line : pystr) (rest : list pystr) (t : value) (text : pystr) :
  catalogue_file w = Some text ->
  loads text = Raise JSONDecodeError ->
  is_blank line = false ->
  loads line = Ok t ->
  well_formed_turn t = true ->
  field (request_of t) (txt "tools") JNull = JNull ->
  read_records w ip true file first (line :: rest)
  = then_run ([Warned InvalidJSON file first JSONDecodeError], None)
             (read_records w ip true file (S first) rest).
Proof.
  intros Hcat Htext Hblank Hline Hwf Hnull.
  cbn [read_records]. rewrite Hblank, Hline. cbn [bind].
  rewrite (process_session_turn_catalogue_error w t ip JSONDecodeError); auto.
  unfold load_tool_catalogue. now rewrite Hcat.
Qed.

(** ** Integers: [int(int.__repr__(z)) = z] *)

Lemma uint_of_digits_chars (d : uint) : uint_of_digits (uint_chars d) = d.
Proof.
  induction d; simpl; try reflexivity; unfold digit_cons; simpl; now f_equal.
Qed.

Lemma uint_chars_digits (d : uint) : forallb is_digit (uint_chars d) = true.
Proof.
  induction d; simpl; auto.
Qed.

Lemma span_digits_app (ds rest : pystr) :
  forallb is_digit ds = true ->
  starts_with_digit rest = false ->
  span_digits (ds ++ rest) = (ds, rest).
Proof.
  intros Hds Hrest. induction ds as [|c ds IH]; simpl in *.
  - destruct rest as [|c r]; simpl in *; [reflexivity | now rewrite Hrest].
  - apply andb_prop in Hds; destruct Hds as [Hc Hds].
    rewrite Hc, (IH Hds). reflexivity.
Qed.

Lemma nzhead_not_D0 (d d' : uint) : nzhead d <> D0 d'.
Proof.
  induction d; simpl; try discriminate; auto.
Qed.

Lemma pos_to_uint_norm (p : positive) : unorm (Pos.to_uint p) = Pos.to_uint p.
Proof.
  rewrite <- DecimalPos.Unsigned.to_of.
  now rewrite DecimalPos.Unsigned.of_to.
Qed.

(** The decimal digits of a positive number: not empty, no leading zero. *)
Lemma pos_to_uint_head (p : positive) :
  exists c ds,
    uint_chars (Pos.to_uint p) = c :: ds
    /\ is_digit c = true /\ c <> 48
    /\ forallb is_digit ds = true.
Proof.
  pose proof (pos_to_uint_norm p) as Hn.
  pose proof (DecimalPos.Unsigned.to_uint_nonzero p) as Hz.
  pose proof (DecimalPos.Unsigned.to_uint_nonnil p) as Hnil.
  pose proof (uint_chars_digits (Pos.to_uint p)) as Hd.
  destruct (Pos.to_uint p) as [|d|d|d|d|d|d|d|d|d|d]; try congruence;
    try (simpl in Hd; eexists; eexists;
         split; [reflexivity | split; [reflexivity | split; [discriminate | exact Hd]]]).
  exfalso. unfold unorm in Hn. simpl nzhead in Hn.
  destruct (nzhead d) eqn:E; try discriminate.
  - injection Hn as Hn; subst d. now apply Hz.
  - injection Hn as Hn; subst. now apply (nzhead_not_D0 d d).
Qed.

Lemma int_of_text_repr (z : Z) : int_of_text (int_repr z) = z.
Proof.
  pose proof (DecimalZ.of_to z) as Hz.
  unfold int_repr, int_of_text.
  destruct z as [|p|p]; simpl Z.to_int in *.
  - reflexivity.
  - destruct (pos_to_uint_head p) as (c & ds & Hc & Hd & _ & _).
    rewrite Hc. replace (c =? 45) with false.
    + now rewrite <- Hc, uint_of_digits_chars.
    + symmetry. apply N.eqb_neq. unfold is_digit in Hd.
      apply andb_prop in Hd. destruct Hd as [H1 H2].
      apply N.leb_le in H1. lia.
  - change (45 =? 45) with true. cbv iota. now rewrite uint_of_digits_chars.
Qed.

Lemma match_frac_none (rest : pystr) : ends_number rest = true -> match_frac rest = ([], rest).
Proof.
  destruct rest as [|c r]; simpl; auto. intros H.
  apply negb_true_iff in H. repeat (apply orb_false_iff in H; destruct H as [H ?]).
  replace (c =? 46) with false by auto. reflexivity.
Qed.

Lemma match_exp_none (rest : pystr) : ends_number rest = true -> match_exp rest = ([], rest).
Proof.
  destruct rest as [|c r]; simpl; auto. intros H.
  apply negb_true_iff in H. repeat (apply orb_false_iff in H; destruct H as [H ?]).
  replace (c =? 101) with false by auto. replace (c =? 69) with false by auto.
  reflexivity.
Qed.

Lemma ends_number_no_digit (rest : pystr) :
  ends_number rest = true -> starts_with_digit rest = false.
Proof.
  destruct rest as [|c r]; simpl; auto. intros H.
  apply negb_true_iff in H. repeat (apply orb_false_iff in H; destruct H as [H ?]).
  assumption.
Qed.

Lemma match_number_int_repr (z : Z) (rest : pystr) :
  ends_number rest = true ->
  match_number (int_repr z ++ rest) = Some (int_repr z, [], [], rest).
Proof.
  intros Hrest. pose proof (ends_number_no_digit _ Hrest) as Hnd.
  unfold match_number.
  assert (Hint : match_integer (int_repr z ++ rest) = Some (int_repr z, rest)).
  { unfold int_repr, match_integer. destruct z as [|p|p]; simpl Z.to_int.
    - reflexivity.
    - destruct (pos_to_uint_head p) as (c & ds & Hc & Hd & H0 & Hds).
      rewrite Hc. rewrite <- ?app_comm_cons.
      replace (c =? 45) with false.
      + cbv beta iota zeta. apply N.eqb_neq in H0. rewrite H0, Hd.
        now rewrite (span_digits_app ds rest Hds Hnd).
      + symmetry. apply N.eqb_neq. unfold is_digit in Hd.
        apply andb_prop in Hd. destruct Hd as [H1 H2]. apply N.leb_le in H1. lia.
    - destruct (pos_to_uint_head p) as (c & ds & Hc & Hd & H0 & Hds).
      rewrite Hc. rewrite <- ?app_comm_cons. change (45 =? 45) with true. cbv beta iota zeta.
      apply N.eqb_neq in H0. rewrite H0, Hd.
      now rewrite (span_digits_app ds rest Hds Hnd). }
  rewrite Hint, (match_frac_none _ Hrest), (match_exp_none _ Hrest). reflexivity.
Qed.

(** ** Strings: [scanstring] undoes [encode_basestring_ascii] *)

Lemma hex_value_digit (d : N) : d < 16 -> hex_value (hex_digit d) = Some d.
Proof.
  intros H.
  assert (Hd : d = 0 \/ d = 1 \/ d = 2 \/ d = 3 \/ d = 4 \/ d = 5 \/ d = 6 \/ d = 7
               \/ d = 8 \/ d = 9 \/ d = 10 \/ d = 11 \/ d = 12 \/ d = 13 \/ d = 14
               \/ d = 15) by lia.
  repeat (destruct Hd as [->|Hd]; [reflexivity|]). now subst.
Qed.

Lemma hex4_value_hex4 (n : N) :
  n < 65536 ->
  match hex4 n with
  | [a; b; c; d] => hex4_value a b c d = Some n
  | _ => False
  end.
Proof.
  intros H. unfold hex4, hex4_value.
  rewrite !hex_value_digit by (apply N.mod_lt; discriminate).
  f_equal.
  pose proof (N.div_mod n 16). pose proof (N.div_mod (n / 16) 16).
  pose proof (N.div_mod (n / 256) 16). pose proof (N.div_mod (n / 4096) 16).
  pose proof (N.Div0.div_div n 16 16). pose proof (N.Div0.div_div n 256 16).
  pose proof (N.Div0.div_div n 4096 16).
  change (16 * 16) with 256 in *. change (256 * 16) with 4096 in *.
  change (4096 * 16) with 65536 in *.
  assert (n / 65536 = 0) by (apply N.div_small; assumption).
  lia.
Qed.

Lemma land_shifted_low (a b : N) : b < 1024 -> N.land (a * 1024) b = 0.
Proof.
  intros Hb. apply N.bits_inj. intros i.
  rewrite N.land_spec, N.bits_0.
  destruct (N.lt_ge_cases i 10) as [Hi|Hi].
  - change 1024 with (2 ^ 10). now rewrite N.mul_pow2_bits_low.
  - rewrite andb_comm.
    destruct (N.eq_dec b 0) as [->|Hb0]; [now rewrite N.bits_0|].
    rewrite N.bits_above_log2; [reflexivity|].
    apply N.lt_le_trans with 10; [|assumption].
    apply N.log2_lt_pow2; [lia | exact Hb].
Qed.

Lemma lor_shifted_low (a b : N) : b < 1024 -> N.lor (a * 1024) b = a * 1024 + b.
Proof.
  intros Hb. pose proof (land_shifted_low a b Hb) as H.
  rewrite <- N.lxor_lor by exact H.
  symmetry. now apply N.add_nocarry_lxor.
Qed.

(** The surrogate pair the encoder writes for a character above the basic
    plane. *)
Lemma high_surrogate_value (c : N) :
  65536 <= c < 1114112 ->
  N.lor 55296 (N.land (N.shiftr (c - 65536) 10) 1023) = 55296 + (c - 65536) / 1024.
Proof.
  intros Hc. rewrite N.shiftr_div_pow2. change (2 ^ 10) with 1024.
  change 1023 with (N.ones 10). rewrite N.land_ones. change (2 ^ 10) with 1024.
  assert ((c - 65536) / 1024 < 1024)
    by (apply N.Div0.div_lt_upper_bound; lia).
  rewrite N.mod_small by assumption.
  change 55296 with (54 * 1024) at 1. now rewrite lor_shifted_low.
Qed.

Lemma low_surrogate_value (c : N) :
  N.lor 56320 (N.land (c - 65536) 1023) = 56320 + (c - 65536) mod 1024.
Proof.
  change 1023 with (N.ones 10). rewrite N.land_ones. change (2 ^ 10) with 1024.
  change 56320 with (55 * 1024) at 1. rewrite lor_shifted_low; [reflexivity|].
  apply N.mod_lt; discriminate.
Qed.

Lemma join_surrogates_value (c : N) :
  65536 <= c < 1114112 ->
  join_surrogates (55296 + (c - 65536) / 1024) (56320 + (c - 65536) mod 1024) = c.
Proof.
  intros Hc. unfold join_surrogates.
  rewrite (N.add_comm 55296), N.add_sub.
  rewrite (N.add_comm 56320), N.add_sub.
  rewrite N.shiftl_mul_pow2. change (2 ^ 10) with 1024.
  rewrite lor_shifted_low by (apply N.mod_lt; discriminate).
  pose proof (N.div_mod (c - 65536) 1024). lia.
Qed.

(** [scanstring] at a [\u] escape, as the decoder reads it: the escape, then
    a second escape when the first is a high surrogate, joined with it when
    it is a low surrogate. *)
Lemma scanstring_unicode_escape (r1 : pystr) :
  scanstring (92 :: 117 :: r1)
  = match decode_uXXXX r1 with
    | None => None
    | Some (uni, r2) =>
      if is_high_surrogate uni && startswith [92; 117] r2 then
        match decode_uXXXX (skipn 2 r2) with
        | None => None
        | Some (uni2, r4) =>
          if is_low_surrogate uni2
          then push (join_surrogates uni uni2) (scanstring r4)
          else push uni (scanstring r2)
        end
      else push uni (scanstring r2)
    end.
Proof.
  destruct r1 as [|h1 [|h2 [|h3 [|h4 r2]]]]; try reflexivity.
  cbn [scanstring decode_uXXXX].
  change (92 =? 34) with false. change (92 =? 92) with true.
  change (117 =? 117) with true. cbv iota.
  destruct (hex4_value h1 h2 h3 h4) as [uni|]; [|reflexivity].
  destruct (is_high_surrogate uni); [|reflexivity].
  destruct r2 as [|b [|u r3]]; try reflexivity.
  - cbn [andb startswith]. now rewrite andb_false_r.
  - cbn [andb startswith skipn]. rewrite andb_true_r.
    rewrite (N.eqb_sym 92 b), (N.eqb_sym 117 u).
    destruct ((b =? 92) && (u =? 117)); [|reflexivity].
    destruct r3 as [|g1 [|g2 [|g3 [|g4 r4]]]]; try reflexivity.
    cbn [decode_uXXXX]. now destruct (hex4_value g1 g2 g3 g4).
Qed.

Lemma scanstring_simple_escape (e ch : N) (r : pystr) :
  e <> 117 -> backslash e = Some ch ->
  scanstring (92 :: e :: r) = push ch (scanstring r).
Proof.
  intros He Hb. cbn [scanstring].
  change (92 =? 34) with false. change (92 =? 92) with true. cbv iota.
  apply N.eqb_neq in He. now rewrite He, Hb.
Qed.

Lemma scanstring_plain (c : N) (r : pystr) :
  needs_escape c = false -> scanstring (c :: r) = push c (scanstring r).
Proof.
  unfold needs_escape. intros H.
  apply orb_false_iff in H; destruct H as [H H3].
  apply orb_false_iff in H; destruct H as [H1 H2].
  apply negb_false_iff, andb_prop in H3; destruct H3 as [H3 _].
  cbn [scanstring]. rewrite H1, H2.
  replace (c <? 32) with false; [reflexivity|].
  symmetry. apply N.ltb_ge. now apply N.leb_le.
Qed.

Lemma decode_uXXXX_hex4 (n : N) (tail : pystr) :
  n < 65536 -> decode_uXXXX (hex4 n ++ tail) = Some (n, tail).
Proof.
  intros Hn. pose proof (hex4_value_hex4 n Hn) as H.
  unfold hex4 in *. rewrite <- !app_comm_cons, app_nil_l.
  cbn [decode_uXXXX]. now rewrite H.
Qed.

Lemma scanstring_unicode_single (uni : N) (tail : pystr) :
  uni < 65536 ->
  is_high_surrogate uni && low_escape_next tail = false ->
  scanstring (92 :: 117 :: hex4 uni ++ tail) = push uni (scanstring tail).
Proof.
  intros Hu Hnext. rewrite scanstring_unicode_escape, decode_uXXXX_hex4 by assumption.
  unfold low_escape_next in Hnext.
  destruct (is_high_surrogate uni); [|reflexivity].
  destruct (startswith [92; 117] tail); [|reflexivity].
  cbn [andb] in *.
  destruct (decode_uXXXX (skipn 2 tail)) as [[uni2 r4]|]; [|discriminate].
  now rewrite Hnext.
Qed.

Lemma encode_body_cons (c : N) (s : pystr) :
  encode_body (c :: s) = encode_char c ++ encode_body s.
Proof. reflexivity. Qed.

Ltac split_escape :=
  unfold escape_char;
  repeat match goal with
         | |- context [if ?c =? ?k then _ else _] => destruct (N.eqb_spec c k); [subst|]
         end.

Lemma surrogate_ranges (c : N) :
  65536 <= c < 1114112 ->
  55296 <= 55296 + (c - 65536) / 1024 < 56320
  /\ 56320 <= 56320 + (c - 65536) mod 1024 < 57344.
Proof.
  intros Hc.
  assert ((c - 65536) / 1024 < 1024) by (apply N.Div0.div_lt_upper_bound; lia).
  assert ((c - 65536) mod 1024 < 1024) by (apply N.mod_lt; discriminate).
  revert H H0. generalize ((c - 65536) / 1024) ((c - 65536) mod 1024).
  intros q r Hq Hr. lia.
Qed.

Lemma low_escape_next_encode_body (s rest : pystr) :
  str_ok s = true -> starts_with_low s = false ->
  low_escape_next (encode_body s ++ 34 :: rest) = false.
Proof.
  destruct s as [|c s]; [reflexivity|].
  cbn [str_ok starts_with_low]. intros Hok Hlow.
  apply andb_prop in Hok; destruct Hok as [Hok _].
  apply andb_prop in Hok; destruct Hok as [Hc _]. apply N.ltb_lt in Hc.
  rewrite encode_body_cons, <- app_assoc. unfold encode_char.
  destruct (needs_escape c) eqn:Ene.
  - split_escape; try reflexivity.
    destruct (N.ltb_spec c 65536) as [Hlt|Hge].
    + rewrite <- !app_assoc. unfold low_escape_next.
      change (startswith [92; 117] ([92; 117] ++ hex4 c ++ encode_body s ++ 34 :: rest))
        with true.
      change (skipn 2 ([92; 117] ++ hex4 c ++ encode_body s ++ 34 :: rest))
        with (hex4 c ++ encode_body s ++ 34 :: rest).
      now rewrite decode_uXXXX_hex4.
    + cbv zeta. rewrite high_surrogate_value, low_surrogate_value by lia.
      destruct (surrogate_ranges c) as [[H1 H2] _]; [lia|].
      rewrite <- !app_assoc. unfold low_escape_next.
      match goal with
      | |- startswith _ ([92; 117] ++ ?t) && match decode_uXXXX (skipn 2 ([92; 117] ++ ?t)) with _ => _ end = false =>
        change (startswith [92; 117] ([92; 117] ++ t)) with true;
        change (skipn 2 ([92; 117] ++ t)) with t
      end.
      rewrite decode_uXXXX_hex4 by lia.
      unfold is_low_surrogate. cbn [andb].
      apply andb_false_iff. left. apply N.leb_gt. lia.
  - unfold needs_escape in Ene.
    apply orb_false_iff in Ene; destruct Ene as [Ene _].
    apply orb_false_iff in Ene; destruct Ene as [E92 _].
    unfold low_escape_next. rewrite <- app_comm_cons. cbn [startswith].
    now rewrite N.eqb_sym, E92.
Qed.

Lemma scanstring_encode_char (c : N) (tail : pystr) :
  c < 1114112 ->
  is_high_surrogate c && low_escape_next tail = false ->
  scanstring (encode_char c ++ tail) = push c (scanstring tail).
Proof.
  intros Hc Hnext. unfold encode_char.
  destruct (needs_escape c) eqn:Ene; [|now apply scanstring_plain].
  split_escape;
    try (now apply scanstring_simple_escape; [discriminate | reflexivity]).
  destruct (N.ltb_spec c 65536) as [Hlt|Hge].
  - rewrite <- !app_assoc. now apply scanstring_unicode_single.
  - cbv zeta. rewrite high_surrogate_value, low_surrogate_value by lia.
    destruct (surrogate_ranges c) as [[H1 H2] [H3 H4]]; [lia|].
    rewrite <- !app_assoc.
    change ([92; 117] ++ hex4 (55296 + (c - 65536) / 1024)
            ++ [92; 117] ++ hex4 (56320 + (c - 65536) mod 1024) ++ tail)
      with (92 :: 117 :: hex4 (55296 + (c - 65536) / 1024)
            ++ 92 :: 117 :: hex4 (56320 + (c - 65536) mod 1024) ++ tail).
    rewrite scanstring_unicode_escape, decode_uXXXX_hex4 by lia.
    replace (is_high_surrogate (55296 + (c - 65536) / 1024)) with true
      by (symmetry; unfold is_high_surrogate; apply andb_true_intro;
          split; apply N.leb_le; lia).
    cbn [andb startswith skipn]. change (92 =? 92) with true. change (117 =? 117) with true.
    cbn [andb]. rewrite decode_uXXXX_hex4 by lia.
    replace (is_low_surrogate (56320 + (c - 65536) mod 1024)) with true
      by (symmetry; unfold is_low_surrogate; apply andb_true_intro;
          split; apply N.leb_le; lia).
    now rewrite join_surrogates_value by lia.
Qed.

Lemma scanstring_encode_body (s rest : pystr) :
  str_ok s = true -> scanstring (encode_body s ++ 34 :: rest) = Some (s, rest).
Proof.
  induction s as [|c s IH]; [reflexivity|].
  cbn [str_ok]. intros Hok.
  apply andb_prop in Hok; destruct Hok as [Hok Hs].
  apply andb_prop in Hok; destruct Hok as [Hc Hpair]. apply N.ltb_lt in Hc.
  rewrite encode_body_cons, <- app_assoc.
  rewrite scanstring_encode_char; [now rewrite (IH Hs) | exact Hc |].
  apply negb_true_iff in Hpair.
  destruct (is_high_surrogate c); [|reflexivity].
  cbn [andb] in *. now apply low_escape_next_encode_body.
Qed.

Lemma scanstring_encode_basestring (s rest : pystr) :
  str_ok s = true ->
  exists body,
    encode_basestring_ascii s ++ rest = 34 :: body
    /\ scanstring body = Some (s, rest).
Proof.
  intros Hok. exists (encode_body s ++ 34 :: rest). split.
  - unfold encode_basestring_ascii. now rewrite <- !app_assoc.
  - now apply scanstring_encode_body.
Qed.

(** ** Values: [json.loads] undoes [json.dumps] *)

(** Induction on values, with the hypothesis for every element of a list
    and every item of a dict. *)
Lemma value_ind (P : value -> Prop)
  (HNull : P JNull)
  (HBool : forall b, P (JBool b))
  (HInt : forall z, P (JInt z))
  (HFloat : forall f, P (JFloat f))
  (HStr : forall s, P (JStr s))
  (HList : forall l, Forall P l -> P (JList l))
  (HDict : forall d, Forall (fun kv => P (snd kv)) d -> P (JDict d)) :
  forall v, P v.
Proof.
  fix IH 1. intros [| b | z | f | s | l | d].
  - exact HNull.
  - exact (HBool b).
  - exact (HInt z).
  - exact (HFloat f).
  - exact (HStr s).
  - apply HList. induction l as [|x l IHl]; constructor; [apply IH | exact IHl].
  - apply HDict. induction d as [|[k x] d IHd]; constructor; [apply IH | exact IHd].
Qed.

Lemma pystr_eqb_eq (a b : pystr) : pystr_eqb a b = true <-> a = b.
Proof.
  unfold pystr_eqb. destruct (list_eq_dec N.eq_dec a b); split; congruence.
Qed.

Lemma distinct_NoDup (keys : list pystr) : distinct keys = true -> NoDup keys.
Proof.
  induction keys as [|k ks IH]; simpl; intros H; constructor.
  - apply andb_prop in H; destruct H as [H _].
    apply negb_true_iff in H. intros Hin.
    assert (existsb (pystr_eqb k) ks = true); [|congruence].
    apply existsb_exists. exists k. split; [assumption | now apply pystr_eqb_eq].
  - apply andb_prop in H; destruct H as [_ H]. auto.
Qed.

Lemma dict_set_fresh (d : list (pystr * value)) (k : pystr) (v : value) :
  ~ In k (map fst d) -> dict_set d k v = d ++ [(k, v)].
Proof.
  induction d as [|[k' v'] d IH]; simpl; intros Hk; [reflexivity|].
  destruct (pystr_eqb k' k) eqn:E.
  - apply pystr_eqb_eq in E. tauto.
  - rewrite IH; tauto.
Qed.

Lemma dict_of_pairs_from (pairs acc : list (pystr * value)) :
  NoDup (map fst (acc ++ pairs)) ->
  fold_left (fun d kv => dict_set d (fst kv) (snd kv)) pairs acc = acc ++ pairs.
Proof.
  revert acc; induction pairs as [|[k v] pairs IH]; intros acc Hnd; simpl.
  - now rewrite app_nil_r.
  - rewrite dict_set_fresh.
    + rewrite IH; rewrite <- app_assoc; [reflexivity | exact Hnd].
    + rewrite map_app in Hnd. simpl in Hnd.
      apply NoDup_remove_2 in Hnd. intros Hin. apply Hnd.
      apply in_or_app. now left.
Qed.

(** [dict(pairs)] of pairs with different keys is the pairs themselves. *)
Lemma dict_of_pairs_distinct (pairs : list (pystr * value)) :
  distinct (map fst pairs) = true -> dict_of_pairs pairs = pairs.
Proof.
  intros H. unfold dict_of_pairs. rewrite dict_of_pairs_from; [reflexivity|].
  now apply distinct_NoDup.
Qed.

Lemma int_repr_head (z : Z) :
  exists c r, int_repr z = c :: r /\ (c =? 45) || is_digit c = true.
Proof.
  unfold int_repr. destruct z as [|p|p]; simpl Z.to_int.
  - now exists 48, [].
  - destruct (pos_to_uint_head p) as (c & ds & Hc & Hd & _ & _).
    exists c, ds. split; [assumption|]. rewrite Hd. apply orb_true_r.
  - eexists; eexists; split; reflexivity.
Qed.

Lemma value_start_facts (c : N) :
  value_start c = true ->
  is_ws c = false /\ (c =? 93) = false /\ (c =? 125) = false /\ (c =? 65279) = false.
Proof.
  unfold value_start, is_digit, is_ws. intros H.
  repeat (apply orb_true_iff in H; destruct H as [H|H]);
    try (apply N.eqb_eq in H; subst; now repeat split).
  apply andb_prop in H; destruct H as [H1 H2].
  apply N.leb_le in H1. apply N.leb_le in H2.
  repeat split; repeat (apply orb_false_iff; split); apply N.eqb_neq; lia.
Qed.


Lemma skip_ws_head (c : N) (r : pystr) : is_ws c = false -> skip_ws (c :: r) = c :: r.
Proof. intros H. simpl. now rewrite H. Qed.



Lemma scan_once_number (fuel : nat) (c : N) (r integer rest : pystr) :
  (c =? 45) || is_digit c = true ->
  match_number (c :: r) = Some (integer, [], [], rest) ->
  scan_once (S fuel) (c :: r) = Scanned (JInt (int_of_text integer)) rest.
Proof.
  intros Hc Hm.
  assert (Hne : forall k, k < 45 \/ 57 < k -> (c =? k) = false /\ (k =? c) = false).
  { intros k Hk. unfold is_digit in Hc.
    apply orb_true_iff in Hc; destruct Hc as [Hc|Hc].
    - apply N.eqb_eq in Hc; subst. split; apply N.eqb_neq; lia.
    - apply andb_prop in Hc; destruct Hc as [H1 H2].
      apply N.leb_le in H1. apply N.leb_le in H2. split; apply N.eqb_neq; lia. }
  cbn [scan_once].
  destruct (Hne 34) as [-> _]; [lia|].
  destruct (Hne 123) as [-> _]; [lia|].
  destruct (Hne 91) as [-> _]; [lia|].
  change (startswith (txt "null") (c :: r)) with ((110 =? c) && startswith (txt "ull") r).
  change (startswith (txt "true") (c :: r)) with ((116 =? c) && startswith (txt "rue") r).
  change (startswith (txt "false") (c :: r)) with ((102 =? c) && startswith (txt "alse") r).
  destruct (Hne 110) as [_ ->]; [lia|].
  destruct (Hne 116) as [_ ->]; [lia|].
  destruct (Hne 102) as [_ ->]; [lia|].
  cbn [andb]. now rewrite Hm.
Qed.








(** ** The compact form is one line of ASCII *)

Lemma hex_digit_printable (d : N) : d < 16 -> printable (hex_digit d) = true.
Proof.
  intros H.
  assert (Hd : d = 0 \/ d = 1 \/ d = 2 \/ d = 3 \/ d = 4 \/ d = 5 \/ d = 6 \/ d = 7
               \/ d = 8 \/ d = 9 \/ d = 10 \/ d = 11 \/ d = 12 \/ d = 13 \/ d = 14
               \/ d = 15) by lia.
  repeat (destruct Hd as [->|Hd]; [reflexivity|]). now subst.
Qed.

Lemma hex4_printable (n : N) : forallb printable (hex4 n) = true.
Proof.
  unfold hex4. cbn [forallb].
  rewrite !hex_digit_printable by (apply N.mod_lt; discriminate). reflexivity.
Qed.

Lemma encode_char_printable (c : N) : forallb printable (encode_char c) = true.
Proof.
  unfold encode_char. destruct (needs_escape c) eqn:Ene.
  - split_escape; try reflexivity.
    destruct (c <? 65536); cbv zeta;
      rewrite ?forallb_app, ?hex4_printable; reflexivity.
  - unfold needs_escape in Ene. apply orb_false_iff in Ene; destruct Ene as [_ Ene].
    apply negb_false_iff in Ene. cbn [forallb]. unfold printable. now rewrite Ene.
Qed.

Lemma encode_basestring_printable (s : pystr) :
  forallb printable (encode_basestring_ascii s) = true.
Proof.
  unfold encode_basestring_ascii. rewrite !forallb_app. cbn [forallb andb].
  replace (forallb printable (encode_body s)) with true; [reflexivity|].
  symmetry. induction s as [|c s IH]; [reflexivity|].
  rewrite encode_body_cons, forallb_app, encode_char_printable. exact IH.
Qed.

Lemma digits_printable (ds : pystr) :
  forallb is_digit ds = true -> forallb printable ds = true.
Proof.
  induction ds as [|c ds IH]; [reflexivity|]. cbn [forallb]. intros H.
  apply andb_prop in H; destruct H as [Hc Hds]. rewrite (IH Hds), andb_true_r.
  unfold is_digit in Hc. apply andb_prop in Hc; destruct Hc as [H1 H2].
  apply N.leb_le in H1. apply N.leb_le in H2.
  unfold printable. apply andb_true_intro. split; apply N.leb_le; lia.
Qed.

Lemma int_repr_printable (z : Z) : forallb printable (int_repr z) = true.
Proof.
  unfold int_repr. destruct (Z.to_int z) as [d|d]; cbn [forallb];
    rewrite ?digits_printable by apply uint_chars_digits; reflexivity.
Qed.

Lemma join_printable (sep : pystr) (parts : list pystr) :
  forallb printable sep = true ->
  Forall (fun p => forallb printable p = true) parts ->
  forallb printable (join sep parts) = true.
Proof.
  intros Hsep. induction 1 as [|p parts Hp Hparts IH]; [reflexivity|].
  destruct parts as [|q parts]; [exact Hp|].
  rewrite join_cons by discriminate. rewrite !forallb_app, Hp, Hsep. exact IH.
Qed.

Lemma dumps_printable (v : value) :
  json_ok v = true -> forallb printable (dumps v) = true.
Proof.
  induction v as [| b | z | f | s | l IHl | d IHd] using value_ind; intros Hok.
  - reflexivity.
  - now destruct b.
  - apply int_repr_printable.
  - discriminate.
  - apply encode_basestring_printable.
  - destruct l as [|v l]; [reflexivity|].
    cbn [json_ok] in Hok.
    change (dumps (JList (v :: l)))
      with ([91] ++ join (txt ", ") (map dumps (v :: l)) ++ [93]).
    rewrite !forallb_app.
    change (forallb printable [91]) with true. change (forallb printable [93]) with true.
    rewrite andb_true_r. cbn [andb].
    apply join_printable; [reflexivity|].
    apply Forall_map. rewrite forallb_forall in Hok. rewrite Forall_forall in *.
    intros x Hx. apply IHl; auto.
  - destruct d as [|kv d]; [reflexivity|].
    cbn [json_ok] in Hok. apply andb_prop in Hok; destruct Hok as [Hok _].
    change (dumps (JDict (kv :: d)))
      with ([123] ++ join (txt ", ") (map dumps_item (kv :: d)) ++ [125]).
    rewrite !forallb_app.
    change (forallb printable [123]) with true. change (forallb printable [125]) with true.
    rewrite andb_true_r. cbn [andb].
    apply join_printable; [reflexivity|].
    apply Forall_map. rewrite forallb_forall in Hok. rewrite Forall_forall in *.
    intros x Hx. unfold dumps_item. rewrite !forallb_app.
    rewrite encode_basestring_printable.
    change (forallb printable (txt ": ")) with true. cbn [andb].
    specialize (Hok x Hx). apply andb_prop in Hok. apply IHd; tauto.
Qed.


(** ** What the scanner leaves and what it builds *)

Lemma shorter_length (rest s : pystr) : shorter rest s -> (length rest < length s)%nat.
Proof.
  intros (pre & Hpre & ->). rewrite length_app.
  destruct pre; [congruence | cbn; lia].
Qed.

Lemma shorter_cons (c : N) (rest s : pystr) : shorter rest s -> shorter rest (c :: s).
Proof.
  intros (pre & _ & ->). exists (c :: pre). split; [discriminate | reflexivity].
Qed.

Lemma shorter_tail (c : N) (r : pystr) : shorter r (c :: r).
Proof. exists [c]. split; [discriminate | reflexivity]. Qed.

Lemma shorter_trans (a b c : pystr) : shorter a b -> shorter b c -> shorter a c.
Proof.
  intros (p & Hp & ->) (q & Hq & ->). exists (q ++ p). split.
  - destruct q; [congruence | discriminate].
  - now rewrite app_assoc.
Qed.

Lemma text_ok_shorter (rest s : pystr) : shorter rest s -> text_ok s = true -> text_ok rest = true.
Proof.
  intros (pre & _ & ->). unfold text_ok. rewrite forallb_app.
  intros H. now apply andb_prop in H.
Qed.

Lemma skip_ws_spec (s : pystr) : skip_ws s = s \/ shorter (skip_ws s) s.
Proof.
  induction s as [|c r IH]; [now left|]. cbn [skip_ws].
  destruct (is_ws c); [|now left]. right.
  destruct IH as [->|IH]; [apply shorter_tail | now apply shorter_cons].
Qed.

Lemma text_ok_skip_ws (s : pystr) : text_ok s = true -> text_ok (skip_ws s) = true.
Proof.
  destruct (skip_ws_spec s) as [->|H]; [auto | now apply text_ok_shorter].
Qed.

Lemma skip_ws_length (s : pystr) : (length (skip_ws s) <= length s)%nat.
Proof.
  destruct (skip_ws_spec s) as [->|H]; [lia|]. apply shorter_length in H. lia.
Qed.

Lemma shorter_skip_ws (rest s : pystr) : shorter rest (skip_ws s) -> shorter rest s.
Proof.
  destruct (skip_ws_spec s) as [->|H]; [auto|]. intros H'. eapply shorter_trans; eauto.
Qed.

Lemma hex_value_bound (c v : N) : hex_value c = Some v -> v < 16.
Proof.
  unfold hex_value.
  destruct ((48 <=? c) && (c <=? 57)) eqn:E1.
  { apply andb_prop in E1; destruct E1 as [H1 H2].
    apply N.leb_le in H1. apply N.leb_le in H2. intros H; inversion H; lia. }
  destruct ((97 <=? c) && (c <=? 102)) eqn:E2.
  { apply andb_prop in E2; destruct E2 as [H1 H2].
    apply N.leb_le in H1. apply N.leb_le in H2. intros H; inversion H; lia. }
  destruct ((65 <=? c) && (c <=? 70)) eqn:E3; [|discriminate].
  apply andb_prop in E3; destruct E3 as [H1 H2].
  apply N.leb_le in H1. apply N.leb_le in H2. intros H; inversion H; lia.
Qed.

Lemma decode_uXXXX_inv (s r : pystr) (uni : N) :
  decode_uXXXX s = Some (uni, r) ->
  uni < 65536 /\ exists h1 h2 h3 h4, s = h1 :: h2 :: h3 :: h4 :: r.
Proof.
  destruct s as [|h1 [|h2 [|h3 [|h4 r']]]]; try discriminate.
  cbn [decode_uXXXX]. unfold hex4_value.
  destruct (hex_value h1) as [x|] eqn:E1; [|discriminate].
  destruct (hex_value h2) as [y|] eqn:E2; [|discriminate].
  destruct (hex_value h3) as [z|] eqn:E3; [|discriminate].
  destruct (hex_value h4) as [u|] eqn:E4; [|discriminate].
  intros H; inversion H; subst. split; [|now exists h1, h2, h3, h4].
  apply hex_value_bound in E1, E2, E3, E4. lia.
Qed.

Lemma join_surrogates_range (hi lo : N) :
  is_high_surrogate hi = true -> is_low_surrogate lo = true ->
  65536 <= join_surrogates hi lo < 1114112.
Proof.
  unfold is_high_surrogate, is_low_surrogate, join_surrogates. intros Hh Hl.
  apply andb_prop in Hh; destruct Hh as [H1 H2].
  apply andb_prop in Hl; destruct Hl as [H3 H4].
  apply N.leb_le in H1, H2, H3, H4.
  rewrite N.shiftl_mul_pow2. change (2 ^ 10) with 1024.
  rewrite lor_shifted_low by lia. lia.
Qed.

Lemma push_some (c : N) (r : option (pystr * pystr)) (str rest : pystr) :
  push c r = Some (str, rest) ->
  exists str', r = Some (str', rest) /\ str = c :: str'.
Proof.
  destruct r as [[str' rest']|]; [|discriminate]. cbn. intros H; inversion H; subst.
  now exists str'.
Qed.

(** Decides goals and hypotheses made of comparisons of code points. *)
Ltac ranges :=
  unfold is_surrogate, is_high_surrogate, is_low_surrogate in *;
  repeat match goal with
         | H : context [N.leb _ _] |- _ => revert H
         | H : context [N.ltb _ _] |- _ => revert H
         end;
  repeat match goal with
         | |- context [?a <=? ?b] => destruct (N.leb_spec a b)
         | |- context [?a <? ?b] => destruct (N.ltb_spec a b)
         end;
  cbn; intros; try discriminate; try reflexivity; try lia.

Lemma str_ok_cons (c : N) (str : pystr) :
  c < 1114112 ->
  (is_high_surrogate c = true -> starts_with_low str = false) ->
  str_ok str = true ->
  str_ok (c :: str) = true.
Proof.
  intros Hc Hpair Hstr. cbn [str_ok]. rewrite Hstr, andb_true_r.
  apply andb_true_intro. split; [now apply N.ltb_lt|].
  destruct (is_high_surrogate c); [|reflexivity]. now rewrite Hpair.
Qed.

Lemma backslash_small (e ch : N) : backslash e = Some ch -> ch < 128.
Proof.
  unfold backslash.
  repeat match goal with
         | |- context [if ?b then _ else _] => destruct b
         end; intros H; inversion H; lia.
Qed.

Lemma startswith_escape (s : pystr) :
  startswith [92; 117] s = true -> exists r, s = 92 :: 117 :: r.
Proof.
  destruct s as [|b [|u r]]; cbn [startswith]; try discriminate.
  - now rewrite andb_false_r.
  - rewrite andb_true_r. intros H. apply andb_prop in H; destruct H as [H1 H2].
    apply N.eqb_eq in H1, H2. subst. now exists r.
Qed.

Lemma low_escape_next_escape (r1 r2 : pystr) (uni : N) :
  decode_uXXXX r1 = Some (uni, r2) ->
  low_escape_next (92 :: 117 :: r1) = is_low_surrogate uni.
Proof.
  intros Hd. unfold low_escape_next.
  change (startswith [92; 117] (92 :: 117 :: r1)) with true.
  change (skipn 2 (92 :: 117 :: r1)) with r1. now rewrite Hd.
Qed.

(** What [scanstring] returns from a text without surrogates: a string that
    satisfies [str_ok], and a proper rest of the text.  The string starts
    with a low surrogate only where the text starts with its escape. *)
Lemma scanstring_inv (n : nat) :
  forall s str rest,
    (length s <= n)%nat -> text_ok s = true -> scanstring s = Some (str, rest) ->
    str_ok str = true /\ shorter rest s
    /\ (starts_with_low str = true -> low_escape_next s = true).
Proof.
  induction n as [|n IH]; intros s str rest Hlen Hs H.
  { destruct s; [discriminate | cbn in Hlen; lia]. }
  destruct s as [|c r]; [discriminate|].
  cbn [length] in Hlen.
  cbn [text_ok forallb] in Hs. apply andb_prop in Hs; destruct Hs as [Hc Hr].
  fold (text_ok r) in Hr.
  apply andb_prop in Hc; destruct Hc as [Hc Hsur].
  apply N.ltb_lt in Hc. apply negb_true_iff in Hsur.
  destruct (N.eqb_spec c 34) as [->|H34].
  { cbn in H. inversion H; subst. repeat split; [apply shorter_tail | discriminate]. }
  destruct (N.eqb_spec c 92) as [->|H92].
  { destruct r as [|e r1]; [discriminate|].
    cbn [text_ok forallb] in Hr. apply andb_prop in Hr; destruct Hr as [_ Hr1].
    fold (text_ok r1) in Hr1. cbn [length] in Hlen.
    destruct (N.eqb_spec e 117) as [->|H117].
    - rewrite scanstring_unicode_escape in H.
      destruct (decode_uXXXX r1) as [[uni r2]|] eqn:Ed; [|discriminate].
      pose proof (low_escape_next_escape r1 r2 uni Ed) as Hnext.
      destruct (decode_uXXXX_inv _ _ _ Ed) as (Huni & h1 & h2 & h3 & h4 & ->).
      assert (Hr2 : text_ok r2 = true).
      { apply (text_ok_shorter r2 (h1 :: h2 :: h3 :: h4 :: r2)); [|assumption].
        exists [h1; h2; h3; h4]. split; [discriminate | reflexivity]. }
      cbn [length] in Hlen.
      assert (Hplain : forall str',
                 scanstring r2 = Some (str', rest) ->
                 is_high_surrogate uni && low_escape_next r2 = false ->
                 str = uni :: str' ->
                 str_ok str = true /\ shorter rest (92 :: 117 :: h1 :: h2 :: h3 :: h4 :: r2)
                 /\ (starts_with_low str = true ->
                     low_escape_next (92 :: 117 :: h1 :: h2 :: h3 :: h4 :: r2) = true)).
      { intros str' Hscan Hno ->.
        destruct (IH r2 str' rest) as (Hok & Hsh & Hlow); [lia | assumption | assumption |].
        split; [|split].
        - apply str_ok_cons; [lia | | assumption].
          intros Hhigh. rewrite Hhigh in Hno. cbn [andb] in Hno.
          destruct (starts_with_low str'); [|reflexivity].
          rewrite Hlow in Hno by reflexivity. discriminate.
        - do 6 apply shorter_cons. exact Hsh.
        - cbn [starts_with_low]. now rewrite Hnext. }
      destruct (is_high_surrogate uni) eqn:Ehigh; cbn [andb] in H.
      + destruct (startswith [92; 117] r2) eqn:Esw.
        * destruct (startswith_escape r2 Esw) as (r3 & ->).
          change (skipn 2 (92 :: 117 :: r3)) with r3 in H.
          destruct (decode_uXXXX r3) as [[uni2 r4]|] eqn:Ed2; [|discriminate].
          pose proof (low_escape_next_escape r3 r4 uni2 Ed2) as Hnext2.
          destruct (decode_uXXXX_inv _ _ _ Ed2) as (Huni2 & g1 & g2 & g3 & g4 & ->).
          destruct (is_low_surrogate uni2) eqn:Elow.
          -- apply push_some in H. destruct H as (str' & Hscan & ->).
             assert (Hr4 : text_ok r4 = true).
             { apply (text_ok_shorter r4 (92 :: 117 :: g1 :: g2 :: g3 :: g4 :: r4));
                 [|assumption].
               exists [92; 117; g1; g2; g3; g4]. split; [discriminate | reflexivity]. }
             cbn [length] in Hlen.
             destruct (IH r4 str' rest) as (Hok & Hsh & _); [lia | assumption | assumption |].
             pose proof (join_surrogates_range uni uni2 Ehigh Elow) as Hj.
             split; [|split].
             ++ apply str_ok_cons; [lia | | assumption].
                intros Hh. exfalso. revert Hh. generalize (join_surrogates uni uni2) Hj.
                intros j Hj' Hh. ranges.
             ++ do 12 apply shorter_cons. exact Hsh.
             ++ cbn [starts_with_low]. intros Hl. exfalso. revert Hl.
                generalize (join_surrogates uni uni2) Hj. intros j Hj' Hl. ranges.
          -- apply push_some in H. destruct H as (str' & Hscan & Hstr).
             apply (Hplain str'); auto.
        * apply push_some in H. destruct H as (str' & Hscan & Hstr).
          apply (Hplain str'); auto. cbn [andb]. unfold low_escape_next.
          now rewrite Esw.
      + apply push_some in H. destruct H as (str' & Hscan & Hstr).
        apply (Hplain str'); auto.
    - cbn [scanstring] in H. change (92 =? 34) with false in H.
      change (92 =? 92) with true in H. cbv iota in H.
      apply N.eqb_neq in H117. rewrite H117 in H.
      destruct (backslash e) as [ch|] eqn:Eb; [|discriminate].
      apply push_some in H. destruct H as (str' & Hscan & ->).
      pose proof (backslash_small e ch Eb) as Hch.
      destruct (IH r1 str' rest) as (Hok & Hsh & _); [lia | assumption | assumption |].
      split; [|split].
      + apply str_ok_cons; [lia | | assumption]. intros Hh. exfalso. ranges.
      + do 2 apply shorter_cons. exact Hsh.
      + cbn [starts_with_low]. intros Hl. exfalso. ranges. }
  cbn [scanstring] in H.
  apply N.eqb_neq in H34. apply N.eqb_neq in H92. rewrite H34, H92 in H.
  destruct (c <? 32); [discriminate|].
  apply push_some in H. destruct H as (str' & Hscan & ->).
  destruct (IH r str' rest) as (Hok & Hsh & _); [lia | assumption | assumption |].
  split; [|split].
  - apply str_ok_cons; [lia | | assumption]. intros Hh. exfalso. ranges.
  - apply shorter_cons. exact Hsh.
  - cbn [starts_with_low]. intros Hl. exfalso. ranges.
Qed.

Lemma span_digits_spec (s ds rest : pystr) :
  span_digits s = (ds, rest) -> s = ds ++ rest.
Proof.
  revert ds rest; induction s as [|c r IH]; intros ds rest H; cbn [span_digits] in H.
  - now inversion H.
  - destruct (is_digit c); [|now inversion H].
    destruct (span_digits r) as [ds' rest'] eqn:E. inversion H; subst.
    cbn. f_equal. now apply IH.
Qed.

Lemma match_frac_spec (s frac rest : pystr) :
  match_frac s = (frac, rest) -> s = frac ++ rest.
Proof.
  unfold match_frac. destruct s as [|c r]; [now inversion 1|].
  destruct (c =? 46); [|now inversion 1].
  destruct (span_digits r) as [ds rest'] eqn:E. apply span_digits_spec in E.
  destruct ds; inversion 1; subst; reflexivity.
Qed.

Lemma match_exp_spec (s exp rest : pystr) :
  match_exp s = (exp, rest) -> s = exp ++ rest.
Proof.
  unfold match_exp. destruct s as [|c r]; [now inversion 1|].
  destruct ((c =? 101) || (c =? 69)); [|now inversion 1].
  destruct r as [|g t].
  - cbn. now inversion 1.
  - destruct ((g =? 45) || (g =? 43)).
    + destruct (span_digits t) as [ds rest'] eqn:E. apply span_digits_spec in E.
      destruct ds; inversion 1; subst; reflexivity.
    + destruct (span_digits (g :: t)) as [ds rest'] eqn:E. apply span_digits_spec in E.
      destruct ds; inversion 1; subst; [reflexivity|]. cbn. now rewrite E.
Qed.

Lemma match_integer_spec (s integer rest : pystr) :
  match_integer s = Some (integer, rest) -> integer <> [] /\ s = integer ++ rest.
Proof.
  unfold match_integer. destruct s as [|c r]; [discriminate|].
  assert (Hbody : forall sign s1,
             match s1 with
             | [] => None
             | c0 :: r0 =>
               if c0 =? 48 then Some (sign ++ [c0], r0)
               else if is_digit c0
                    then let (ds, rest0) := span_digits r0 in Some (sign ++ c0 :: ds, rest0)
                    else None
             end = Some (integer, rest) ->
             integer <> [] /\ sign ++ s1 = integer ++ rest).
  { intros sign [|c0 r0]; [discriminate|].
    destruct (c0 =? 48).
    - inversion 1; subst. split; [now destruct sign|]. now rewrite <- app_assoc.
    - destruct (is_digit c0); [|discriminate].
      destruct (span_digits r0) as [ds rest0] eqn:E. apply span_digits_spec in E.
      inversion 1; subst. split; [now destruct sign|]. now rewrite <- app_assoc. }
  destruct (c =? 45); intros H.
  - apply (Hbody [c] r) in H. exact H.
  - apply (Hbody [] (c :: r)) in H. exact H.
Qed.

Lemma match_number_shorter (s integer frac exp rest : pystr) :
  match_number s = Some (integer, frac, exp, rest) -> shorter rest s.
Proof.
  unfold match_number.
  destruct (match_integer s) as [[i r]|] eqn:Ei; [|discriminate].
  destruct (match_frac r) as [f r1] eqn:Ef. destruct (match_exp r1) as [e r2] eqn:Ee.
  inversion 1; subst.
  apply match_integer_spec in Ei. destruct Ei as [Hi ->].
  apply match_frac_spec in Ef. apply match_exp_spec in Ee. subst.
  exists (integer ++ frac ++ exp). split.
  - destruct integer; [congruence | discriminate].
  - now rewrite <- !app_assoc.
Qed.

Lemma shorter_skipn (n : nat) (c : N) (r : pystr) :
  shorter (skipn (S n) (c :: r)) (c :: r).
Proof.
  exists (firstn (S n) (c :: r)). split; [discriminate|].
  symmetry. apply firstn_skipn.
Qed.

Lemma skip_ws_cons (s r1 : pystr) (c1 : N) :
  skip_ws s = c1 :: r1 -> shorter r1 s.
Proof.
  intros H. apply shorter_skip_ws. rewrite H. apply shorter_tail.
Qed.

(** ** [dict(pairs)] keeps the items and makes the keys different *)

Lemma dict_set_in (d : list (pystr * value)) (k : pystr) (v : value) (kv : pystr * value) :
  In kv (dict_set d k v) -> In kv d \/ kv = (k, v).
Proof.
  induction d as [|[k' v'] d IH]; cbn [dict_set].
  - intros [<-|[]]. now right.
  - destruct (pystr_eqb k' k) eqn:E.
    + apply pystr_eqb_eq in E; subst. intros [<-|H]; [now right | left; now right].
    + intros [<-|H]; [left; now left|]. destruct (IH H); [left; now right | now right].
Qed.

Lemma dict_set_keys (d : list (pystr * value)) (k : pystr) (v : value) (x : pystr) :
  In x (map fst (dict_set d k v)) -> In x (map fst d) \/ x = k.
Proof.
  intros H. apply in_map_iff in H. destruct H as (kv & <- & Hin).
  destruct (dict_set_in d k v kv Hin) as [H| ->]; [|now right].
  left. now apply in_map.
Qed.

Lemma dict_set_NoDup (d : list (pystr * value)) (k : pystr) (v : value) :
  NoDup (map fst d) -> NoDup (map fst (dict_set d k v)).
Proof.
  induction d as [|[k' v'] d IH]; cbn [dict_set map fst]; intros Hnd.
  - constructor; [intros [] | constructor].
  - inversion Hnd as [|? ? Hk' Hd]; subst.
    destruct (pystr_eqb k' k) eqn:E; cbn [map fst]; [now constructor|].
    constructor; [|auto]. intros Hin.
    destruct (dict_set_keys d k v k' Hin) as [H| ->]; [contradiction|].
    assert (pystr_eqb k k = true) by now apply pystr_eqb_eq. congruence.
Qed.

Lemma NoDup_distinct (keys : list pystr) : NoDup keys -> distinct keys = true.
Proof.
  induction 1 as [|k ks Hk Hks IH]; [reflexivity|]. cbn [distinct].
  rewrite IH, andb_true_r. apply negb_true_iff.
  destruct (existsb (pystr_eqb k) ks) eqn:E; [|reflexivity].
  apply existsb_exists in E. destruct E as (x & Hx & Heq).
  apply pystr_eqb_eq in Heq; subst. contradiction.
Qed.

Lemma dict_of_pairs_inv (P : pystr * value -> Prop) (pairs : list (pystr * value)) :
  Forall P pairs ->
  Forall P (dict_of_pairs pairs) /\ distinct (map fst (dict_of_pairs pairs)) = true.
Proof.
  intros HP. unfold dict_of_pairs.
  assert (Hgen : forall acc,
             Forall P acc -> NoDup (map fst acc) ->
             Forall P (fold_left (fun d kv => dict_set d (fst kv) (snd kv)) pairs acc)
             /\ NoDup (map fst (fold_left (fun d kv => dict_set d (fst kv) (snd kv))
                                          pairs acc))).
  { induction HP as [|[k v] pairs Hkv Hpairs IH]; intros acc Hacc Hnd; [now split|].
    cbn [fold_left fst snd]. apply IH.
    - apply Forall_forall. intros kv Hin.
      destruct (dict_set_in acc k v kv Hin) as [H| ->]; [|assumption].
      rewrite Forall_forall in Hacc. auto.
    - now apply dict_set_NoDup. }
  destruct (Hgen []) as [H1 H2]; [constructor | constructor |].
  split; [assumption | now apply NoDup_distinct].
Qed.

(** ** What [json.loads] builds from a text without surrogates *)


Lemma data_ok_dict (pairs : list (pystr * value)) :
  forallb item_ok pairs = true -> data_ok (JDict (dict_of_pairs pairs)) = true.
Proof.
  intros H. cbn [data_ok]. fold item_ok.
  destruct (dict_of_pairs_inv (fun kv => item_ok kv = true) pairs) as [H1 H2].
  { apply Forall_forall. rewrite forallb_forall in H. exact H. }
  rewrite H2, andb_true_r. apply forallb_forall. now rewrite Forall_forall in H1.
Qed.


Lemma scanstring_shorter (n : nat) :
  forall s str rest,
    (length s <= n)%nat -> scanstring s = Some (str, rest) -> shorter rest s.
Proof.
  induction n as [|n IH]; intros s str rest Hlen H.
  { destruct s; [discriminate | cbn in Hlen; lia]. }
  destruct s as [|c r]; [discriminate|]. cbn [length] in Hlen.
  destruct (N.eqb_spec c 34) as [->|H34].
  { cbn in H. injection H as _ <-. apply shorter_tail. }
  destruct (N.eqb_spec c 92) as [->|H92].
  { destruct r as [|e r1]; [discriminate|]. cbn [length] in Hlen.
    destruct (N.eqb_spec e 117) as [->|H117].
    - rewrite scanstring_unicode_escape in H.
      destruct (decode_uXXXX r1) as [[uni r2]|] eqn:Ed; [|discriminate].
      destruct (decode_uXXXX_inv _ _ _ Ed) as (_ & h1 & h2 & h3 & h4 & ->).
      cbn [length] in Hlen.
      assert (Hplain : forall o, push uni (scanstring r2) = Some o -> snd o = rest ->
                shorter rest (92 :: 117 :: h1 :: h2 :: h3 :: h4 :: r2)).
      { intros [str' rest'] Hp Hrest. cbn in Hrest; subst rest'.
        apply push_some in Hp. destruct Hp as (str2 & Hscan & _).
        do 6 apply shorter_cons. apply (IH r2 str2 rest); [lia | assumption]. }
      destruct (is_high_surrogate uni && startswith [92; 117] r2) eqn:Ehs;
        [|now apply (Hplain _ H)].
      apply andb_prop in Ehs; destruct Ehs as [_ Esw].
      destruct (startswith_escape r2 Esw) as (r3 & ->).
      change (skipn 2 (92 :: 117 :: r3)) with r3 in H.
      destruct (decode_uXXXX r3) as [[uni2 r4]|] eqn:Ed2; [|discriminate].
      destruct (decode_uXXXX_inv _ _ _ Ed2) as (_ & g1 & g2 & g3 & g4 & ->).
      destruct (is_low_surrogate uni2); [|now apply (Hplain _ H)].
      apply push_some in H. destruct H as (str2 & Hscan & _).
      cbn [length] in Hlen.
      do 12 apply shorter_cons. apply (IH r4 str2 rest); [lia | assumption].
    - cbn [scanstring] in H. change (92 =? 34) with false in H.
      change (92 =? 92) with true in H. cbv iota in H.
      apply N.eqb_neq in H117. rewrite H117 in H.
      destruct (backslash e) as [ch|]; [|discriminate].
      apply push_some in H. destruct H as (str2 & Hscan & _).
      do 2 apply shorter_cons. apply (IH r1 str2 rest); [lia | assumption]. }
  cbn [scanstring] in H.
  apply N.eqb_neq in H34. apply N.eqb_neq in H92. rewrite H34, H92 in H.
  destruct (c <? 32); [discriminate|].
  apply push_some in H. destruct H as (str2 & Hscan & _).
  apply shorter_cons. apply (IH r str2 rest); [lia | assumption].
Qed.

Ltac scanned H := injection H as ? ?; subst.

(** A scanner that returns a value has read at least one character. *)
Lemma scan_shorter (fuel : nat) :
  (forall s v rest, scan_once fuel s = Scanned v rest -> shorter rest s)
  /\ (forall s vs rest, array_loop fuel s = Scanned vs rest -> shorter rest s)
  /\ (forall s pairs rest, object_loop fuel s = Scanned pairs rest -> shorter rest s).
Proof.
  induction fuel as [|fuel (IHs & IHa & IHo)];
    [repeat split; discriminate|].
  split; [|split].
  - intros s v rest H. cbn [scan_once] in H.
    destruct s as [|c r]; [discriminate|].
    destruct (c =? 34).
    { destruct (scanstring r) as [[str rest']|] eqn:E; [|discriminate].
      scanned H. apply shorter_cons. now apply (scanstring_shorter (length r) r str). }
    destruct (c =? 123).
    { destruct (skip_ws r) as [|c1 r1] eqn:Ew; [discriminate|].
      pose proof (skip_ws_cons r r1 c1 Ew) as Hsh1.
      destruct (c1 =? 125); [scanned H; now apply shorter_cons|].
      destruct (c1 =? 34); [|discriminate].
      destruct (object_loop fuel r1) as [pairs rest'| |] eqn:Eo; try discriminate.
      scanned H. apply shorter_cons. eapply shorter_trans; eauto. }
    destruct (c =? 91).
    { destruct (skip_ws r) as [|c1 r1] eqn:Ew; [discriminate|].
      pose proof (skip_ws_cons r r1 c1 Ew) as Hsh1.
      destruct (c1 =? 93); [scanned H; now apply shorter_cons|].
      destruct (array_loop fuel (c1 :: r1)) as [values rest'| |] eqn:Ea; try discriminate.
      scanned H. apply shorter_cons. apply shorter_skip_ws. rewrite Ew. eauto. }
    destruct (startswith (txt "null") (c :: r)); [scanned H; exact (shorter_skipn 3 c r)|].
    destruct (startswith (txt "true") (c :: r)); [scanned H; exact (shorter_skipn 3 c r)|].
    destruct (startswith (txt "false") (c :: r)); [scanned H; exact (shorter_skipn 4 c r)|].
    destruct (match_number (c :: r)) as [[[[integer frac] exp] rest']|] eqn:Em.
    { apply match_number_shorter in Em. destruct frac, exp; scanned H; assumption. }
    destruct (startswith (txt "NaN") (c :: r)); [scanned H; exact (shorter_skipn 2 c r)|].
    destruct (startswith (txt "Infinity") (c :: r)); [scanned H; exact (shorter_skipn 7 c r)|].
    destruct (startswith (txt "-Infinity") (c :: r)); [|discriminate].
    scanned H. exact (shorter_skipn 8 c r).
  - intros s vs rest H. cbn [array_loop] in H.
    destruct (scan_once fuel s) as [v r| |] eqn:E; try discriminate.
    pose proof (IHs s v r E) as Hsh.
    destruct (skip_ws r) as [|c r1] eqn:Ew; [discriminate|].
    pose proof (skip_ws_cons r r1 c Ew) as Hsh1.
    assert (Hsh2 : shorter r1 s) by (eapply shorter_trans; eauto).
    destruct (c =? 93); [scanned H; assumption|].
    destruct (c =? 44); [|discriminate].
    destruct (array_loop fuel (skip_ws r1)) as [vs' rest'| |] eqn:Ea; try discriminate.
    scanned H. eapply shorter_trans; [|exact Hsh2]. apply shorter_skip_ws. eauto.
  - intros s pairs rest H. cbn [object_loop] in H.
    destruct (scanstring s) as [[key r]|] eqn:E; [|discriminate].
    pose proof (scanstring_shorter (length s) s key r (le_n _) E) as Hsh.
    destruct (skip_ws r) as [|c r1] eqn:Ew; [discriminate|].
    pose proof (skip_ws_cons r r1 c Ew) as Hsh1.
    assert (Hsh2 : shorter r1 s) by (eapply shorter_trans; eauto).
    destruct (c =? 58); [|discriminate].
    destruct (scan_once fuel (skip_ws r1)) as [v r2| |] eqn:Ev; try discriminate.
    assert (Hsh4 : shorter r2 s)
      by (eapply shorter_trans; [|exact Hsh2]; apply shorter_skip_ws; eauto).
    destruct (skip_ws r2) as [|c2 r3] eqn:Ew2; [discriminate|].
    pose proof (skip_ws_cons r2 r3 c2 Ew2) as Hsh5.
    assert (Hsh6 : shorter r3 s) by (eapply shorter_trans; eauto).
    destruct (c2 =? 125); [scanned H; assumption|].
    destruct (c2 =? 44); [|discriminate].
    destruct (skip_ws r3) as [|c3 r4] eqn:Ew3; [discriminate|].
    pose proof (skip_ws_cons r3 r4 c3 Ew3) as Hsh7.
    assert (Hsh8 : shorter r4 s) by (eapply shorter_trans; eauto).
    destruct (c3 =? 34); [|discriminate].
    destruct (object_loop fuel r4) as [pairs' rest'| |] eqn:Eo; try discriminate.
    scanned H. eapply shorter_trans; eauto.
Qed.

Lemma scan_inv (fuel : nat) :
  (forall s v rest,
      text_ok s = true -> scan_once fuel s = Scanned v rest -> data_ok v = true)
  /\ (forall s vs rest,
         text_ok s = true -> array_loop fuel s = Scanned vs rest ->
         forallb data_ok vs = true)
  /\ (forall s pairs rest,
         text_ok s = true -> object_loop fuel s = Scanned pairs rest ->
         forallb item_ok pairs = true).
Proof.
  induction fuel as [|fuel (IHs & IHa & IHo)];
    [repeat split; discriminate|].
  destruct (scan_shorter fuel) as (Shs & Sha & Sho).
  split; [|split].
  - intros s v rest Hs H. cbn [scan_once] in H.
    destruct s as [|c r]; [discriminate|].
    assert (Hr : text_ok r = true)
      by (apply (text_ok_shorter r (c :: r)); [apply shorter_tail | assumption]).
    destruct (c =? 34).
    { destruct (scanstring r) as [[str rest']|] eqn:E; [|discriminate].
      scanned H.
      now destruct (scanstring_inv (length r) r str rest) as (Hok & _ & _). }
    destruct (c =? 123).
    { destruct (skip_ws r) as [|c1 r1] eqn:Ew; [discriminate|].
      pose proof (skip_ws_cons r r1 c1 Ew) as Hsh1.
      destruct (c1 =? 125); [now scanned H|].
      destruct (c1 =? 34); [|discriminate].
      destruct (object_loop fuel r1) as [pairs rest'| |] eqn:Eo; try discriminate.
      scanned H. apply data_ok_dict.
      apply (IHo r1 pairs rest); [now apply (text_ok_shorter r1 r) | assumption]. }
    destruct (c =? 91).
    { destruct (skip_ws r) as [|c1 r1] eqn:Ew; [discriminate|].
      destruct (c1 =? 93); [now scanned H|].
      destruct (array_loop fuel (c1 :: r1)) as [values rest'| |] eqn:Ea; try discriminate.
      scanned H. cbn [data_ok].
      apply (IHa (c1 :: r1) values rest); [|assumption].
      rewrite <- Ew. now apply text_ok_skip_ws. }
    destruct (startswith (txt "null") (c :: r)); [now scanned H|].
    destruct (startswith (txt "true") (c :: r)); [now scanned H|].
    destruct (startswith (txt "false") (c :: r)); [now scanned H|].
    destruct (match_number (c :: r)) as [[[[integer frac] exp] rest']|] eqn:Em.
    { destruct frac, exp; now scanned H. }
    destruct (startswith (txt "NaN") (c :: r)); [now scanned H|].
    destruct (startswith (txt "Infinity") (c :: r)); [now scanned H|].
    destruct (startswith (txt "-Infinity") (c :: r)); [|discriminate].
    now scanned H.
  - intros s vs rest Hs H. cbn [array_loop] in H.
    destruct (scan_once fuel s) as [v r| |] eqn:E; try discriminate.
    pose proof (IHs s v r Hs E) as Hv. pose proof (Shs s v r E) as Hsh.
    destruct (skip_ws r) as [|c r1] eqn:Ew; [discriminate|].
    pose proof (skip_ws_cons r r1 c Ew) as Hsh1.
    assert (Hsh2 : shorter r1 s) by (eapply shorter_trans; eauto).
    destruct (c =? 93); [scanned H; cbn; now rewrite Hv|].
    destruct (c =? 44); [|discriminate].
    destruct (array_loop fuel (skip_ws r1)) as [vs' rest'| |] eqn:Ea; try discriminate.
    scanned H. cbn [forallb]. rewrite Hv. cbn [andb].
    apply (IHa (skip_ws r1) vs' rest); [|assumption].
    apply text_ok_skip_ws. now apply (text_ok_shorter r1 s).
  - intros s pairs rest Hs H. cbn [object_loop] in H.
    destruct (scanstring s) as [[key r]|] eqn:E; [|discriminate].
    destruct (scanstring_inv (length s) s key r) as (Hkey & Hsh & _); auto.
    destruct (skip_ws r) as [|c r1] eqn:Ew; [discriminate|].
    pose proof (skip_ws_cons r r1 c Ew) as Hsh1.
    assert (Hsh2 : shorter r1 s) by (eapply shorter_trans; eauto).
    destruct (c =? 58); [|discriminate].
    destruct (scan_once fuel (skip_ws r1)) as [v r2| |] eqn:Ev; try discriminate.
    assert (Hv : data_ok v = true).
    { apply (IHs (skip_ws r1) v r2); [|assumption].
      apply text_ok_skip_ws. now apply (text_ok_shorter r1 s). }
    assert (Hsh4 : shorter r2 s)
      by (eapply shorter_trans; [|exact Hsh2]; apply shorter_skip_ws; eauto).
    destruct (skip_ws r2) as [|c2 r3] eqn:Ew2; [discriminate|].
    pose proof (skip_ws_cons r2 r3 c2 Ew2) as Hsh5.
    assert (Hsh6 : shorter r3 s) by (eapply shorter_trans; eauto).
    assert (Hitem : item_ok (key, v) = true)
      by (unfold item_ok; cbn [fst snd]; now rewrite Hkey, Hv).
    destruct (c2 =? 125); [scanned H; cbn [forallb]; now rewrite Hitem|].
    destruct (c2 =? 44); [|discriminate].
    destruct (skip_ws r3) as [|c3 r4] eqn:Ew3; [discriminate|].
    pose proof (skip_ws_cons r3 r4 c3 Ew3) as Hsh7.
    assert (Hsh8 : shorter r4 s) by (eapply shorter_trans; eauto).
    destruct (c3 =? 34); [|discriminate].
    destruct (object_loop fuel r4) as [pairs' rest'| |] eqn:Eo; try discriminate.
    scanned H. cbn [forallb]. rewrite Hitem. cbn [andb].
    apply (IHo r4 pairs' rest); [now apply (text_ok_shorter r4 s) | assumption].
Qed.

Lemma float_free_json_ok (v : value) :
  data_ok v = true -> float_free v = true -> json_ok v = true.
Proof.
  induction v as [| b | z | f | s | l IHl | d IHd] using value_ind;
    cbn [data_ok float_free json_ok]; auto.
  - intros Hd Hf. apply forallb_forall. intros x Hx.
    rewrite forallb_forall in Hd, Hf. rewrite Forall_forall in IHl. auto.
  - intros Hd Hf. apply andb_prop in Hd; destruct Hd as [Hitems Hkeys].
    rewrite Hkeys, andb_true_r. apply forallb_forall. intros x Hx.
    rewrite forallb_forall in Hitems, Hf. rewrite Forall_forall in IHd.
    specialize (Hitems x Hx). apply andb_prop in Hitems; destruct Hitems as [Hk Hv].
    rewrite Hk. cbn [andb]. auto.
Qed.

(** Every document [json.loads] reads from a text without surrogate code
    points (as every line decoded from a file is) has strings that satisfy
    [str_ok] and objects with pairwise different keys; when it holds no
    float it satisfies [json_ok]. *)
Lemma loads_json_ok (s : pystr) (v : value) :
  text_ok s = true -> loads s = Ok v ->
  data_ok v = true /\ (float_free v = true -> json_ok v = true).
Proof.
  unfold loads. intros Hs H.
  destruct (startswith [65279] s); [discriminate|].
  destruct (scan_once (loads_fuel s) (skip_ws s)) as [v' rest| |] eqn:E; try discriminate.
  destruct (skip_ws rest); [|discriminate]. injection H as ->.
  destruct (scan_inv (loads_fuel s)) as (IHs & _ & _).
  assert (Hok : data_ok v = true)
    by (apply (IHs (skip_ws s) v rest); [now apply text_ok_skip_ws | assumption]).
  split; [exact Hok | now apply float_free_json_ok].
Qed.

(** ** The recursion budget is never used up *)

Lemma scan_fuel (fuel : nat) :
  (forall s, (2 * length s + 1 <= fuel)%nat -> scan_once fuel s <> Exhausted)
  /\ (forall s, (2 * length s + 2 <= fuel)%nat -> array_loop fuel s <> Exhausted)
  /\ (forall s, (2 * length s + 2 <= fuel)%nat -> object_loop fuel s <> Exhausted).
Proof.
  induction fuel as [|fuel (IHs & IHa & IHo)]; [repeat split; intros; lia|].
  destruct (scan_shorter fuel) as (Shs & Sha & Sho).
  split; [|split].
  - intros s Hf. cbn [scan_once].
    destruct s as [|c r]; [discriminate|]. cbn [length] in Hf.
    destruct (c =? 34); [destruct (scanstring r) as [[? ?]|]; discriminate|].
    destruct (c =? 123).
    { pose proof (skip_ws_length r) as Hl.
      destruct (skip_ws r) as [|c1 r1]; [discriminate|]. cbn [length] in Hl.
      destruct (c1 =? 125); [discriminate|]. destruct (c1 =? 34); [|discriminate].
      pose proof (IHo r1) as Hn.
      destruct (object_loop fuel r1); try discriminate. exfalso. apply Hn; [lia | reflexivity]. }
    destruct (c =? 91).
    { pose proof (skip_ws_length r) as Hl.
      destruct (skip_ws r) as [|c1 r1]; [discriminate|].
      destruct (c1 =? 93); [discriminate|].
      pose proof (IHa (c1 :: r1)) as Hn.
      destruct (array_loop fuel (c1 :: r1)); try discriminate. exfalso. apply Hn; [lia | reflexivity]. }
    destruct (startswith (txt "null") (c :: r)); [discriminate|].
    destruct (startswith (txt "true") (c :: r)); [discriminate|].
    destruct (startswith (txt "false") (c :: r)); [discriminate|].
    destruct (match_number (c :: r)) as [[[[integer frac] exp] rest']|];
      [destruct frac, exp; discriminate|].
    destruct (startswith (txt "NaN") (c :: r)); [discriminate|].
    destruct (startswith (txt "Infinity") (c :: r)); [discriminate|].
    destruct (startswith (txt "-Infinity") (c :: r)); discriminate.
  - intros s Hf. cbn [array_loop].
    pose proof (IHs s) as Hn.
    destruct (scan_once fuel s) as [v r| |] eqn:E; try discriminate; [|exfalso; apply Hn; [lia | reflexivity]].
    apply Shs, shorter_length in E.
    pose proof (skip_ws_length r) as Hl.
    destruct (skip_ws r) as [|c r1]; [discriminate|]. cbn [length] in Hl.
    destruct (c =? 93); [discriminate|]. destruct (c =? 44); [|discriminate].
    pose proof (IHa (skip_ws r1)) as Hn2. pose proof (skip_ws_length r1) as Hl2.
    destruct (array_loop fuel (skip_ws r1)); try discriminate. exfalso. apply Hn2; [lia | reflexivity].
  - intros s Hf. cbn [object_loop].
    destruct (scanstring s) as [[key r]|] eqn:E; [|discriminate].
    apply (scanstring_shorter (length s) s key r (le_n _)), shorter_length in E.
    pose proof (skip_ws_length r) as Hl.
    destruct (skip_ws r) as [|c r1]; [discriminate|]. cbn [length] in Hl.
    destruct (c =? 58); [|discriminate].
    pose proof (IHs (skip_ws r1)) as Hn. pose proof (skip_ws_length r1) as Hl1.
    destruct (scan_once fuel (skip_ws r1)) as [v r2| |] eqn:Ev; try discriminate;
      [|exfalso; apply Hn; [lia | reflexivity]].
    apply Shs, shorter_length in Ev.
    pose proof (skip_ws_length r2) as Hl2.
    destruct (skip_ws r2) as [|c2 r3]; [discriminate|]. cbn [length] in Hl2.
    destruct (c2 =? 125); [discriminate|]. destruct (c2 =? 44); [|discriminate].
    pose proof (skip_ws_length r3) as Hl3.
    destruct (skip_ws r3) as [|c3 r4]; [discriminate|]. cbn [length] in Hl3.
    destruct (c3 =? 34); [|discriminate].
    pose proof (IHo r4) as Hn4.
    destruct (object_loop fuel r4); try discriminate. exfalso. apply Hn4; [lia | reflexivity].
Qed.

(** [loads] gives the scanner enough: where the model answers
    [JSONDecodeError], the text is no document. *)
Lemma scan_once_fuel (s : pystr) : scan_once (loads_fuel s) (skip_ws s) <> Exhausted.
Proof.
  destruct (scan_fuel (loads_fuel s)) as (Hs & _ & _). apply Hs.
  pose proof (skip_ws_length s). unfold loads_fuel. lia.
Qed.

Lemma data_ok_getitem (v x : value) (k : pystr) :
  data_ok v = true -> py_getitem v k = Ok x -> data_ok x = true.
Proof.
  destruct v as [| | | | | |d]; try discriminate. cbn [data_ok py_getitem].
  intros H Hget. apply andb_prop in H; destruct H as [H _].
  induction d as [|[k' v'] d IH]; [discriminate|].
  cbn [dict_lookup] in Hget. cbn [forallb fst snd] in H.
  apply andb_prop in H; destruct H as [Hkv Hd].
  destruct (pystr_eqb k' k); [|now apply IH].
  injection Hget as <-. now apply andb_prop in Hkv.
Qed.

(** The tool calls of a turn parsed from a session line, when they hold no
    float, are a document that satisfies [json_ok]. *)
Lemma session_line_content_ok (line : pystr) (t : value) (calls : list value) :
  text_ok line = true -> loads line = Ok t ->
  py_getitem (response_of t) (txt "content") = Ok (JList calls) ->
  float_free (JList calls) = true ->
  json_ok (JList calls) = true.
Proof.
  intros Hline Hloads Hcontent Hfloat.
  destruct (loads_json_ok line t Hline Hloads) as [Ht _].
  apply float_free_json_ok; [|assumption].
  apply (data_ok_getitem (response_of t) _ (txt "content")); [|assumption].
  unfold response_of.
  destruct (py_getitem t (txt "response")) as [r|] eqn:E; [|reflexivity].
  now apply (data_ok_getitem t r (txt "response")).
Qed.


End Properties.

(** * Further properties *)

Section Further.

Context {RT : PyRuntime}.

Ltac bind_inv H :=
  let a := fresh "x" in
  let Ha := fresh "E" in
  apply bind_ok in H; destruct H as (a & Ha & H).

(** ** More on [process_session_turn] *)

Lemma request_of_dict (t : value) :
  is_dict (request_of t) = true -> py_getitem t (txt "request") = Ok (request_of t).
Proof.
  unfold request_of. destruct (py_getitem t (txt "request")); [reflexivity | discriminate].
Qed.

Lemma response_of_dict (t : value) :
  is_dict (response_of t) = true -> py_getitem t (txt "response") = Ok (response_of t).
Proof.
  unfold response_of. destruct (py_getitem t (txt "response")); [reflexivity | discriminate].
Qed.

(** The converse of [process_session_turn_inv]. *)
Lemma process_session_turn_intro (w : World) (t : value) (ip ic : bool)
    (esys tools : value) (msgs : list value) (parts : list pystr) (n : Z) :
  is_dict (request_of t) = true ->
  is_dict (response_of t) = true ->
  inject_system_additions (system_of t) ip = Ok esys ->
  effective_tools w (request_of t) ic = Ok tools ->
  py_iter (messages_of t) = Ok msgs ->
  for_each message_part msgs = Ok parts ->
  py_len (messages_of t) = Ok n ->
  process_session_turn w t ip ic = Ok (example_of esys tools (content_of t) parts n).
Proof.
  intros Hreq Hresp Hsys Htools Hmsgs Hparts Hn.
  unfold process_session_turn.
  rewrite (request_of_dict t Hreq), (response_of_dict t Hresp). cbn [bind].
  unfold system_of, messages_of, content_of in *.
  rewrite !(py_get_field (request_of t)) by assumption.
  rewrite (py_get_field (response_of t)) by assumption.
  cbn [bind]. rewrite Hsys. cbn [bind]. rewrite Htools. cbn [bind].
  rewrite Hmsgs. cbn [bind]. rewrite Hparts. cbn [bind]. rewrite Hn. cbn [bind].
  unfold example_of, input_text_of.
  destruct (py_truthy tools); reflexivity.
Qed.

Lemma effective_tools_inv (w : World) (request tools : value) (ic : bool) :
  is_dict request = true ->
  effective_tools w request ic = Ok tools ->
  let own := field request (txt "tools") JNull in
  if ic && is_none own then load_tool_catalogue w = Ok tools else tools = own.
Proof.
  intros Hreq H. unfold effective_tools in H.
  rewrite (py_get_field request) in H by assumption. cbn [bind] in H.
  cbv zeta. destruct (ic && is_none _); [exact H | now inversion H].
Qed.

(** X1.  In every example [process_session_turn] returns, [has_tools] says
    whether the effective tools value is not [None].  With catalog injection
    off it is true exactly when the request brings a tools value that is not
    null; with catalog injection on it is true in every example, unless the
    catalogue file itself holds null. *)
Theorem has_tools_tells_whether_tools_are_none (w : World) (t : value) (ip ic : bool)
    (ex : TrainingExample)
  (Hex : process_session_turn w t ip ic = Ok ex) :
  exists tools,
    effective_tools w (request_of t) ic = Ok tools
    /\ has_tools (metadata ex) = negb (is_none tools)
    /\ (ic = false ->
        has_tools (metadata ex)
        = negb (is_none (field (request_of t) (txt "tools") JNull)))
    /\ (ic = true -> load_tool_catalogue w <> Ok JNull -> has_tools (metadata ex) = true).
Proof.
  apply process_session_turn_inv in Hex.
  destruct Hex as (esys & tools & msgs & parts & n & Hreq & _ & _ & Htools & _ & _ & _ & ->).
  exists tools. split; [exact Htools|]. split; [reflexivity|].
  pose proof (effective_tools_inv w _ _ _ Hreq Htools) as Hinv. cbv zeta in Hinv.
  cbn [example_of metadata has_tools]. split.
  - intros ->. cbn [andb] in Hinv. now rewrite Hinv.
  - intros -> Hcat. cbn [andb] in Hinv.
    destruct (is_none (field (request_of t) (txt "tools") JNull)) eqn:Eown.
    + destruct tools; try reflexivity. contradiction.
    + rewrite Hinv, Eown. reflexivity.
Qed.

(** X2.  The output of a returned example is never a list.  A content
    that is a list is replaced by its compact serialization, with response
    type "tool_calls"; any other content, a string but also null, a number
    or an object, is stored as it is, with response type "text". *)
Theorem output_is_never_a_list (w : World) (t : value) (ip ic : bool)
    (ex : TrainingExample)
  (Hex : process_session_turn w t ip ic = Ok ex) :
  is_list (output ex) = false
  /\ (is_list (content_of t) = true ->
      output ex = JStr (dumps (content_of t))
      /\ response_type (metadata ex) = txt "tool_calls")
  /\ (is_list (content_of t) = false ->
      output ex = content_of t /\ response_type (metadata ex) = txt "text").
Proof.
  apply process_session_turn_inv in Hex.
  destruct Hex as (esys & tools & msgs & parts & n & _ & _ & _ & _ & _ & _ & _ & ->).
  cbn [example_of output metadata response_type].
  destruct (is_list (content_of t)) eqn:E.
  - repeat split; discriminate.
  - repeat split; try discriminate. exact E.
Qed.

Lemma effective_tools_own (w w' : World) (request : value) (ic ic' : bool) :
  is_none (field request (txt "tools") JNull) = false ->
  effective_tools w request ic = effective_tools w' request ic'.
Proof.
  unfold effective_tools, field.
  destruct (py_get request (txt "tools") JNull) as [tools|e]; [|reflexivity].
  intros H. cbn [bind]. now rewrite H, !andb_false_r.
Qed.

Lemma process_session_turn_tools (w w' : World) (t : value) (ip ic ic' : bool) :
  effective_tools w (request_of t) ic = effective_tools w' (request_of t) ic' ->
  process_session_turn w t ip ic = process_session_turn w' t ip ic'.
Proof.
  intros H. unfold process_session_turn, request_of in *.
  destruct (py_getitem t (txt "request")) as [request|]; [|reflexivity]. cbn [bind].
  destruct (py_getitem t (txt "response")) as [response|]; [|reflexivity]. cbn [bind].
  destruct (py_get request (txt "system") (JStr [])); [|reflexivity]. cbn [bind].
  destruct (inject_system_additions a ip); [|reflexivity]. cbn [bind].
  now rewrite H.
Qed.

(** X3.  With catalog injection off the result of
    [process_session_turn] does not depend on the catalogue; and a turn that
    brings a tools value that is not null gives the same result whatever
    the catalogue and whatever the flag.  The catalogue is not loaded for
    such a turn, so a missing or broken catalogue file cannot fail it. *)
Theorem own_tools_never_load_the_catalogue (w w' : World) (t : value) (ip ic ic' : bool) :
  process_session_turn w t ip false = process_session_turn w' t ip false
  /\ (is_none (field (request_of t) (txt "tools") JNull) = false ->
      process_session_turn w t ip ic = process_session_turn w' t ip ic').
Proof.
  split.
  - apply process_session_turn_tools. reflexivity.
  - intros Hown. apply process_session_turn_tools. now apply effective_tools_own.
Qed.

(** X4.  Switching the preamble on changes a returned example only inside
    its system block.  For a turn whose system prompt is a string, the
    example made with the preamble has the same output and the same metadata
    as the one made without; its input is the other input with the preamble
    and a blank line put between the system tag and the prompt. *)
Theorem preamble_only_changes_the_system_block (w : World) (t : value) (ic : bool)
    (ex : TrainingExample)
  (Hex : process_session_turn w t false ic = Ok ex)
  (Hsys : is_str (system_of t) = true) :
  exists ex' tail,
    process_session_turn w t true ic = Ok ex'
    /\ output ex' = output ex
    /\ metadata ex' = metadata ex
    /\ input ex = txt "<|system|>" ++ nl ++ tail
    /\ input ex' = txt "<|system|>" ++ nl ++ TOOL_PREAMBLE ++ nl ++ nl ++ tail.
Proof.
  apply process_session_turn_inv in Hex.
  destruct Hex as (esys & tools & msgs & parts & n
                   & Hreq & Hresp & Hinj & Htools & Hmsgs & Hparts & Hn & ->).
  destruct (system_of t) as [| | | |s| |] eqn:Es; try discriminate.
  injection Hinj as <-.
  assert (Hon : inject_system_additions (system_of t) true
                = Ok (JStr (TOOL_PREAMBLE ++ (nl ++ nl) ++ s)))
    by (rewrite Es; reflexivity).
  pose proof (process_session_turn_intro w t true ic _ _ _ _ _
                Hreq Hresp Hon Htools Hmsgs Hparts Hn) as Hex'.
  eexists. exists (s ++ nl ++ txt "<|end|>"
                   ++ concat (map (fun q => (nl ++ nl) ++ q)
                                  ((if py_truthy tools then [tools_block tools] else [])
                                   ++ parts))).
  split; [exact Hex'|]. split; [reflexivity|]. split; [reflexivity|].
  cbn [example_of input]. unfold input_text_of.
  change (([?b] ++ ?x) ++ parts) with (b :: x ++ parts).
  rewrite !join_blocks. unfold system_block. cbn [py_format].
  rewrite <- !app_assoc. split; reflexivity.
Qed.

(** X5.  With the preamble on, a turn whose system prompt is not a
    string (null, or a list of blocks) makes [process_session_turn] raise
    [TypeError], whatever the catalogue; the loop of [load_training_data]
    does not catch it, so the record ends the load with no event for the
    line. *)
Theorem non_string_system_prompt_ends_the_load (w : World) (t : value) (ic : bool)
  (Hreq : is_dict (request_of t) = true)
  (Hresp : has_key t (txt "response") = true)
  (Hsys : is_str (system_of t) = false) :
  process_session_turn w t true ic = Raise TypeError
  /\ forall (file : path) (first : nat) (line : pystr) (rest : list pystr),
       is_blank line = false -> loads line = Ok t ->
       read_records w true ic file first (line :: rest) = ([], Some TypeError).
Proof.
  assert (H : process_session_turn w t true ic = Raise TypeError).
  { unfold process_session_turn. rewrite (request_of_dict t Hreq). cbn [bind].
    unfold has_key in Hresp.
    destruct (py_getitem t (txt "response")); [|discriminate]. cbn [bind].
    unfold system_of in Hsys.
    rewrite (py_get_field (request_of t)) by assumption. cbn [bind].
    destruct (field (request_of t) (txt "system") (JStr [])); try reflexivity.
    discriminate. }
  split; [exact H|].
  intros file first line rest Hblank Hline.
  cbn [read_records]. rewrite Hblank, Hline. cbn [bind]. now rewrite H.
Qed.

Lemma message_part_block (msg : value) (part : pystr) :
  message_part msg = Ok part -> part = block_of msg.
Proof.
  unfold message_part, block_of. intros H. bind_inv H. bind_inv H.
  injection H as <-.
  now rewrite (py_getitem_field _ _ _ JNull E), (py_getitem_field _ _ _ JNull E0).
Qed.

Lemma for_each_message_part (msgs : list value) (parts : list pystr) :
  for_each message_part msgs = Ok parts -> parts = map block_of msgs.
Proof.
  revert parts; induction msgs as [|m msgs IH]; intros parts H; cbn [for_each] in H.
  - now injection H as <-.
  - bind_inv H. bind_inv H. injection H as <-. cbn [map].
    f_equal; [now apply message_part_block | now apply IH].
Qed.

(** X6.  The input of every returned example is the system block, then
    the tools block when the tools are truthy, then one block for each
    message, in the order of the messages, each after a blank line; the
    block of a message is made of its role and its content alone.
    [num_messages] is the number of those blocks. *)
Theorem input_lists_the_messages_in_order (w : World) (t : value) (ip ic : bool)
    (ex : TrainingExample)
  (Hex : process_session_turn w t ip ic = Ok ex) :
  exists esys tools msgs,
    inject_system_additions (system_of t) ip = Ok esys
    /\ effective_tools w (request_of t) ic = Ok tools
    /\ py_iter (messages_of t) = Ok msgs
    /\ num_messages (metadata ex) = Z.of_nat (length msgs)
    /\ input ex
       = system_block esys
         ++ concat (map (fun block => nl ++ nl ++ block) (blocks_after_system tools msgs)).
Proof.
  apply process_session_turn_inv in Hex.
  destruct Hex as (esys & tools & msgs & parts & n
                   & Hreq & Hresp & Hinj & Htools & Hmsgs & Hparts & Hn & ->).
  exists esys, tools, msgs. repeat split; auto.
  - cbn [example_of metadata num_messages].
    destruct (messages_of t); try discriminate; cbn in Hmsgs, Hn;
      injection Hmsgs as <-; injection Hn as <-; now rewrite ?length_map.
  - cbn [example_of input]. unfold input_text_of, blocks_after_system.
    rewrite (for_each_message_part msgs parts Hparts).
    change (([?b] ++ ?x) ++ ?y) with (b :: x ++ y).
    rewrite join_blocks. reflexivity.
Qed.

(** X7.  A line that parses to an object without "request" or without
    "response" raises [KeyError] for the first of the two that is missing,
    before the system prompt, the catalogue or the messages are looked at;
    the loader prints the warning for a missing key with that key and the
    number of the line, and goes on with the next line. *)
Theorem missing_request_or_response_is_warned (w : World) (ip ic : bool) (file : path)
    (first : nat) (line : pystr) (rest : list pystr) (t : value)
  (Hblank : is_blank line = false)
  (Hline : loads line = Ok t)
  (Hdict : is_dict t = true)
  (Hmiss : has_key t (txt "request") && has_key t (txt "response") = false) :
  let key := if has_key t (txt "request") then txt "response" else txt "request" in
  process_session_turn w t ip ic = Raise (KeyError key)
  /\ read_records w ip ic file first (line :: rest)
     = then_run ([Warned MissingKey file first (KeyError key)], None)
                (read_records w ip ic file (S first) rest).
Proof.
  cbv zeta.
  assert (H : process_session_turn w t ip ic
              = Raise (KeyError (if has_key t (txt "request")
                                 then txt "response" else txt "request"))).
  { unfold process_session_turn, has_key in *.
    destruct t as [| | | | | |d]; try discriminate. cbn [py_getitem] in *.
    destruct (dict_lookup d (txt "request")); [|reflexivity]. cbn [bind].
    destruct (dict_lookup d (txt "response")); [discriminate | reflexivity]. }
  split; [exact H|].
  cbn [read_records]. rewrite Hblank, Hline. cbn [bind]. now rewrite H.
Qed.

(** ** More on the loader *)

Lemma then_run_assoc (a b c : run) :
  then_run (then_run a b) c = then_run a (then_run b c).
Proof.
  unfold then_run. destruct a as [ea [e|]], b as [eb [e'|]]; cbn; try reflexivity.
  now rewrite app_assoc.
Qed.

Lemma then_run_nothing (b : run) : then_run ([], None) b = b.
Proof. now destruct b. Qed.

Lemma examples_of_then_run (a b : run) :
  examples_of (then_run a b)
  = examples_of a ++ match snd a with None => examples_of b | Some _ => [] end.
Proof.
  unfold then_run, examples_of. destruct a as [ea [e|]]; cbn.
  - now rewrite app_nil_r.
  - apply flat_map_app.
Qed.

Lemma warnings_of_then_run (a b : run) :
  warnings_of (then_run a b)
  = warnings_of a ++ match snd a with None => warnings_of b | Some _ => [] end.
Proof.
  unfold then_run, warnings_of. destruct a as [ea [e|]]; cbn.
  - now rewrite app_nil_r.
  - apply filter_app.
Qed.

Lemma load_training_data_app (w : World) (data_dir : pystr) (ps ps' : list pystr)
    (ip ic : bool) :
  load_training_data w data_dir (ps ++ ps') ip ic
  = then_run (load_training_data w data_dir ps ip ic)
             (load_training_data w data_dir ps' ip ic).
Proof.
  induction ps as [|p ps IH]; cbn [List.app load_training_data].
  - now rewrite then_run_nothing.
  - destruct (load_session_files w data_dir p); [|reflexivity].
    now rewrite IH, then_run_assoc.
Qed.

(** X8.  Loading a list of patterns followed by another is loading the
    first list and then, unless that ended with an exception, the second:
    the examples are those of the first list followed by those of the
    second.  So a file that two patterns match is loaded twice, and nothing
    of a later pattern is looked at once an earlier one has failed. *)
Theorem patterns_are_loaded_one_after_the_other (w : World) (data_dir : pystr)
    (ps ps' : list pystr) (ip ic : bool) :
  let first := load_training_data w data_dir ps ip ic in
  let second := load_training_data w data_dir ps' ip ic in
  load_training_data w data_dir (ps ++ ps') ip ic = then_run first second
  /\ examples_of (load_training_data w data_dir (ps ++ ps') ip ic)
     = examples_of first ++ match snd first with
                            | None => examples_of second
                            | Some _ => []
                            end.
Proof.
  cbv zeta. rewrite load_training_data_app. split; [reflexivity|].
  apply examples_of_then_run.
Qed.

Lemma then_run_event (ev : event) (r : run) :
  then_run ([ev], None) r = (ev :: fst r, snd r).
Proof. reflexivity. Qed.

(** Where a line is not blank, [read_records] goes by what the line comes
    to. *)
Lemma read_records_cons (w : World) (ip ic : bool) (file : path) (first : nat)
    (line : pystr) (rest : list pystr) :
  is_blank line = false ->
  read_records w ip ic file first (line :: rest)
  = match record_result w ip ic line with
    | Ok ex => then_run ([Yielded ex], None) (read_records w ip ic file (S first) rest)
    | Raise JSONDecodeError =>
      then_run ([Warned InvalidJSON file first JSONDecodeError], None)
               (read_records w ip ic file (S first) rest)
    | Raise (KeyError k) =>
      then_run ([Warned MissingKey file first (KeyError k)], None)
               (read_records w ip ic file (S first) rest)
    | Raise e => ([], Some e)
    end.
Proof.
  intros Hblank. cbn [read_records]. rewrite Hblank. reflexivity.
Qed.

Lemma read_records_blank (w : World) (ip ic : bool) (file : path) (first : nat)
    (line : pystr) (rest : list pystr) :
  is_blank line = true ->
  read_records w ip ic file first (line :: rest)
  = read_records w ip ic file (S first) rest.
Proof.
  intros Hblank. cbn [read_records]. now rewrite Hblank.
Qed.

Lemma examples_of_unnumbered (a b : run) :
  map unnumbered (fst a) = map unnumbered (fst b) -> examples_of a = examples_of b.
Proof.
  unfold examples_of. destruct a as [ea xa], b as [eb xb]. cbn [fst].
  revert eb; induction ea as [|x ea IH]; intros [|y eb] H; try discriminate; auto.
  cbn [map] in H. injection H as Hxy H. cbn [flat_map].
  rewrite (IH eb H). destruct x, y; try discriminate; cbn in Hxy; congruence.
Qed.

Lemma read_records_without_blanks (w : World) (ip ic : bool) (file : path)
    (lines : list pystr) (first first' : nat) :
  let r := read_records w ip ic file first lines in
  let r' := read_records w ip ic file first'
              (filter (fun line => negb (is_blank line)) lines) in
  map unnumbered (fst r) = map unnumbered (fst r') /\ snd r = snd r'.
Proof.
  cbv zeta. revert first first'.
  induction lines as [|line lines IH]; intros first first'; [now split|].
  cbn [filter]. destruct (is_blank line) eqn:Hblank; cbn [negb].
  - rewrite read_records_blank by assumption. apply IH.
  - rewrite !read_records_cons by assumption.
    specialize (IH (S first) (S first')). destruct IH as [IHe IHs].
    destruct (record_result w ip ic line) as [ex|e].
    + rewrite !then_run_event. cbn [fst snd map]. split; [now f_equal | assumption].
    + destruct e; try (now split);
        rewrite !then_run_event; cbn [fst snd map unnumbered];
          (split; [now f_equal | assumption]).
Qed.

(** X9.  Taking the blank lines out of a file changes nothing of what
    reading it yields but the line numbers in the warnings: the same
    examples, the same warnings for the same exceptions, in the same order,
    and the same exception at the end, if any. *)
Theorem blank_lines_only_shift_the_line_numbers (w : World) (ip ic : bool) (file : path)
    (lines : list pystr) (first first' : nat) :
  let r := read_records w ip ic file first lines in
  let r' := read_records w ip ic file first'
              (filter (fun line => negb (is_blank line)) lines) in
  map unnumbered (fst r) = map unnumbered (fst r')
  /\ snd r = snd r'
  /\ examples_of r = examples_of r'.
Proof.
  cbv zeta.
  destruct (read_records_without_blanks w ip ic file lines first first') as [He Hs].
  split; [exact He|]. split; [exact Hs|]. now apply examples_of_unnumbered.
Qed.

Lemma record_result_raises (w : World) (ip ic : bool) (line : pystr) (e : exn) :
  loads line = Raise e -> record_result w ip ic line = Raise JSONDecodeError.
Proof.
  intros H. unfold record_result. rewrite H. cbn [bind].
  now rewrite (loads_raises _ _ H).
Qed.

(** What [read_records] does on any file: it runs through the lines up
    to the first one it does not get past, and ends with the exception of
    that line. *)
Lemma read_records_prefix (w : World) (ip ic : bool) (file : path) (lines : list pystr)
    (first : nat) :
  let r := read_records w ip ic file first lines in
  snd r = first_fatal w ip ic lines
  /\ examples_of r = flat_map (line_example w ip ic) (passed_prefix w ip ic lines)
  /\ warnings_of r
     = flat_map (caught_warning w ip ic file)
                (numbered first (passed_prefix w ip ic lines)).
Proof.
  cbv zeta. revert first.
  induction lines as [|line lines IH]; intros first; [now repeat split|].
  specialize (IH (S first)). destruct IH as (IHs & IHe & IHw).
  cbn [passed_prefix first_fatal].
  destruct (is_blank line) eqn:Hblank.
  - rewrite read_records_blank by assumption.
    assert (Hp : passes w ip ic line = true) by (unfold passes; now rewrite Hblank).
    rewrite Hp.
    change (numbered first (line :: ?l)) with ((first, line) :: numbered (S first) l).
    cbn [flat_map]. unfold line_example at 1, caught_warning at 1. rewrite Hblank.
    now repeat split.
  - rewrite read_records_cons by assumption.
    assert (Hp : passes w ip ic line
                 = match record_result w ip ic line with
                   | Ok _ => true
                   | Raise JSONDecodeError => true
                   | Raise (KeyError _) => true
                   | Raise _ => false
                   end) by (unfold passes; now rewrite Hblank).
    assert (Hle : line_example w ip ic line
                  = match record_result w ip ic line with
                    | Ok ex => [ex]
                    | Raise _ => []
                    end) by (unfold line_example; now rewrite Hblank).
    assert (Hcw : caught_warning w ip ic file (first, line)
                  = match record_result w ip ic line with
                    | Raise JSONDecodeError => [Warned InvalidJSON file first JSONDecodeError]
                    | Raise (KeyError k) => [Warned MissingKey file first (KeyError k)]
                    | _ => []
                    end) by (unfold caught_warning; now rewrite Hblank).
    rewrite Hp.
    destruct (record_result w ip ic line) as [ex|e] eqn:Hrec.
    + change (numbered first (line :: ?l)) with ((first, line) :: numbered (S first) l).
      cbn [flat_map]. rewrite Hle, Hcw.
      rewrite examples_of_then_run, warnings_of_then_run. cbn [snd].
      repeat split; auto; rewrite ?IHe, ?IHw; reflexivity.
    + destruct e;
        try (cbn [flat_map numbered]; now repeat split);
        change (numbered first (line :: ?l)) with ((first, line) :: numbered (S first) l);
        cbn [flat_map]; rewrite Hle, Hcw;
        rewrite examples_of_then_run, warnings_of_then_run; cbn [snd];
        repeat split; auto; rewrite ?IHe, ?IHw; reflexivity.
Qed.

(** X10.  Whatever a file holds, reading it yields the examples of the
    lines before the first line the loop does not get past (one that raises
    neither of the two exceptions the loop catches), the warnings of those
    lines with their numbers, and ends with the exception of that line; it
    runs to the end exactly when the loop gets past every line. *)
Theorem a_file_is_read_up_to_its_first_fatal_line (w : World) (ip ic : bool)
    (file : path) (first : nat) (lines : list pystr) :
  let r := read_records w ip ic file first lines in
  let read := passed_prefix w ip ic lines in
  snd r = first_fatal w ip ic lines
  /\ (snd r = None <-> forallb (passes w ip ic) lines = true)
  /\ examples_of r = flat_map (line_example w ip ic) read
  /\ warnings_of r = flat_map (caught_warning w ip ic file) (numbered first read).
Proof.
  cbv zeta.
  destruct (read_records_prefix w ip ic file lines first) as (Hs & He & Hw).
  split; [exact Hs|]. split; [|split; assumption].
  rewrite Hs. clear. induction lines as [|line lines IH]; [now split|].
  cbn [first_fatal forallb]. destruct (passes w ip ic line) eqn:Hp; [exact IH|].
  cbn [andb]. split; [|discriminate].
  unfold passes in Hp. apply orb_false_iff in Hp. destruct Hp as [_ Hp].
  destruct (record_result w ip ic line); discriminate.
Qed.

(** ** Where the events of a load come from *)

Lemma read_records_events (w : World) (ip ic : bool) (file : path) (lines : list pystr)
    (first : nat) (ev : event) :
  In ev (fst (read_records w ip ic file first lines)) ->
  exists n line,
    nth_error lines n = Some line
    /\ is_blank line = false
    /\ match ev with
       | Yielded ex => record_result w ip ic line = Ok ex
       | Warned kind file' line_num e =>
         file' = file /\ line_num = (first + n)%nat
         /\ record_result w ip ic line = Raise e
         /\ kind = warning_for e
       end.
Proof.
  revert first. induction lines as [|line lines IH]; intros first Hin; [contradiction|].
  assert (Hrest : In ev (fst (read_records w ip ic file (S first) lines)) ->
                  exists n line',
                    nth_error (line :: lines) n = Some line'
                    /\ is_blank line' = false
                    /\ match ev with
                       | Yielded ex => record_result w ip ic line' = Ok ex
                       | Warned kind file' line_num e =>
                         file' = file /\ line_num = (first + n)%nat
                         /\ record_result w ip ic line' = Raise e
                         /\ kind = warning_for e
                       end).
  { intros H. destruct (IH (S first) H) as (n & line' & Hn & Hb & Hev).
    exists (S n), line'. split; [exact Hn|]. split; [exact Hb|].
    destruct ev as [ex|kind file' line_num e]; [exact Hev|].
    destruct Hev as (Hf & Hl & Hr & Hk). repeat split; auto. lia. }
  destruct (is_blank line) eqn:Hblank.
  - rewrite read_records_blank in Hin by assumption. auto.
  - rewrite read_records_cons in Hin by assumption.
    assert (Hhere : forall ev', ev' = ev ->
              match ev' with
              | Yielded ex => record_result w ip ic line = Ok ex
              | Warned kind file' line_num e =>
                file' = file /\ line_num = (first + 0)%nat
                /\ record_result w ip ic line = Raise e
                /\ kind = warning_for e
              end ->
              exists n line',
                nth_error (line :: lines) n = Some line'
                /\ is_blank line' = false
                /\ match ev with
                   | Yielded ex => record_result w ip ic line' = Ok ex
                   | Warned kind file' line_num e =>
                     file' = file /\ line_num = (first + n)%nat
                     /\ record_result w ip ic line' = Raise e
                     /\ kind = warning_for e
                   end).
    { intros ev' -> H. exists 0%nat, line. repeat split; auto. }
    destruct (record_result w ip ic line) as [ex|e] eqn:Hrec.
    + rewrite then_run_event in Hin. destruct Hin as [Hin|Hin]; [|auto].
      apply (Hhere _ Hin). reflexivity.
    + destruct e; try contradiction;
        rewrite then_run_event in Hin; (destruct Hin as [Hin|Hin]; [|auto]);
          apply (Hhere _ Hin); repeat split; auto.
Qed.

Lemma then_run_in (a b : run) (ev : event) :
  In ev (fst (then_run a b)) -> In ev (fst a) \/ In ev (fst b).
Proof.
  unfold then_run. destruct (snd a); cbn [fst]; [now left|]. apply in_app_or.
Qed.

Lemma read_files_events (w : World) (ip ic : bool) (files : list path) (ev : event) :
  In ev (fst (read_files w ip ic files)) ->
  exists file lines n line,
    In file files
    /\ read_lines w file = Some lines
    /\ nth_error lines n = Some line
    /\ is_blank line = false
    /\ match ev with
       | Yielded ex => record_result w ip ic line = Ok ex
       | Warned kind file' line_num e =>
         file' = file /\ line_num = S n
         /\ record_result w ip ic line = Raise e
         /\ kind = warning_for e
       end.
Proof.
  induction files as [|file files IH]; [contradiction|].
  cbn [read_files]. destruct (read_lines w file) as [lines|] eqn:Hlines; [|contradiction].
  intros Hin. apply then_run_in in Hin. destruct Hin as [Hin|Hin].
  - apply read_records_events in Hin. destruct Hin as (n & line & Hn & Hb & Hev).
    exists file, lines, n, line. split; [now left|]. repeat split; auto.
  - destruct (IH Hin) as (file' & lines' & n & line & Hf & Hl & Hn & Hb & Hev).
    exists file', lines', n, line. split; [now right|]. repeat split; auto.
Qed.

Lemma load_training_data_events (w : World) (data_dir : pystr) (ps : list pystr)
    (ip ic : bool) (ev : event) :
  In ev (fst (load_training_data w data_dir ps ip ic)) ->
  event_source w data_dir ps ip ic ev.
Proof.
  induction ps as [|p ps IH]; [contradiction|].
  cbn [load_training_data]. unfold load_session_files.
  destruct (dir_exists w data_dir); [|contradiction]. cbn [negb].
  destruct (glob w data_dir p) as [|f fs] eqn:Hglob; [contradiction|].
  intros Hin. apply then_run_in in Hin. destruct Hin as [Hin|Hin].
  - apply read_files_events in Hin.
    destruct Hin as (file & lines & n & line & Hf & Hl & Hn & Hb & Hev).
    exists p, file, lines, n, line. split; [now left|]. split.
    { rewrite Hglob. apply (Permutation_in file (Permutation_sym (sorted_perm (f :: fs)))).
      exact Hf. }
    repeat split; auto.
  - destruct (IH Hin) as (p' & file & lines & n & line & Hp & Hrest).
    exists p', file, lines, n, line. split; [now right | exact Hrest].
Qed.

(** X11.  Every example [load_training_data] yields and every warning it
    prints comes from a line, not blank, of a file that one of the patterns
    matches in the data directory: an example is what
    [process_session_turn] makes of the document on that line, and a
    warning names that file and the number of the line counted from one,
    blank lines included. *)
Theorem every_event_comes_from_a_line (w : World) (data_dir : pystr)
    (file_patterns : list pystr) (ip ic : bool) :
  Forall (event_source w data_dir file_patterns ip ic)
         (fst (load_training_data w data_dir file_patterns ip ic)).
Proof.
  apply Forall_forall. intros ev. apply load_training_data_events.
Qed.

(** ** A corpus the loader gets through *)

Lemma passed_prefix_all (w : World) (ip ic : bool) (lines : list pystr) :
  forallb (passes w ip ic) lines = true ->
  passed_prefix w ip ic lines = lines /\ first_fatal w ip ic lines = None.
Proof.
  induction lines as [|line lines IH]; [now split|].
  cbn [forallb passed_prefix first_fatal]. intros H.
  apply andb_prop in H; destruct H as [Hline Hrest]. rewrite Hline.
  destruct (IH Hrest) as [-> ->]. now split.
Qed.

Lemma read_files_passed (w : World) (ip ic : bool) (files : list path) :
  forallb (fun file => match read_lines w file with
                       | Some lines => forallb (passes w ip ic) lines
                       | None => false
                       end) files = true ->
  let r := read_files w ip ic files in
  snd r = None
  /\ examples_of r
     = flat_map (fun file => flat_map (line_example w ip ic) (file_lines w file)) files
  /\ warnings_of r
     = flat_map (fun file => flat_map (caught_warning w ip ic file)
                                      (numbered 1 (file_lines w file))) files.
Proof.
  cbv zeta. induction files as [|file files IH]; [now repeat split|].
  cbn [forallb]. intros H. apply andb_prop in H; destruct H as [Hfile Hrest].
  destruct (IH Hrest) as (IHs & IHe & IHw).
  cbn [read_files flat_map]. unfold file_lines at 1 3.
  destruct (read_lines w file) as [lines|]; [|discriminate].
  destruct (read_records_prefix w ip ic file lines 1) as (Hs & He & Hw).
  destruct (passed_prefix_all w ip ic lines Hfile) as [Hall Hnone].
  rewrite Hall in He, Hw. rewrite Hnone in Hs.
  rewrite examples_of_then_run, warnings_of_then_run.
  unfold then_run. rewrite Hs. cbn [snd].
  split; [exact IHs|]. split; congruence.
Qed.

(** X12.  On a corpus whose directory exists, whose patterns all match a
    file, whose files can all be read and hold no line the loop does not get
    past, [load_training_data] runs to its end, and yields the examples of
    the valid lines in this order: pattern after pattern, the files of a
    pattern in ascending path order, the lines of a file from first to
    last; the warnings come in the same order. *)
Theorem a_sound_corpus_is_loaded_in_order (w : World) (data_dir : pystr)
    (file_patterns : list pystr) (ip ic : bool)
  (Hok : corpus_ok w data_dir file_patterns ip ic = true) :
  let r := load_training_data w data_dir file_patterns ip ic in
  let files := corpus_files w data_dir file_patterns in
  snd r = None
  /\ examples_of r
     = flat_map (fun file => flat_map (line_example w ip ic) (file_lines w file)) files
  /\ warnings_of r
     = flat_map (fun file => flat_map (caught_warning w ip ic file)
                                      (numbered 1 (file_lines w file))) files.
Proof.
  cbv zeta. unfold corpus_ok in Hok.
  apply andb_prop in Hok; destruct Hok as [Hok Hfiles].
  apply andb_prop in Hok; destruct Hok as [Hdir Hglob].
  induction file_patterns as [|p ps IH]; [now repeat split|].
  cbn [forallb] in Hglob. apply andb_prop in Hglob; destruct Hglob as [Hp Hps].
  cbn [corpus_files flat_map] in Hfiles |- *.
  fold (corpus_files w data_dir ps) in Hfiles |- *.
  rewrite forallb_app in Hfiles. apply andb_prop in Hfiles; destruct Hfiles as [Hfp Hfps].
  destruct (IH Hps Hfps) as (IHs & IHe & IHw).
  cbn [load_training_data]. unfold load_session_files. rewrite Hdir. cbn [negb].
  destruct (glob w data_dir p) as [|f fs]; [discriminate|].
  destruct (read_files_passed w ip ic (sorted (f :: fs)) Hfp) as (Hs & He & Hw).
  rewrite examples_of_then_run, warnings_of_then_run.
  unfold then_run. rewrite Hs. cbn [snd]. rewrite !flat_map_app.
  split; [exact IHs|]. split; congruence.
Qed.

(** ** The order of the files *)

Lemma path_le_antisym (a b : path) : path_le a b -> path_le b a -> a = b.
Proof.
  unfold path_le, path_lt. rewrite (path_compare_antisym a b).
  destruct (path_compare a b) eqn:E; cbn; try discriminate; intros _ _.
  apply seq_compare_eq in E; [exact E | apply str_compare_eq].
Qed.

Lemma sorted_unique (l l' : list path) :
  Permutation l l' -> StronglySorted path_le l -> StronglySorted path_le l' -> l = l'.
Proof.
  revert l'. induction l as [|a l IH]; intros l' Hperm Hl Hl'.
  - apply Permutation_nil in Hperm. now subst.
  - destruct l' as [|b l'].
    { apply Permutation_sym, Permutation_nil in Hperm. discriminate. }
    inversion Hl as [|? ? Hls Hla]; subst. inversion Hl' as [|? ? Hls' Hlb]; subst.
    assert (Hab : a = b).
    { assert (Ha : In a (b :: l')) by (apply (Permutation_in a Hperm); now left).
      assert (Hb : In b (a :: l))
        by (apply (Permutation_in b (Permutation_sym Hperm)); now left).
      destruct Ha as [Ha|Ha]; [now subst|]. destruct Hb as [Hb|Hb]; [now subst|].
      rewrite Forall_forall in Hla, Hlb.
      apply path_le_antisym; auto. }
    subst b. f_equal. apply IH; auto. now apply Permutation_cons_inv in Hperm.
Qed.

Lemma sorted_of_permutation (l l' : list path) :
  Permutation l l' -> sorted l = sorted l'.
Proof.
  intros Hperm. apply sorted_unique; try apply sorted_strongly.
  eapply perm_trans; [apply Permutation_sym, sorted_perm|].
  eapply perm_trans; [exact Hperm | apply sorted_perm].
Qed.

(** X13.  The result of [load_session_files] does not depend on the
    order in which the operating system lists the directory: two listings
    of the same paths, in any order, give the same list of files. *)
Theorem the_file_order_does_not_depend_on_the_listing (w w' : World)
    (data_dir pattern : pystr)
  (Hdir : dir_exists w data_dir = dir_exists w' data_dir)
  (Hglob : Permutation (glob w data_dir pattern) (glob w' data_dir pattern)) :
  load_session_files w data_dir pattern = load_session_files w' data_dir pattern.
Proof.
  unfold load_session_files. rewrite Hdir.
  destruct (dir_exists w' data_dir); [|reflexivity]. cbn [negb].
  pose proof (sorted_of_permutation _ _ Hglob) as Hsorted.
  destruct (glob w data_dir pattern) as [|f fs], (glob w' data_dir pattern) as [|f' fs'];
    try reflexivity.
  - apply Permutation_nil in Hglob. discriminate.
  - apply Permutation_sym, Permutation_nil in Hglob. discriminate.
  - now rewrite Hsorted.
Qed.

(** ** Previews and statistics *)



Lemma slice_to_from {A} (k : Z) (l : list A) : slice_to k l ++ slice_from k l = l.
Proof. apply firstn_skipn. Qed.

Lemma forallb_firstn {A} (p : A -> bool) (n : nat) (l : list A) :
  forallb p l = true -> forallb p (firstn n l) = true.
Proof.
  revert n; induction l as [|a l IH]; intros [|n]; cbn; auto.
  intros H. apply andb_prop in H; destruct H as [-> H]. cbn. auto.
Qed.

Lemma preview_example_text (i : Z) (ex : TrainingExample) :
  is_str (output ex) = true ->
  snd (preview_example i ex) = None /\ length (fst (preview_example i ex)) = 10%nat.
Proof.
  unfold preview_example. destruct (output ex); try discriminate. intros _.
  now split.
Qed.

Lemma preview_loop_texts (examples : list TrainingExample) (i : Z) :
  forallb (fun ex => is_str (output ex)) examples = true ->
  snd (preview_loop i examples) = None
  /\ length (fst (preview_loop i examples)) = (10 * length examples)%nat.
Proof.
  revert i; induction examples as [|ex examples IH]; intros i H; [now split|].
  cbn [forallb] in H. apply andb_prop in H; destruct H as [Hex Hrest].
  destruct (IH (i + 1)%Z Hrest) as [IHs IHl].
  destruct (preview_example_text i ex Hex) as [Hs Hl].
  cbn [preview_loop]. unfold and_then. rewrite Hs. cbn [fst snd].
  split; [exact IHs|]. rewrite length_app, Hl, IHl. cbn [length]. lia.
Qed.

Lemma preview_examples_texts (examples : list TrainingExample) (num_examples : Z) :
  forallb (fun ex => is_str (output ex)) examples = true ->
  snd (preview_examples examples num_examples) = None
  /\ length (fst (preview_examples examples num_examples))
     = (4 + 10 * length (slice_to num_examples examples))%nat.
Proof.
  intros Hstr.
  destruct (preview_loop_texts (slice_to num_examples examples) 1) as [Hs Hl].
  { unfold slice_to. now apply forallb_firstn. }
  unfold preview_examples, and_then. cbn [fst snd]. rewrite Hs. cbn [fst snd].
  split; [reflexivity|].
  cbn [length]. rewrite !length_app, Hl. cbn [length]. lia.
Qed.


Lemma py_len_raises (v : value) (e : exn) : py_len v = Raise e -> e = TypeError.
Proof. destruct v; cbn; congruence. Qed.

Lemma is_sized_false (v : value) :
  is_sized v = false -> py_len v = Raise TypeError /\ is_list v = false.
Proof.
  unfold is_sized. destruct (py_len v) eqn:E; [discriminate|]. intros _.
  rewrite (py_len_raises v e E). split; [reflexivity|].
  destruct v; try reflexivity; discriminate.
Qed.

Lemma for_each_len_raises (examples : list TrainingExample) (ex : TrainingExample) :
  In ex examples -> is_sized (output ex) = false ->
  for_each (fun ex => py_len (output ex)) examples = Raise TypeError.
Proof.
  intros Hin Hex. induction examples as [|a examples IH]; [contradiction|].
  cbn [for_each]. destruct (py_len (output a)) as [n|e] eqn:Ea.
  - cbn [bind]. destruct Hin as [->|Hin].
    + apply is_sized_false in Hex. destruct Hex as [Hex _]. congruence.
    + now rewrite (IH Hin).
  - cbn [bind]. now rewrite (py_len_raises _ _ Ea).
Qed.

Lemma for_each_len_ok (examples : list TrainingExample) :
  forallb (fun ex => is_sized (output ex)) examples = true ->
  exists lengths, for_each (fun ex => py_len (output ex)) examples = Ok lengths.
Proof.
  intros H. apply for_each_total. intros ex Hex.
  rewrite forallb_forall in H. specialize (H ex Hex). unfold is_sized in H.
  destruct (py_len (output ex)) as [n|]; [now exists n | discriminate].
Qed.

Lemma show_statistics_end (examples : list TrainingExample) :
  snd (show_statistics examples)
  = match for_each (fun ex => py_len (output ex)) examples with
    | Raise e => Some (Raised e)
    | Ok _ => match examples with [] => Some ZeroDivisionError | _ :: _ => None end
    end.
Proof.
  unfold show_statistics.
  destruct (for_each (fun ex => py_len (output ex)) examples); [|reflexivity].
  destruct examples; [reflexivity|].
  replace (Z.of_nat (length (t :: examples)) =? 0)%Z with false
    by (symmetry; apply Z.eqb_neq; cbn [length]; lia).
  reflexivity.
Qed.

(** X15.  [show_statistics] raises [ZeroDivisionError] exactly on the
    empty list: the averages are guarded, the percentages divide by the
    number of examples.  It runs to its end exactly on a list that is not
    empty and whose outputs all have a length. *)
Theorem show_statistics_fails_on_no_example (examples : list TrainingExample) :
  (snd (show_statistics examples) = Some ZeroDivisionError <-> examples = [])
  /\ (snd (show_statistics examples) = None
      <-> examples <> []
          /\ forallb (fun ex => is_sized (output ex)) examples = true).
Proof.
  rewrite show_statistics_end. split.
  - destruct (for_each (fun ex => py_len (output ex)) examples) eqn:E.
    + destruct examples; split; congruence.
    + split; [discriminate|]. intros ->. discriminate.
  - split.
    + destruct (for_each (fun ex => py_len (output ex)) examples) eqn:E; [|discriminate].
      destruct examples as [|ex examples]; [discriminate|]. intros _.
      split; [discriminate|].
      apply forallb_forall. intros x Hx.
      destruct (is_sized (output x)) eqn:Ex; [reflexivity|].
      rewrite (for_each_len_raises _ x Hx Ex) in E. discriminate.
    + intros [Hne Hall]. destruct (for_each_len_ok examples Hall) as (lengths & ->).
      destruct examples; congruence.
Qed.

(** X16.  A turn whose response content has no length (null, a number,
    a boolean) gives an example whose output is that content; previewing
    that example raises [TypeError] after the ten lines up to its input
    text, and the statistics of any list that holds it raise [TypeError]
    after the heading. *)
Theorem an_unsized_output_ends_the_reports (w : World) (t : value) (ip ic : bool)
    (ex : TrainingExample) (before rest : list TrainingExample) (num_examples : Z)
  (Hex : process_session_turn w t ip ic = Ok ex)
  (Hcontent : is_sized (content_of t) = false)
  (Hnum : (1 <= num_examples)%Z) :
  output ex = content_of t
  /\ snd (preview_examples (ex :: rest) num_examples) = Some (Raised TypeError)
  /\ length (fst (preview_examples (ex :: rest) num_examples)) = 10%nat
  /\ snd (show_statistics (before ++ ex :: rest)) = Some (Raised TypeError).
Proof.
  destruct (is_sized_false _ Hcontent) as [Hlen Hlist].
  apply process_session_turn_inv in Hex.
  destruct Hex as (esys & tools & msgs & parts & n & _ & _ & _ & _ & _ & _ & _ & ->).
  assert (Hout : output (example_of esys tools (content_of t) parts n) = content_of t)
    by (cbn [example_of output]; now rewrite Hlist).
  split; [exact Hout|].
  set (e := example_of esys tools (content_of t) parts n) in *.
  assert (Hone : preview_example 1 e
                 = (fst (preview_example 1 e), Some (Raised TypeError))
                   /\ length (fst (preview_example 1 e)) = 7%nat).
  { unfold preview_example, preview_output. rewrite Hout, Hlen. now split. }
  destruct Hone as [Hone Hseven].
  assert (Hslice : exists shown, slice_to num_examples (e :: rest) = e :: shown).
  { unfold slice_to, slice_bound. cbn [length].
    destruct (num_examples <? 0)%Z eqn:E; [apply Z.ltb_lt in E; lia|].
    destruct (Nat.min (Z.to_nat num_examples) (S (length rest))) eqn:Em; [lia|].
    eexists. reflexivity. }
  destruct Hslice as (shown & Hslice).
  split; [|split].
  - unfold preview_examples, and_then. cbn [fst snd]. rewrite Hslice.
    cbn [preview_loop]. unfold and_then. rewrite Hone. reflexivity.
  - unfold preview_examples, and_then. cbn [fst snd]. rewrite Hslice.
    cbn [preview_loop]. unfold and_then. rewrite Hone. cbn [fst snd].
    rewrite (length_app _ (fst (preview_example 1 e))), Hseven. reflexivity.
  - rewrite show_statistics_end.
    rewrite (for_each_len_raises (before ++ e :: rest) e); [reflexivity | | ].
    + apply in_or_app. right. now left.
    + unfold is_sized. now rewrite Hout, Hlen.
Qed.

Lemma examples_of_in (r : run) (ex : TrainingExample) :
  In ex (examples_of r) -> In (Yielded ex) (fst r).
Proof.
  unfold examples_of. rewrite in_flat_map. intros (ev & Hev & Hin).
  destruct ev; [|contradiction]. destruct Hin as [->|[]]. exact Hev.
Qed.

Lemma loaded_example_is_processed (w : World) (data_dir : pystr) (ps : list pystr)
    (ip ic : bool) (ex : TrainingExample) :
  In ex (examples_of (load_training_data w data_dir ps ip ic)) ->
  exists t, process_session_turn w t ip ic = Ok ex.
Proof.
  intros Hin. apply examples_of_in, load_training_data_events in Hin.
  destruct Hin as (p & file & lines & n & line & _ & _ & _ & _ & _ & Hrec).
  unfold record_result in Hrec. destruct (loads line) as [t|]; [|discriminate].
  now exists t.
Qed.

Lemma counts_add_up (examples : list TrainingExample) :
  (forall ex, In ex examples ->
     response_type (metadata ex) = txt "text"
     \/ response_type (metadata ex) = txt "tool_calls") ->
  (text_responses examples + tool_responses examples = Z.of_nat (length examples))%Z.
Proof.
  unfold text_responses, tool_responses, count.
  induction examples as [|ex examples IH]; intros H; [reflexivity|].
  specialize (IH (fun x Hx => H x (or_intror Hx))).
  cbn [filter length].
  destruct (H ex (or_introl eq_refl)) as [-> | ->].
  - change (pystr_eqb (txt "text") (txt "text")) with true.
    change (pystr_eqb (txt "text") (txt "tool_calls")) with false.
    cbn [length]. lia.
  - change (pystr_eqb (txt "tool_calls") (txt "text")) with false.
    change (pystr_eqb (txt "tool_calls") (txt "tool_calls")) with true.
    cbn [length]. lia.
Qed.

(** X17.  Over the examples of any load, the text responses and the tool
    call responses that [show_statistics] counts add up to the number of
    examples, and the count of examples with tools lies between zero and
    that number. *)
Theorem response_counts_add_up (w : World) (data_dir : pystr) (file_patterns : list pystr)
    (ip ic : bool) :
  let examples := examples_of (load_training_data w data_dir file_patterns ip ic) in
  (text_responses examples + tool_responses examples = Z.of_nat (length examples))%Z
  /\ (0 <= has_tools_count examples <= Z.of_nat (length examples))%Z.
Proof.
  cbv zeta. split.
  - apply counts_add_up. intros ex Hex.
    destruct (loaded_example_is_processed _ _ _ _ _ _ Hex) as (t & Ht).
    apply process_session_turn_inv in Ht.
    destruct Ht as (esys & tools & msgs & parts & n & _ & _ & _ & _ & _ & _ & _ & ->).
    cbn [example_of metadata response_type].
    destruct (is_list (content_of t)); auto.
  - unfold has_tools_count, count.
    pose proof (filter_length_le (fun ex => has_tools (metadata ex))
                  (examples_of (load_training_data w data_dir file_patterns ip ic))).
    lia.
Qed.

Lemma and_then_ok {A E} (la : list A) (b : list A * option E) :
  and_then (la, None) b = (la ++ fst b, snd b).
Proof. reflexivity. Qed.

Lemma and_then_failed {A E} (a b : list A * option E) (e : E) :
  snd a = Some e -> and_then a b = a.
Proof. unfold and_then. now intros ->. Qed.

(** X18.  When the load runs to its end without an example (every line
    blank or skipped with a warning), [main] with the statistics option
    prints its heading, the warnings, the count of zero and the first lines
    of the statistics, and ends with [ZeroDivisionError] before any preview;
    without the option it runs to its end. *)
Theorem statistics_of_an_empty_load_end_main (w : World) (args : Args)
    (config : DataConfig)
  (Hrun : snd (main_load w args config) = None)
  (Hnone : examples_of (main_load w args config) = []) :
  (arg_stats args = true ->
   main w args config
   = (main_heading (main_data_dir args config) (arg_pattern args)
                   (main_inject_preamble args config) (main_inject_catalog args config)
      ++ warnings_printed (main_load w args config)
      ++ [loaded_line []]
      ++ map Text (fst (show_statistics [])),
      Some ZeroDivisionError))
  /\ (arg_stats args = false -> snd (main w args config) = None).
Proof.
  unfold main_load in *. unfold main. cbv zeta.
  rewrite Hnone, Hrun. cbn [option_map]. rewrite !and_then_ok. cbn [fst snd].
  split; intros ->.
  - rewrite (and_then_failed (texts (show_statistics [])) _ ZeroDivisionError)
      by reflexivity.
    reflexivity.
  - rewrite and_then_ok. cbn [fst snd texts].
    apply (preview_examples_texts [] (arg_num_examples args)). reflexivity.
Qed.

(** ** Datasets *)

Lemma prepare_datasets_split (w : World) (config : DataConfig) (train eval : Dataset)
    (warnings : list printed) :
  eval_files config = [] ->
  prepare_datasets w config = (warnings, Returned (train, eval)) ->
  exists split_idx,
    split_index (Z.of_nat (length (examples_of (training_load w config))))
    = Returned split_idx
    /\ train = dataset_of (slice_to split_idx (examples_of (training_load w config)))
    /\ eval = dataset_of (slice_from split_idx (examples_of (training_load w config))).
Proof.
  unfold prepare_datasets, training_load. cbv zeta. intros -> H.
  destruct (snd (load_training_data _ _ _ _ _)); [discriminate|].
  destruct (split_index _) as [split_idx|]; [|discriminate].
  exists split_idx. injection H as _ <- <-. now repeat split.
Qed.

(** X19.  With no evaluation files configured, the two datasets
    [prepare_datasets] returns hold every loaded example once: the rows of
    the training set followed by those of the evaluation set are the
    examples in the order they were loaded, and in each dataset the two
    columns have the same length. *)
Theorem the_split_keeps_every_example (w : World) (config : DataConfig)
    (train eval : Dataset) (warnings : list printed)
  (Heval : eval_files config = [])
  (Hret : prepare_datasets w config = (warnings, Returned (train, eval))) :
  let examples := examples_of (training_load w config) in
  input_column train ++ input_column eval = map input examples
  /\ output_column train ++ output_column eval = map output examples
  /\ length (input_column train) = length (output_column train)
  /\ length (input_column eval) = length (output_column eval).
Proof.
  cbv zeta.
  destruct (prepare_datasets_split w config train eval warnings Heval Hret)
    as (split_idx & _ & -> & ->).
  cbn [dataset_of input_column output_column].
  rewrite <- !map_app, slice_to_from, !length_map. now repeat split.
Qed.

Lemma all_from_spec (f : Z -> bool) (count : nat) (z : Z) :
  all_from f count z = true ->
  forall i, (z <= i < z + Z.of_nat count)%Z -> f i = true.
Proof.
  revert z; induction count as [|c IH]; intros z H i Hi; [lia|].
  cbn [all_from] in H. apply andb_prop in H. destruct H as [Hz Hr].
  destruct (Z.eq_dec i z) as [->|Hne]; [exact Hz|].
  apply (IH (z + 1)%Z Hr). lia.
Qed.

(** The split index of every length up to ten thousand, by evaluation of
    the binary64 product. *)
Lemma split_index_checked : all_from splits_at_nine_tenths (Z.to_nat 10001) 0 = true.
Proof. vm_compute. reflexivity. Qed.

Lemma split_index_small (len : Z) :
  (0 <= len <= 10000)%Z -> split_index len = Returned (9 * len / 10)%Z.
Proof.
  intros Hlen.
  pose proof (all_from_spec _ _ _ split_index_checked len) as H.
  unfold splits_at_nine_tenths in H.
  destruct (split_index len) as [k|]; [|discriminate H; lia].
  f_equal. apply Z.eqb_eq. apply H. lia.
Qed.

(** X20.  With no evaluation files configured and at most ten thousand
    examples, the floating point product [len * 0.9] truncates to nine
    tenths of the number of examples rounded down: the training set is the
    first [9 * n / 10] examples and the evaluation set the others.  So the
    evaluation set is empty only when there is no example, and a single
    example leaves the training set empty. *)
Theorem the_evaluation_set_is_the_last_tenth (w : World) (config : DataConfig)
    (train eval : Dataset) (warnings : list printed)
  (Heval : eval_files config = [])
  (Hret : prepare_datasets w config = (warnings, Returned (train, eval)))
  (Hsmall : (Z.of_nat (length (examples_of (training_load w config))) <= 10000)%Z) :
  let examples := examples_of (training_load w config) in
  let k := (9 * length examples / 10)%nat in
  split_index (Z.of_nat (length examples)) = Returned (Z.of_nat k)
  /\ train = dataset_of (firstn k examples)
  /\ eval = dataset_of (skipn k examples)
  /\ length (input_column train) = k
  /\ length (input_column eval) = (length examples - k)%nat
  /\ (examples <> [] -> input_column eval <> [])
  /\ (length examples = 1%nat -> input_column train = []).
Proof.
  cbv zeta.
  destruct (prepare_datasets_split w config train eval warnings Heval Hret)
    as (split_idx & Hidx & -> & ->).
  set (examples := examples_of (training_load w config)) in *.
  assert (Hk : Z.of_nat (9 * length examples / 10) = (9 * Z.of_nat (length examples) / 10)%Z)
    by (rewrite Nat2Z.inj_div, Nat2Z.inj_mul; reflexivity).
  rewrite split_index_small in Hidx by lia.
  assert (Hs : split_idx = (9 * Z.of_nat (length examples) / 10)%Z) by congruence.
  subst split_idx. clear Hidx.
  assert (Hle : (9 * length examples / 10 <= length examples)%nat).
  { apply Nat.Div0.div_le_upper_bound. lia. }
  assert (Hb : slice_bound (length examples) (9 * Z.of_nat (length examples) / 10)
               = (9 * length examples / 10)%nat).
  { unfold slice_bound. rewrite <- Hk.
    destruct (Z.of_nat (9 * length examples / 10) <? 0)%Z eqn:E;
      [apply Z.ltb_lt in E; lia|].
    rewrite Nat2Z.id. now apply Nat.min_l. }
  rewrite split_index_small by lia.
  unfold slice_to, slice_from. rewrite Hb, Hk.
  cbn [dataset_of input_column]. rewrite !length_map, firstn_length_le, length_skipn by exact Hle.
  split; [reflexivity|]. split; [reflexivity|]. split; [reflexivity|].
  split; [reflexivity|]. split; [reflexivity|]. split.
  - intros Hne Hnil. apply (f_equal (@length pystr)) in Hnil.
    rewrite length_map, length_skipn in Hnil. cbn [length] in Hnil.
    assert (Hlt : (9 * length examples / 10 < length examples)%nat).
    { apply Nat.Div0.div_lt_upper_bound. destruct examples; [congruence|].
      cbn [length]. lia. }
    lia.
  - intros Hone. rewrite Hone. reflexivity.
Qed.

(** ** The indented form is read back *)

Lemma skip_ws_spaces (k : nat) (c : N) (r : pystr) :
  is_ws c = false -> skip_ws (repeat 32 k ++ c :: r) = c :: r.
Proof.
  intros H. induction k as [|k IH]; cbn [repeat List.app skip_ws].
  - now rewrite H.
  - change (is_ws 32) with true. cbv iota. exact IH.
Qed.

Lemma skip_ws_indent (n level : nat) (c : N) (r : pystr) :
  is_ws c = false -> skip_ws (newline_indent n level ++ c :: r) = c :: r.
Proof.
  intros H. unfold newline_indent, nl. rewrite <- app_assoc.
  change ([10] ++ ?x) with (10 :: x). cbn [skip_ws].
  change (is_ws 10) with true. cbv iota. now apply skip_ws_spaces.
Qed.

Lemma delimited_line_ends_number (rest : pystr) :
  delimited_line rest = true -> ends_number rest = true.
Proof.
  destruct rest as [|c r]; [reflexivity|]. unfold delimited_line, ends_number.
  intros H. apply orb_true_iff in H. destruct H as [H|H]; apply N.eqb_eq in H; now subst.
Qed.

Lemma iterencode_head (n level : nat) (v : value) :
  json_ok v = true ->
  exists c r, iterencode (Some n) level v = c :: r /\ value_start c = true.
Proof.
  destruct v as [| [|] | z | f | s | [|x l] | [|[k x] d]]; intros Hok;
    try (eexists; eexists; split; reflexivity); try discriminate.
  destruct (int_repr_head z) as (c & r & Hc & Hd).
  exists c, r. split; [exact Hc|]. unfold value_start.
  apply orb_true_iff in Hd; destruct Hd as [Hd|Hd]; rewrite Hd;
    repeat (rewrite ?orb_true_r, ?orb_true_l); reflexivity.
Qed.

Lemma join_indented_head (n level : nat) (sep : pystr) (l : list value) (tail : pystr) :
  l <> [] -> forallb json_ok l = true ->
  exists c r,
    join sep (map (iterencode (Some n) level) l) ++ tail = c :: r
    /\ value_start c = true.
Proof.
  destruct l as [|v l]; [congruence|]. intros _ Hok.
  cbn [forallb] in Hok. apply andb_prop in Hok; destruct Hok as [Hv _].
  destruct (iterencode_head n level v Hv) as (c & r & Hc & Hs).
  destruct l as [|v2 l].
  - cbn [map join]. rewrite Hc. now exists c, (r ++ tail).
  - change (map (iterencode (Some n) level) (v :: v2 :: l))
      with (iterencode (Some n) level v :: map (iterencode (Some n) level) (v2 :: l)).
    rewrite join_cons by discriminate. rewrite Hc, <- !app_assoc.
    eexists; eexists; split; [reflexivity | assumption].
Qed.

Lemma array_loop_indented (n level : nat) (l : list value) :
  l <> [] -> Forall (scans_back_indented n) l -> forallb json_ok l = true ->
  forall (fuel : nat) (rest : pystr),
    (2 * length (join (item_sep n level) (map (iterencode (Some n) (S level)) l)
                 ++ newline_indent n level ++ (93 :: rest)%N) + 1 <= fuel)%nat ->
    array_loop fuel (join (item_sep n level) (map (iterencode (Some n) (S level)) l)
                     ++ newline_indent n level ++ 93 :: rest)
    = Scanned l rest.
Proof.
  induction l as [|v l IH]; [congruence|]. intros _ HP Hok fuel rest Hfuel.
  inversion HP as [|? ? Hv Hl]; subst.
  cbn [forallb] in Hok. apply andb_prop in Hok; destruct Hok as [Hokv Hokl].
  destruct fuel as [|fuel]; [lia|]. cbn [array_loop].
  destruct l as [|v2 l].
  - cbn [map join] in *.
    rewrite (Hv Hokv (S level) fuel (newline_indent n level ++ 93 :: rest));
      [| reflexivity | lia].
    rewrite skip_ws_indent by reflexivity. reflexivity.
  - change (map (iterencode (Some n) (S level)) (v :: v2 :: l))
      with (iterencode (Some n) (S level) v
            :: map (iterencode (Some n) (S level)) (v2 :: l)) in *.
    rewrite join_cons in * by discriminate.
    rewrite <- !app_assoc in *.
    set (more := join (item_sep n level) (map (iterencode (Some n) (S level)) (v2 :: l))
                 ++ newline_indent n level ++ 93 :: rest) in *.
    change (item_sep n level ++ more) with (44 :: newline_indent n (S level) ++ more) in *.
    rewrite length_app in Hfuel. cbn [length] in Hfuel. rewrite length_app in Hfuel.
    rewrite (Hv Hokv (S level) fuel (44 :: newline_indent n (S level) ++ more));
      [| reflexivity | rewrite length_app; cbn [length]; rewrite length_app; lia].
    rewrite skip_ws_head by reflexivity.
    change (44 =? 93) with false. change (44 =? 44) with true. cbv iota.
    destruct (join_indented_head n (S level) (item_sep n level) (v2 :: l)
                (newline_indent n level ++ 93 :: rest)) as (c & r & Hc & Hs);
      [discriminate | assumption |].
    fold more in Hc.
    destruct (value_start_facts c Hs) as (Hws & _).
    rewrite Hc, (skip_ws_indent n (S level) c r Hws), <- Hc. unfold more.
    rewrite IH; [reflexivity | discriminate | assumption | assumption |].
    fold more. lia.
Qed.

Lemma indent_item_text (n level : nat) (k : pystr) (v : value) (tail : pystr) :
  indent_item n level (k, v) ++ tail
  = 34 :: encode_body k ++ 34 :: 58 :: 32 :: iterencode (Some n) level v ++ tail.
Proof.
  unfold indent_item, encode_basestring_ascii. cbn [fst snd].
  rewrite <- !app_assoc. reflexivity.
Qed.

Lemma join_indent_items_head (n level : nat) (sep : pystr) (d : list (pystr * value))
    (tail : pystr) :
  d <> [] ->
  join sep (map (indent_item n level) d) ++ tail
  = 34 :: tl (join sep (map (indent_item n level) d) ++ tail).
Proof.
  destruct d as [|[k v] d]; [congruence|]. intros _.
  destruct d as [|kv2 d].
  - cbn [map join]. now rewrite indent_item_text.
  - change (map (indent_item n level) ((k, v) :: kv2 :: d))
      with (indent_item n level (k, v) :: map (indent_item n level) (kv2 :: d)).
    rewrite join_cons by discriminate. rewrite <- !app_assoc.
    now rewrite indent_item_text.
Qed.

Lemma skip_ws_iterencode (n level : nat) (v : value) (rest : pystr) :
  json_ok v = true ->
  skip_ws (iterencode (Some n) level v ++ rest) = iterencode (Some n) level v ++ rest.
Proof.
  intros Hok. destruct (iterencode_head n level v Hok) as (c & r & Hc & Hs).
  rewrite Hc. apply skip_ws_head. now apply value_start_facts.
Qed.

Lemma object_loop_indented (n level : nat) (d : list (pystr * value)) :
  d <> [] -> Forall (fun kv => scans_back_indented n (snd kv)) d ->
  forallb (fun kv => str_ok (fst kv) && json_ok (snd kv)) d = true ->
  forall (fuel : nat) (rest : pystr),
    (2 * length (join (item_sep n level) (map (indent_item n (S level)) d)
                 ++ newline_indent n level ++ (125 :: rest)%N) + 1 <= fuel)%nat ->
    object_loop fuel (tl (join (item_sep n level) (map (indent_item n (S level)) d)
                          ++ newline_indent n level ++ 125 :: rest))
    = Scanned d rest.
Proof.
  induction d as [|[k v] d IH]; [congruence|]. intros _ HP Hok fuel rest Hfuel.
  inversion HP as [|? ? Hv Hd]; subst. cbn [snd] in Hv.
  cbn [forallb fst snd] in Hok. apply andb_prop in Hok; destruct Hok as [Hokv Hokd].
  apply andb_prop in Hokv; destruct Hokv as [Hk Hokv].
  destruct fuel as [|fuel]; [lia|]. cbn [object_loop].
  destruct d as [|[k2 v2] d].
  - cbn [map join] in *. rewrite indent_item_text in *. cbn [tl].
    cbn [length] in Hfuel. rewrite length_app in Hfuel. cbn [length] in Hfuel.
    rewrite scanstring_encode_body by assumption.
    rewrite skip_ws_head by reflexivity. change (58 =? 58) with true. cbv iota.
    change (skip_ws (32 :: ?t)) with (skip_ws t).
    rewrite skip_ws_iterencode by assumption.
    rewrite (Hv Hokv (S level) fuel (newline_indent n level ++ 125 :: rest));
      [| reflexivity | lia].
    rewrite skip_ws_indent by reflexivity. reflexivity.
  - change (map (indent_item n (S level)) ((k, v) :: (k2, v2) :: d))
      with (indent_item n (S level) (k, v)
            :: map (indent_item n (S level)) ((k2, v2) :: d)) in *.
    rewrite join_cons in * by discriminate.
    rewrite <- !app_assoc in *. rewrite indent_item_text in *. cbn [tl].
    set (more := join (item_sep n level) (map (indent_item n (S level)) ((k2, v2) :: d))
                 ++ newline_indent n level ++ 125 :: rest) in *.
    change (item_sep n level ++ more) with (44 :: newline_indent n (S level) ++ more) in *.
    cbn [length] in Hfuel. rewrite length_app in Hfuel. cbn [length] in Hfuel.
    rewrite length_app in Hfuel. cbn [length] in Hfuel. rewrite length_app in Hfuel.
    rewrite scanstring_encode_body by assumption.
    rewrite skip_ws_head by reflexivity. change (58 =? 58) with true. cbv iota.
    change (skip_ws (32 :: ?t)) with (skip_ws t).
    rewrite skip_ws_iterencode by assumption.
    rewrite (Hv Hokv (S level) fuel (44 :: newline_indent n (S level) ++ more));
      [| reflexivity | rewrite length_app; cbn [length]; rewrite length_app; lia].
    rewrite skip_ws_head by reflexivity.
    change (44 =? 125) with false. change (44 =? 44) with true. cbv iota.
    assert (Hmore : more = 34 :: tl more)
      by (unfold more; now apply join_indent_items_head).
    rewrite Hmore at 1. rewrite skip_ws_indent by reflexivity.
    change (34 =? 34) with true. cbv iota. unfold more.
    rewrite IH; [reflexivity | discriminate | assumption | assumption |].
    fold more. lia.
Qed.

(** At any level, before a comma or a line break, the scanner reads every
    value back from its indented form. *)
Lemma scan_once_indented (n : nat) (v : value) : scans_back_indented n v.
Proof.
  induction v as [| b | z | f | s | l IHl | d IHd] using value_ind;
    intros Hok level fuel rest Hrest Hfuel.
  - destruct fuel as [|fuel]; [cbn in Hfuel; lia | reflexivity].
  - destruct fuel as [|fuel]; [destruct b; cbn in Hfuel; lia | destruct b; reflexivity].
  - destruct (int_repr_head z) as (c & r & Hc & Hd).
    change (iterencode (Some n) level (JInt z)) with (int_repr z) in *.
    destruct fuel as [|fuel]; [rewrite Hc in Hfuel; cbn in Hfuel; lia|].
    pose proof (match_number_int_repr z rest (delimited_line_ends_number rest Hrest)) as Hm.
    rewrite Hc in *. rewrite <- app_comm_cons in *.
    rewrite (scan_once_number fuel c (r ++ rest) (c :: r) rest Hd Hm).
    rewrite <- Hc. now rewrite int_of_text_repr.
  - discriminate.
  - cbn [json_ok] in Hok.
    change (iterencode (Some n) level (JStr s) ++ rest)
      with (34 :: (encode_body s ++ [34]) ++ rest) in *.
    rewrite <- app_assoc in *.
    destruct fuel as [|fuel]; [cbn in Hfuel; lia|].
    cbn [scan_once]. change (34 =? 34) with true. cbv iota.
    change ([34] ++ rest) with (34 :: rest).
    now rewrite scanstring_encode_body.
  - destruct l as [|v l].
    + destruct fuel as [|fuel]; [cbn in Hfuel; lia | reflexivity].
    + cbn [json_ok] in Hok.
      change (iterencode (Some n) level (JList (v :: l)) ++ rest)
        with (91 :: (newline_indent n (S level)
                     ++ join (item_sep n level)
                             (map (iterencode (Some n) (S level)) (v :: l))
                     ++ newline_indent n level ++ [93]) ++ rest) in *.
      rewrite <- !app_assoc in *. change ([93] ++ rest) with (93 :: rest) in *.
      destruct fuel as [|fuel]; [cbn in Hfuel; lia|].
      cbn [length] in Hfuel. rewrite length_app in Hfuel.
      cbn [scan_once]. change (91 =? 34) with false. change (91 =? 123) with false.
      change (91 =? 91) with true. cbv iota.
      destruct (join_indented_head n (S level) (item_sep n level) (v :: l)
                  (newline_indent n level ++ 93 :: rest)) as (c & r & Hc & Hs);
        [discriminate | assumption |].
      destruct (value_start_facts c Hs) as (Hws & H93 & _).
      rewrite Hc, (skip_ws_indent n (S level) c r Hws), H93, <- Hc.
      rewrite array_loop_indented;
        [reflexivity | discriminate | assumption | assumption | lia].
  - destruct d as [|kv d].
    + destruct fuel as [|fuel]; [cbn in Hfuel; lia | reflexivity].
    + cbn [json_ok] in Hok. apply andb_prop in Hok; destruct Hok as [Hitems Hkeys].
      change (iterencode (Some n) level (JDict (kv :: d)) ++ rest)
        with (123 :: (newline_indent n (S level)
                      ++ join (item_sep n level) (map (indent_item n (S level)) (kv :: d))
                      ++ newline_indent n level ++ [125]) ++ rest) in *.
      rewrite <- !app_assoc in *. change ([125] ++ rest) with (125 :: rest) in *.
      destruct fuel as [|fuel]; [cbn in Hfuel; lia|].
      cbn [length] in Hfuel. rewrite length_app in Hfuel.
      cbn [scan_once]. change (123 =? 34) with false. change (123 =? 123) with true.
      cbv iota.
      rewrite (join_indent_items_head n (S level) (item_sep n level) (kv :: d)
                 (newline_indent n level ++ 125 :: rest)) by discriminate.
      rewrite skip_ws_indent by reflexivity.
      change (34 =? 125) with false. change (34 =? 34) with true. cbv iota.
      rewrite object_loop_indented; [| discriminate | assumption | assumption | lia].
      now rewrite dict_of_pairs_distinct.
Qed.

(** [json.loads(json.dumps(v, indent=n)) = v] for every document [v]
    without floats, with strings [str_ok] and keys pairwise different. *)
Lemma loads_dumps_indent (n : nat) (v : value) :
  json_ok v = true -> loads (dumps_indent n v) = Ok v.
Proof.
  intros Hok. unfold loads, dumps_indent.
  destruct (iterencode_head n 0 v Hok) as (c & r & Hc & Hs).
  destruct (value_start_facts c Hs) as (Hws & _ & _ & Hbom).
  replace (startswith [65279] (iterencode (Some n) 0 v)) with false
    by (rewrite Hc; cbn [startswith]; now rewrite N.eqb_sym, Hbom).
  rewrite <- (app_nil_r (iterencode (Some n) 0 v)) at 2.
  rewrite skip_ws_iterencode by assumption.
  rewrite (scan_once_indented n v Hok); [reflexivity | reflexivity |].
  unfold loads_fuel. rewrite app_nil_r. lia.
Qed.

(** ** The tools block and the output of tool calls *)

(** X21.  When the effective tools are truthy and a document without
    floats as [json.loads] builds them ([json_ok]), the input of the
    returned example holds the tools block, and the text between its tag
    line and its end line, the tools serialized with an indent of two,
    is a document that [json.loads] reads back to the same tools value. *)
Theorem the_tools_block_parses_back (w : World) (t : value) (ip ic : bool)
    (ex : TrainingExample) (tools : value)
  (Hex : process_session_turn w t ip ic = Ok ex)
  (Htools : effective_tools w (request_of t) ic = Ok tools)
  (Htruthy : py_truthy tools = true)
  (Hdoc : json_ok tools = true) :
  exists before after,
    input ex
    = before ++ txt "<|tools|>" ++ nl ++ dumps_indent 2 tools ++ nl ++ txt "<|end|>" ++ after
    /\ loads (dumps_indent 2 tools) = Ok tools.
Proof.
  apply process_session_turn_inv in Hex.
  destruct Hex as (esys & tools' & msgs & parts & n & _ & _ & _ & Htools' & _ & _ & _ & ->).
  assert (tools' = tools) by congruence. subst tools'.
  exists (system_block esys ++ nl ++ nl),
         (concat (map (fun q => (nl ++ nl) ++ q) parts)).
  split; [|now apply loads_dumps_indent].
  cbn [example_of input]. unfold input_text_of. rewrite Htruthy.
  change (([?a] ++ [?b]) ++ parts) with (a :: b :: parts).
  rewrite join_blocks. cbn [map concat]. unfold tools_block.
  rewrite <- !app_assoc. reflexivity.
Qed.

(** X22.  When the response content is a list that is a document without
    floats, the output of the returned example is a string of visible ASCII
    characters only, code points 32 to 126, whatever characters the tool
    calls hold: [json.dumps] escapes every other character. *)
Theorem tool_call_output_is_ascii (w : World) (t : value) (ip ic : bool)
    (ex : TrainingExample)
  (Hex : process_session_turn w t ip ic = Ok ex)
  (Hlist : is_list (content_of t) = true)
  (Hdoc : json_ok (content_of t) = true) :
  exists text,
    output ex = JStr text
    /\ forallb printable text = true
    /\ forall c, In c text -> 32 <= c <= 126.
Proof.
  apply process_session_turn_inv in Hex.
  destruct Hex as (esys & tools & msgs & parts & n & _ & _ & _ & _ & _ & _ & _ & ->).
  exists (dumps (content_of t)). cbn [example_of output]. rewrite Hlist.
  pose proof (dumps_printable _ Hdoc) as Hp.
  split; [reflexivity|]. split; [exact Hp|].
  intros c Hc. rewrite forallb_forall in Hp. specialize (Hp c Hc).
  unfold printable in Hp. apply andb_prop in Hp. destruct Hp as [H1 H2].
  apply N.leb_le in H1. apply N.leb_le in H2. lia.
Qed.

(** ** [main] after a failed load *)

(** X23.  When the load ends with an exception, [main] ends with it:
    what it has printed is its four heading lines and the warnings of the
    lines read before; the count of examples, the statistics and the
    preview are not printed, although examples may have been yielded. *)
Theorem a_failed_load_ends_main (w : World) (args : Args) (config : DataConfig) (e : exn)
  (Hrun : snd (main_load w args config) = Some e) :
  main w args config
  = (main_heading (main_data_dir args config) (arg_pattern args)
                  (main_inject_preamble args config) (main_inject_catalog args config)
     ++ warnings_printed (main_load w args config),
     Some (Raised e)).
Proof.
  unfold main_load in *. unfold main. cbv zeta.
  rewrite and_then_ok. cbn [fst snd].
  rewrite (and_then_failed _ _ (Raised e)) by (cbn [snd]; now rewrite Hrun).
  cbn [fst snd]. now rewrite Hrun.
Qed.

(** ** Datasets with evaluation files *)

(** X24.  With evaluation files configured, [prepare_datasets] splits
    nothing: the training set holds every example of the training
    patterns, the evaluation set every example of the evaluation patterns,
    loaded on their own.  Nothing keeps the two apart: with the same
    patterns for both, the two datasets are equal. *)
Theorem evaluation_files_leave_the_training_set_whole (w : World) (config : DataConfig)
    (train eval : Dataset) (warnings : list printed)
  (Heval : eval_files config <> [])
  (Hret : prepare_datasets w config = (warnings, Returned (train, eval))) :
  let held_out :=
    load_training_data w (data_dir config) (eval_files config)
      (inject_tool_preamble config) (inject_tool_catalog config) in
  train = dataset_of (examples_of (training_load w config))
  /\ eval = dataset_of (examples_of held_out)
  /\ (eval_files config = train_patterns config -> eval = train).
Proof.
  cbv zeta. unfold prepare_datasets, training_load in *. cbv zeta in Hret.
  destruct (snd (load_training_data w (data_dir config) (train_patterns config) _ _));
    [discriminate|].
  destruct (eval_files config) as [|p ps] eqn:E; [congruence|].
  destruct (snd (load_training_data w (data_dir config) (p :: ps) _ _)); [discriminate|].
  injection Hret as _ <- <-. split; [reflexivity|]. split; [reflexivity|].
  now intros <-.
Qed.

End Further.

(** * Concrete runs

    The theorems above hold for every runtime; the runs below evaluate the
    model on documents without floats, under [literal_runtime]. *)

#[local] Existing Instance literal_runtime.

(** The indented form, on the catalogue. *)
Example dumps_indent_catalogue :
  dumps_indent 2 (parse demo_catalogue)
  = txt "[" ++ nl
    ++ txt "  {" ++ nl
    ++ qtxt "    `name`: `github_find_repositories`," ++ nl
    ++ qtxt "    `description`: `Find repositories`," ++ nl
    ++ qtxt "    `input_schema`: {" ++ nl
    ++ qtxt "      `type`: `object`" ++ nl
    ++ txt "    }" ++ nl
    ++ txt "  }" ++ nl
    ++ txt "]".
Proof. vm_compute. reflexivity. Qed.

(** Scenario A of the spec: nothing injected. *)
Example scenario_A :
  exists ex,
    process_session_turn plain_world (parse text_line) false false = Ok ex
    /\ has_tools (metadata ex) = false
    /\ response_type (metadata ex) = txt "text"
    /\ output ex = JStr (txt "Hi there!")
    /\ contains (txt "Hello!") (input ex) = true
    /\ contains (txt "<|tools|>") (input ex) = false.
Proof. eexists. repeat split; vm_compute; reflexivity. Qed.

(** Scenario B: the catalogue injected. *)
Example scenario_B :
  exists ex,
    process_session_turn plain_world (parse text_line) false true = Ok ex
    /\ has_tools (metadata ex) = true
    /\ contains (txt "<|tools|>") (input ex) = true
    /\ contains (txt "github_find_repositories") (input ex) = true.
Proof. eexists. repeat split; vm_compute; reflexivity. Qed.

(** Scenario C: a response of one tool call round-trips to a one-element
    sequence whose name is "search". *)
Example scenario_C :
  exists ex text calls,
    process_session_turn plain_world (parse tool_call_line) false false = Ok ex
    /\ response_type (metadata ex) = txt "tool_calls"
    /\ output ex = JStr text
    /\ text = qtxt "[{`type`: `tool_use`, `id`: `call_123`, `name`: `search`, `input`: {`query`: `test`}}]"
    /\ loads text = Ok (JList calls)
    /\ map (fun call => py_getitem call (txt "name")) calls = [Ok (JStr (txt "search"))].
Proof. do 3 eexists. repeat split; vm_compute; reflexivity. Qed.

(** Scenario D: one valid line and one line that is no document. *)
Example scenario_D :
  load_training_data (demo_world [text_line; txt "{not json"] None)
                     (txt "data") [txt "*.jsonl"] false false
  = (match process_session_turn plain_world (parse text_line) false false with
     | Ok ex => [Yielded ex]
     | Raise _ => []
     end ++ [Warned InvalidJSON session_file 2 JSONDecodeError],
     None).
Proof. vm_compute. reflexivity. Qed.

(** Scenario E: the data directory does not exist. *)
Example scenario_E :
  load_training_data plain_world (txt "nowhere") [txt "*.jsonl"] true true
  = ([], Some FileNotFoundError).
Proof. vm_compute. reflexivity. Qed.

(** A later pattern that matches no file raises after the examples of the
    earlier patterns have been yielded: the generator is lazy. *)
Example empty_later_pattern :
  exists ex,
    load_training_data plain_world (txt "data") [txt "*.jsonl"; txt "*.csv"] false false
    = ([Yielded ex], Some ValueError).
Proof. eexists. vm_compute. reflexivity. Qed.

(** ** The theorems at concrete inputs *)


Lemma text_response_is_verbatim_witness :
  exists ex,
    process_session_turn plain_world (parse text_line) true true = Ok ex
    /\ output ex = JStr (txt "Hi there!")
    /\ response_type (metadata ex) = txt "text".
Proof.
  apply (text_response_is_verbatim plain_world (parse text_line) true true
           (parse demo_catalogue) (txt "Hi there!"));
    vm_compute; reflexivity.
Defined.

Lemma missing_content_defaults_to_empty_text_witness :
  exists ex,
    process_session_turn plain_world (parse no_content_line) false false = Ok ex
    /\ output ex = JStr []
    /\ response_type (metadata ex) = txt "text".
Proof.
  apply (missing_content_defaults_to_empty_text plain_world (parse no_content_line)
           false false JNull);
    vm_compute; reflexivity.
Defined.

Lemma num_messages_counts_the_messages_witness :
  exists ex,
    process_session_turn plain_world (parse text_line) true true = Ok ex
    /\ num_messages (metadata ex) = 1%Z.
Proof.
  apply (num_messages_counts_the_messages plain_world (parse text_line) true true
           (parse demo_catalogue));
    vm_compute; reflexivity.
Defined.

Lemma effective_tools_spec_witness :
  effective_tools plain_world (request_of (parse text_line)) true
  = load_tool_catalogue plain_world
  /\ effective_tools plain_world (request_of (parse own_tools_line)) true
     = Ok (JDict [(txt "some", JStr (txt "tools"))])
  /\ effective_tools plain_world (request_of (parse text_line)) false = Ok JNull.
Proof.
  split; [|split].
  - apply (effective_tools_spec plain_world (request_of (parse text_line)) JNull true);
      reflexivity.
  - apply (effective_tools_spec plain_world (request_of (parse own_tools_line))
             (JDict [(txt "some", JStr (txt "tools"))]) true);
      [reflexivity | discriminate].
  - apply (effective_tools_spec plain_world (request_of (parse text_line)) JNull false);
      reflexivity.
Defined.

Lemma tools_block_when_truthy_witness :
  exists ex esys parts,
    process_session_turn plain_world (parse text_line) false true = Ok ex
    /\ inject_system_additions (system_of (parse text_line)) false = Ok esys
    /\ for_each message_part (elements (messages_of (parse text_line))) = Ok parts
    /\ input ex
       = system_block esys ++ [10; 10]
         ++ (txt "<|tools|>" ++ [10] ++ dumps_indent 2 (parse demo_catalogue)
             ++ [10] ++ txt "<|end|>")
         ++ concat (map (fun part => [10; 10] ++ part) parts).
Proof.
  destruct (tools_block_when_truthy plain_world (parse text_line) false true
              (parse demo_catalogue) eq_refl eq_refl)
    as (ex & esys & parts & Hex & Hsys & Hparts & Htruthy & _).
  exists ex, esys, parts. repeat split; auto.
Defined.


Lemma read_records_skips_bad_lines_witness :
  let lines := [txt "{not json"; [32; 10]; text_line; qtxt "{`request`: {}}"] in
  let r := read_records plain_world false false session_file 1 lines in
  snd r = None
  /\ examples_of r = flat_map (line_example plain_world false false) lines
  /\ warnings_of r
     = flat_map (line_warning plain_world false false session_file) (numbered 1 lines).
Proof.
  apply (read_records_skips_bad_lines plain_world false false session_file 1
           [txt "{not json"; [32; 10]; text_line; qtxt "{`request`: {}}"]).
  vm_compute; reflexivity.
Defined.

(** What that file comes to: one example, and two warnings, for lines 1
    and 4. *)
Example read_records_run :
  let r := read_records plain_world false false session_file 1
             [txt "{not json"; [32; 10]; text_line; qtxt "{`request`: {}}"] in
  length (examples_of r) = 1%nat
  /\ warnings_of r
     = [Warned InvalidJSON session_file 1 JSONDecodeError;
        Warned MissingKey session_file 4 (KeyError (txt "response"))].
Proof. vm_compute. split; reflexivity. Qed.

(** ** Where a claim of the spec and the code part *)

(** C5 as the spec states it fails: a turn that brings an empty tools
    sequence has a non-null effective tools value ([has_tools] is true),
    and its input text holds no tools block. *)
Lemma empty_tools_have_no_block :
  effective_tools plain_world (request_of (parse empty_tools_line)) true = Ok (JList [])
  /\ JList [] <> JNull
  /\ exists ex,
       process_session_turn plain_world (parse empty_tools_line) true true = Ok ex
       /\ has_tools (metadata ex) = true
       /\ contains (txt "<|tools|>") (input ex) = false.
Proof.
  split; [reflexivity|]. split; [discriminate|].
  eexists. repeat split; vm_compute; reflexivity.
Qed.

(** C3 as the spec states it fails: a record that is a document but no
    object, or one of whose messages is a string, raises [TypeError] out of
    the generator; the valid line after it yields nothing. *)
Lemma bad_record_aborts_the_load :
  (exists ex, record_result plain_world false false text_line = Ok ex)
  /\ loads number_line = Ok (JInt 5)
  /\ load_training_data (demo_world [number_line; text_line] (Some demo_catalogue))
                        (txt "data") [txt "*.jsonl"] false false
     = ([], Some TypeError)
  /\ load_training_data (demo_world [string_message_line; text_line] (Some demo_catalogue))
                        (txt "data") [txt "*.jsonl"] false false
     = ([], Some TypeError).
Proof.
  split; [eexists; vm_compute; reflexivity|].
  repeat split; vm_compute; reflexivity.
Qed.

(** C6: with a catalogue file that is no document, the load neither fails
    nor yields the example: the record is reported as an unparseable line
    of the session file, and the generator runs to its end.  With the
    catalogue file missing the same load raises [FileNotFoundError]. *)
Theorem unparseable_catalogue_does_not_abort :
  loads text_line = Ok (parse text_line)
  /\ load_tool_catalogue (demo_world [text_line] (Some (txt "{"))) = Raise JSONDecodeError
  /\ load_training_data (demo_world [text_line] (Some (txt "{")))
                        (txt "data") [txt "*.jsonl"] true true
     = ([Warned InvalidJSON session_file 1 JSONDecodeError], None)
  /\ load_training_data (demo_world [text_line] None)
                        (txt "data") [txt "*.jsonl"] true true
     = ([], Some FileNotFoundError).
Proof. repeat split; vm_compute; reflexivity. Qed.

(** ** Further theorems at concrete inputs *)

Lemma has_tools_tells_whether_tools_are_none_witness :
  exists ex tools,
    process_session_turn plain_world (parse text_line) true true = Ok ex
    /\ effective_tools plain_world (request_of (parse text_line)) true = Ok tools
    /\ has_tools (metadata ex) = negb (is_none tools)
    /\ has_tools (metadata ex) = true.
Proof.
  destruct (process_session_turn plain_world (parse text_line) true true) as [ex|e] eqn:Hex;
    [|vm_compute in Hex; discriminate].
  destruct (has_tools_tells_whether_tools_are_none plain_world (parse text_line)
              true true ex Hex) as (tools & Htools & Hhas & _ & Hcat).
  exists ex, tools. repeat split; auto.
  apply Hcat; [reflexivity | vm_compute; discriminate].
Defined.

Lemma output_is_never_a_list_witness :
  exists ex,
    process_session_turn plain_world (parse tool_call_line) false false = Ok ex
    /\ is_list (output ex) = false
    /\ output ex = JStr (dumps (content_of (parse tool_call_line)))
    /\ response_type (metadata ex) = txt "tool_calls".
Proof.
  destruct (process_session_turn plain_world (parse tool_call_line) false false)
    as [ex|e] eqn:Hex; [|vm_compute in Hex; discriminate].
  destruct (output_is_never_a_list plain_world (parse tool_call_line) false false ex Hex)
    as (Hlist & Hcalls & _).
  exists ex. destruct Hcalls as [Hout Htype]; [reflexivity|]. repeat split; auto.
Defined.

Lemma own_tools_never_load_the_catalogue_witness :
  process_session_turn plain_world (parse own_tools_line) true true
  = process_session_turn (demo_world [] None) (parse own_tools_line) true false.
Proof.
  apply (own_tools_never_load_the_catalogue plain_world (demo_world [] None)
           (parse own_tools_line) true true false).
  reflexivity.
Defined.

Lemma preamble_only_changes_the_system_block_witness :
  exists ex ex' tail,
    process_session_turn plain_world (parse text_line) false false = Ok ex
    /\ process_session_turn plain_world (parse text_line) true false = Ok ex'
    /\ output ex' = output ex
    /\ metadata ex' = metadata ex
    /\ input ex = txt "<|system|>" ++ nl ++ tail
    /\ input ex' = txt "<|system|>" ++ nl ++ TOOL_PREAMBLE ++ nl ++ nl ++ tail.
Proof.
  destruct (process_session_turn plain_world (parse text_line) false false)
    as [ex|e] eqn:Hex; [|vm_compute in Hex; discriminate].
  destruct (preamble_only_changes_the_system_block plain_world (parse text_line) false ex
              Hex eq_refl) as (ex' & tail & H).
  exists ex, ex', tail. split; [reflexivity | exact H].
Defined.

Lemma non_string_system_prompt_ends_the_load_witness :
  process_session_turn plain_world (parse system_blocks_line) true false = Raise TypeError
  /\ read_records plain_world true false session_file 1 [system_blocks_line; text_line]
     = ([], Some TypeError).
Proof.
  destruct (non_string_system_prompt_ends_the_load plain_world (parse system_blocks_line)
              false eq_refl eq_refl eq_refl) as [Hturn Hload].
  split; [exact Hturn|]. apply Hload; vm_compute; reflexivity.
Defined.

Lemma input_lists_the_messages_in_order_witness :
  exists ex esys tools msgs,
    process_session_turn plain_world (parse text_line) false true = Ok ex
    /\ inject_system_additions (system_of (parse text_line)) false = Ok esys
    /\ effective_tools plain_world (request_of (parse text_line)) true = Ok tools
    /\ py_iter (messages_of (parse text_line)) = Ok msgs
    /\ num_messages (metadata ex) = Z.of_nat (length msgs)
    /\ input ex
       = system_block esys
         ++ concat (map (fun block => nl ++ nl ++ block) (blocks_after_system tools msgs)).
Proof.
  destruct (process_session_turn plain_world (parse text_line) false true)
    as [ex|e] eqn:Hex; [|vm_compute in Hex; discriminate].
  destruct (input_lists_the_messages_in_order plain_world (parse text_line) false true ex Hex)
    as (esys & tools & msgs & H).
  exists ex, esys, tools, msgs. split; [reflexivity | exact H].
Defined.

Lemma missing_request_or_response_is_warned_witness :
  process_session_turn plain_world (parse no_response_line) false false
  = Raise (KeyError (txt "response"))
  /\ read_records plain_world false false session_file 1 [no_response_line; text_line]
     = then_run ([Warned MissingKey session_file 1 (KeyError (txt "response"))], None)
                (read_records plain_world false false session_file 2 [text_line]).
Proof.
  apply (missing_request_or_response_is_warned plain_world false false session_file 1
           no_response_line [text_line] (parse no_response_line));
    vm_compute; reflexivity.
Defined.

Lemma a_file_is_read_up_to_its_first_fatal_line_witness :
  let lines := [text_line; txt "{not json"; number_line; text_line] in
  let r := read_records plain_world false false session_file 1 lines in
  snd r = Some TypeError
  /\ forallb (passes plain_world false false) lines = false
  /\ length (examples_of r) = 1%nat
  /\ warnings_of r = [Warned InvalidJSON session_file 2 JSONDecodeError].
Proof.
  cbv zeta.
  destruct (a_file_is_read_up_to_its_first_fatal_line plain_world false false session_file 1
              [text_line; txt "{not json"; number_line; text_line])
    as (Hend & _ & Hex & Hwarn).
  rewrite Hend, Hex, Hwarn. repeat split; vm_compute; reflexivity.
Defined.

Lemma a_sound_corpus_is_loaded_in_order_witness :
  let r := load_training_data plain_world (txt "data") [txt "*.jsonl"] false false in
  let files := corpus_files plain_world (txt "data") [txt "*.jsonl"] in
  snd r = None
  /\ examples_of r
     = flat_map (fun file => flat_map (line_example plain_world false false)
                                      (file_lines plain_world file)) files
  /\ warnings_of r
     = flat_map (fun file => flat_map (caught_warning plain_world false false file)
                                      (numbered 1 (file_lines plain_world file))) files.
Proof.
  apply (a_sound_corpus_is_loaded_in_order plain_world (txt "data") [txt "*.jsonl"]
           false false).
  vm_compute; reflexivity.
Defined.

Lemma the_file_order_does_not_depend_on_the_listing_witness :
  load_session_files plain_world (txt "data") (txt "*.jsonl")
  = load_session_files relisted_world (txt "data") (txt "*.jsonl").
Proof.
  apply (the_file_order_does_not_depend_on_the_listing plain_world relisted_world
           (txt "data") (txt "*.jsonl")).
  - reflexivity.
  - exact (Permutation_rev (glob plain_world (txt "data") (txt "*.jsonl"))).
Defined.


Lemma an_unsized_output_ends_the_reports_witness :
  exists ex,
    process_session_turn plain_world (parse null_content_line) false false = Ok ex
    /\ output ex = JNull
    /\ snd (preview_examples [ex] 3) = Some (Raised TypeError)
    /\ length (fst (preview_examples [ex] 3)) = 10%nat
    /\ snd (show_statistics (demo_examples ++ [ex])) = Some (Raised TypeError).
Proof.
  destruct (process_session_turn plain_world (parse null_content_line) false false)
    as [ex|e] eqn:Hex; [|vm_compute in Hex; discriminate].
  exists ex. split; [reflexivity|].
  apply (an_unsized_output_ends_the_reports plain_world (parse null_content_line)
           false false ex demo_examples [] 3 Hex); [reflexivity | lia].
Defined.

Lemma statistics_of_an_empty_load_end_main_witness :
  snd (main (demo_world [txt "{not json"] (Some demo_catalogue)) stats_args default_config)
  = Some ZeroDivisionError.
Proof.
  destruct (statistics_of_an_empty_load_end_main
              (demo_world [txt "{not json"] (Some demo_catalogue)) stats_args default_config)
    as [Hstats _]; [vm_compute; reflexivity | vm_compute; reflexivity |].
  rewrite Hstats; reflexivity.
Defined.

Lemma the_split_keeps_every_example_witness :
  exists train eval warnings,
    prepare_datasets plain_world demo_config = (warnings, Returned (train, eval))
    /\ input_column train ++ input_column eval
       = map input (examples_of (training_load plain_world demo_config))
    /\ output_column train ++ output_column eval
       = map output (examples_of (training_load plain_world demo_config)).
Proof.
  destruct (prepare_datasets plain_world demo_config) as [warnings [[train eval]|f]] eqn:Hret;
    [|vm_compute in Hret; discriminate].
  destruct (the_split_keeps_every_example plain_world demo_config train eval warnings
              eq_refl Hret) as (Hin & Hout & _).
  exists train, eval, warnings. repeat split; auto.
Defined.

Lemma the_evaluation_set_is_the_last_tenth_witness :
  exists train eval warnings,
    prepare_datasets plain_world demo_config = (warnings, Returned (train, eval))
    /\ length (input_column train) = 0%nat
    /\ length (input_column eval) = 1%nat.
Proof.
  destruct (prepare_datasets plain_world demo_config) as [warnings [[train eval]|f]] eqn:Hret;
    [|vm_compute in Hret; discriminate].
  destruct (the_evaluation_set_is_the_last_tenth plain_world demo_config train eval warnings
              eq_refl Hret) as (_ & _ & _ & Htrain & Heval & _);
    [vm_compute; discriminate|].
  exists train, eval, warnings. repeat split; auto.
Defined.

Lemma the_tools_block_parses_back_witness :
  exists ex before after,
    process_session_turn plain_world (parse text_line) false true = Ok ex
    /\ input ex
       = before ++ txt "<|tools|>" ++ nl ++ dumps_indent 2 (parse demo_catalogue)
         ++ nl ++ txt "<|end|>" ++ after
    /\ loads (dumps_indent 2 (parse demo_catalogue)) = Ok (parse demo_catalogue).
Proof.
  destruct (process_session_turn plain_world (parse text_line) false true)
    as [ex|e] eqn:Hex; [|vm_compute in Hex; discriminate].
  destruct (the_tools_block_parses_back plain_world (parse text_line) false true ex
              (parse demo_catalogue) Hex eq_refl eq_refl eq_refl)
    as (before & after & H).
  exists ex, before, after. split; [reflexivity | exact H].
Defined.

Lemma tool_call_output_is_ascii_witness :
  exists ex text,
    process_session_turn plain_world (parse tool_call_line) false false = Ok ex
    /\ output ex = JStr text
    /\ forallb printable text = true.
Proof.
  destruct (process_session_turn plain_world (parse tool_call_line) false false)
    as [ex|e] eqn:Hex; [|vm_compute in Hex; discriminate].
  destruct (tool_call_output_is_ascii plain_world (parse tool_call_line) false false ex
              Hex eq_refl eq_refl) as (text & Hout & Hascii & _).
  exists ex, text. repeat split; auto.
Defined.

Lemma a_failed_load_ends_main_witness :
  main (demo_world [number_line; text_line] (Some demo_catalogue)) default_args default_config
  = (main_heading (txt "data") (txt "*.jsonl") true true, Some (Raised TypeError)).
Proof.
  rewrite (a_failed_load_ends_main
             (demo_world [number_line; text_line] (Some demo_catalogue))
             default_args default_config TypeError);
    vm_compute; reflexivity.
Defined.

Lemma evaluation_files_leave_the_training_set_whole_witness :
  exists train eval warnings,
    prepare_datasets plain_world held_out_config = (warnings, Returned (train, eval))
    /\ train = dataset_of (examples_of (training_load plain_world held_out_config))
    /\ eval = train.
Proof.
  destruct (prepare_datasets plain_world held_out_config)
    as [warnings [[train eval]|f]] eqn:Hret; [|vm_compute in Hret; discriminate].
  destruct (evaluation_files_leave_the_training_set_whole plain_world held_out_config
              train eval warnings) as (Htrain & _ & Hsame);
    [discriminate | exact Hret |].
  exists train, eval, warnings. repeat split; auto.
Defined.
